(** * Ionosphere media correction (GMAT EstimationPlugin)

    A shallow embedding of
    [src/plugins/EstimationPlugin/src/base/measurement/Ionosphere/Ionosphere.cpp]:
    the IRI2007 physics model (ray/shell clipping, TEC midpoint sum, bending
    angle march, date-window checks) and the TRK-2-23 empirical model
    (station key canonicalisation, record table scan, CONST / TRIG / NRMPOW
    evaluation).

    Conventions.
    - The C++ type [Real] (an IEEE double) is a type parameter with the
      operations the source applies to it ([RealOps]).  Every definition
      keeps the source's order of operations, so a theorem proved for all
      [RealOps] holds for doubles as it holds for the mathematical reals.
      The instance [R_RealOps] interprets [Real] as Stdlib's [R]; it is used
      where a property is a statement of real arithmetic and for concrete runs.
    - [Integer] is modelled as [Z]; the packed dates [yyyy * 10000 + mmdd]
      stay far below 2^31.
    - Code of GMAT that is not part of the translated file (string, time and
      math utilities, the IRI provider, the data files) is a field of
      [Externals].
    - Methods run in the monad [M]: the engine object and the outside world
      (message log, provider calls) are threaded explicitly, and a call ends
      normally, by a C++ exception, or in undefined behaviour. *)

From Stdlib Require Import ZArith QArith List String Ascii Bool Lia Reals Lra.
From Stdlib Require Import DecimalString.
Import ListNotations.

Set Implicit Arguments.
Local Open Scope Z_scope.

(* ------------------------------------------------------------------ *)
(** ** Real arithmetic as the source uses it *)

Declare Scope real_scope.
Delimit Scope real_scope with r.

Class RealOps (Real : Type) : Type := {
  lit   : Q -> Real;                 (* a numeric literal, or an Integer converted to Real *)
  radd  : Real -> Real -> Real;
  rsub  : Real -> Real -> Real;
  rmul  : Real -> Real -> Real;
  rdiv  : Real -> Real -> Real;
  rneg  : Real -> Real;
  rltb  : Real -> Real -> bool;      (* x < y *)
  rleb  : Real -> Real -> bool;      (* x <= y *)
  real4 : Real -> Real;              (* the cast (real): f2c single precision *)
  (* GmatMathUtil *)
  Sqrt  : Real -> Real;
  Pow   : Real -> Z -> Real;
  Cos   : Real -> Real;
  Sin   : Real -> Real;
  Tan   : Real -> Real;
  ACos  : Real -> Real;
  Max   : Real -> Real -> Real;
  Min   : Real -> Real -> Real;
  (* GmatMathConstants *)
  TWO_PI : Real
}.

Notation "x + y" := (radd x y) : real_scope.
Notation "x - y" := (rsub x y) : real_scope.
Notation "x * y" := (rmul x y) : real_scope.
Notation "x / y" := (rdiv x y) : real_scope.
Notation "- x" := (rneg x) : real_scope.
Notation "x <? y" := (rltb x y) : real_scope.
Notation "x <=? y" := (rleb x y) : real_scope.
Notation "x >? y" := (rltb y x) : real_scope.
Notation "x >=? y" := (rleb y x) : real_scope.

Definition of_int {Real} `{RealOps Real} (z : Z) : Real := lit (inject_Z z).

(* ------------------------------------------------------------------ *)
(** ** Outcomes of a call *)

(** The messages of [MeasurementException], by kind. *)
Inductive MeasurementException : Type :=
| DataFileMissing                      (* "Error: can't open Ionosphere data file." *)
| ProviderLoadError                    (* the message returned by load_all_files__ *)
| InvalidTimeRange (file : string)     (* "Error: time range specified from ... file is invalid." *)
| DataOutOfRange (dateMin dateMax : string)
                                       (* "Error: Epoch is out of range. Time range ... is from ... to ..." *)
| DensityProviderError                 (* "Ionosphere data files not found" *)
| RecordNotFound (station complex spacecraft : string)
                                       (* "... Unable to find ionospheric correction for ..." *)
| UnsupportedModel (modelType : string)
                                       (* "Error: Math Format, ..., found in .csp file does not match ..." *)
| UnrecognizedModel (name : string).   (* "Ionosphere::Correction: Unrecognized Ionosphere model ..." *)

Inductive Exception : Type :=
| Measurement (e : MeasurementException)
| std_out_of_range.                    (* std::string::substr with pos > size() *)

(** Behaviour the C++ standard leaves undefined, or that never returns. *)
Inductive Undefined : Type :=
| OutOfBounds (index size : nat)       (* operator[] past the end of a vector *)
| UninitializedRead                    (* an Integer variable read before any assignment *)
| Diverges.                            (* a loop that does not terminate *)

Inductive Outcome (A : Type) : Type :=
| Ok (a : A)
| Throw (e : Exception)
| Fault (u : Undefined).
Arguments Ok {A} a.
Arguments Throw {A} e.
Arguments Fault {A} u.

Definition obind {A B} (o : Outcome A) (k : A -> Outcome B) : Outcome B :=
  match o with
  | Ok a => k a
  | Throw e => Throw e
  | Fault u => Fault u
  end.

Notation "x <-- o ;; k" := (obind o (fun x => k))
  (at level 61, o at next level, right associativity).

(** [v[i]] on a [std::vector]. *)
Definition at_ {A} (v : list A) (i : nat) : Outcome A :=
  match nth_error v i with
  | Some a => Ok a
  | None => Fault (OutOfBounds i (List.length v))
  end.

(* ------------------------------------------------------------------ *)
(** ** std::string and stream helpers *)

Local Open Scope string_scope.

(** [s.substr(pos, n)]: throws when [pos > s.size()]. *)
Definition substr (s : string) (pos n : nat) : Outcome string :=
  if (pos <=? String.length s)%nat then Ok (substring pos n s)
  else Throw std_out_of_range.

(** [s.substr(pos)]. *)
Definition substr_from (s : string) (pos : nat) : Outcome string :=
  substr s pos (String.length s - pos).

(** [s.find_first_of(c)] stored in an [Integer]: [npos] becomes [-1]. *)
Fixpoint find_first_of (s : string) (c : ascii) : Z :=
  match s with
  | EmptyString => -1
  | String a s' =>
      if Ascii.eqb a c then 0
      else let r := find_first_of s' c in if (r <? 0)%Z then -1 else r + 1
  end.

Definition is_space (c : ascii) : bool :=
  let n := nat_of_ascii c in
  ((n =? 32) || ((9 <=? n) && (n <=? 13)))%nat.

Definition is_digit (c : ascii) : bool :=
  let n := nat_of_ascii c in ((48 <=? n) && (n <=? 57))%nat.

Fixpoint skip_ws (s : string) : string :=
  match s with
  | String a s' => if is_space a then skip_ws s' else s
  | EmptyString => EmptyString
  end.

(** Reads the digits at the head of [s], most significant first. *)
Fixpoint read_digits (s : string) (acc : Z) (seen : bool) : Z * bool * string :=
  match s with
  | String a s' =>
      if is_digit a
      then read_digits s' (acc * 10 + Z.of_nat (nat_of_ascii a - 48)) true
      else (acc, seen, s)
  | EmptyString => (acc, seen, EmptyString)
  end.

(** [stream >> anInteger] on the unread text [s]: the value and the text
    left, or [None] when no number is there. *)
Definition extract_int (s : string) : option (Z * string) :=
  let s := skip_ws s in
  let '(neg, s) :=
    match s with
    | String "-" s' => (true, s')
    | String "+" s' => (false, s')
    | _ => (false, s)
    end in
  let '(v, seen, rest) := read_digits s 0 false in
  if seen then Some (if neg then - v else v, rest) else None.

(* ------------------------------------------------------------------ *)
(** ** Engine state, outside world and externals *)

Section Model.

Context {Real : Type} {RO : RealOps Real}.

(** GMAT's [Rvector3] with the operators the source applies. *)
Record Rvector3 : Type := vec3 { vx : Real; vy : Real; vz : Real }.

Definition vadd (u v : Rvector3) : Rvector3 :=
  vec3 (vx u + vx v)%r (vy u + vy v)%r (vz u + vz v)%r.
Definition vsub (u v : Rvector3) : Rvector3 :=
  vec3 (vx u - vx v)%r (vy u - vy v)%r (vz u - vz v)%r.
Definition vscale (k : Real) (v : Rvector3) : Rvector3 :=
  vec3 (k * vx v)%r (k * vy v)%r (k * vz v)%r.
Definition vdiv (v : Rvector3) (k : Real) : Rvector3 :=
  vec3 (vx v / k)%r (vy v / k)%r (vz v / k)%r.
Definition dot (u v : Rvector3) : Real :=
  (vx u * vx v + vy u * vy v + vz u * vz v)%r.
Definition GetMagnitude (v : Rvector3) : Real := Sqrt (dot v v).
Definition GetUnitVector (v : Rvector3) : Rvector3 := vdiv v (GetMagnitude v).

(** The arguments of one call of the electron density provider [iri_sub__]. *)
Record IriCall : Type := mkIriCall {
  ic_jf : list bool;  ic_jmag : Z;
  ic_alati : Real;    ic_along : Real;
  ic_iyyyy : Z;       ic_mmdd : Z;   ic_dhour : Real;
  ic_heibeg : Real;   ic_heiend : Real;  ic_heistp : Real
}.

(** The fields of [Ionosphere] and those it inherits from [MediaCorrection]. *)
Record Ionosphere : Type := mkIonosphere {
  modelTypeName : string;
  isInitialized : bool;
  earthRadius : Real;
  groundStationId : string;
  spacecraftId : Z;
  DSNDatabase : list (list string);
  igrz_yyyymmddMin : Z;
  igrz_yyyymmddMax : Z;
  ap_yyyymmddMin : Z;
  ap_yyyymmddMax : Z;
  waveLength : Real;
  epoch : Real;
  yyyy : Z;
  mmdd : Z;
  hours : Real;
  stationLoc : Rvector3;
  spacecraftLoc : Rvector3;
  igrz_WarningCount : Z
}.

(** What [MessageInterface::ShowMessage] is called with. *)
Inductive Message : Type :=
| IgrzRangeWarning (ep : Real) (dateMin dateMax : string)
| UnrecognizedModelMessage (name : string).

Record State : Type := mkState {
  self : Ionosphere;               (* the engine object *)
  messages : list Message;         (* the message log, oldest first *)
  iri_calls : list IriCall         (* the provider calls made, oldest first *)
}.

(** Collaborators of the translated file. *)
Class Externals : Type := {
  (* GmatPhysicalConstants, GmatMathConstants *)
  SPEED_OF_LIGHT_VACUUM : Real;
  KM_TO_M : Real;
  (* GmatStringUtil; [ToInteger] and [ToReal] give the value they store on
     success and leave their output argument alone on failure *)
  ToInteger : string -> option Z;
  ToReal : string -> option Real;
  ToRealArray : string -> list Real;
  ToString : Z -> string;
  Trim : string -> string;
  RemoveAllBlanks : string -> string;
  (* time utilities *)
  ModifiedJulianDate : Z -> Z -> Z -> Z -> Z -> Real -> Real;
  ConvertA1MjdToUTCGregorian : Real -> string;
  (* C library *)
  atoi : string -> Z;
  atof : string -> Real;
  (* the Earth of the solar system in use, and GmatCalcUtil *)
  EquatorialRadius : Real;
  Flattening : Real;
  CalculatePlanetData : string -> Rvector3 * Rvector3 -> Real -> Real -> Real -> Real;
  (* iri_sub__: the value left in outf[21] and the status ier *)
  iri_sub : IriCall -> Real * Z;
  (* MediaCorrectionInterface::Initialize, the two index files as their
     lines, and the status of load_all_files__ *)
  MediaCorrectionInterface_Initialize : bool;
  ap_dat : list string;
  ig_rz_dat : list string;
  load_all_files : Z
}.

Context {EX : Externals}.

(* ------------------------------------------------------------------ *)
(** ** The monad of method calls *)

Definition M (A : Type) : Type := State -> State * Outcome A.

Definition ret {A} (a : A) : M A := fun st => (st, Ok a).
Definition throw {A} (e : MeasurementException) : M A :=
  fun st => (st, Throw (Measurement e)).
Definition lift {A} (o : Outcome A) : M A := fun st => (st, o).
Definition bind {A B} (m : M A) (k : A -> M B) : M B :=
  fun st =>
    match m st with
    | (st', Ok a) => k a st'
    | (st', Throw e) => (st', Throw e)
    | (st', Fault u) => (st', Fault u)
    end.
Definition this : M Ionosphere := fun st => (st, Ok (self st)).
Definition assign (f : Ionosphere -> Ionosphere) : M unit :=
  fun st => (mkState (f (self st)) (messages st) (iri_calls st), Ok tt).
Definition ShowMessage (m : Message) : M unit :=
  fun st => (mkState (self st) (messages st ++ [m])%list (iri_calls st), Ok tt).
Definition call_iri_sub (c : IriCall) : M (Real * Z) :=
  fun st => (mkState (self st) (messages st) (iri_calls st ++ [c])%list, Ok (iri_sub c)).

Notation "x <- m ;; k" := (bind m (fun x => k))
  (at level 61, m at next level, right associativity).
Notation "' pat <- m ;; k" := (bind m (fun x => match x with pat => k end))
  (at level 61, pat pattern, m at next level, right associativity).
Notation "m ;;; k" := (bind m (fun _ => k))
  (at level 61, right associativity).

(** Field assignments. *)
Definition set_isInitialized (b : bool) (o : Ionosphere) : Ionosphere :=
  mkIonosphere (modelTypeName o) b (earthRadius o) (groundStationId o)
    (spacecraftId o) (DSNDatabase o) (igrz_yyyymmddMin o) (igrz_yyyymmddMax o)
    (ap_yyyymmddMin o) (ap_yyyymmddMax o) (waveLength o) (epoch o) (yyyy o)
    (mmdd o) (hours o) (stationLoc o) (spacecraftLoc o) (igrz_WarningCount o).
Definition set_earthRadius (r : Real) (o : Ionosphere) : Ionosphere :=
  mkIonosphere (modelTypeName o) (isInitialized o) r (groundStationId o)
    (spacecraftId o) (DSNDatabase o) (igrz_yyyymmddMin o) (igrz_yyyymmddMax o)
    (ap_yyyymmddMin o) (ap_yyyymmddMax o) (waveLength o) (epoch o) (yyyy o)
    (mmdd o) (hours o) (stationLoc o) (spacecraftLoc o) (igrz_WarningCount o).
Definition set_groundStationId (g : string) (o : Ionosphere) : Ionosphere :=
  mkIonosphere (modelTypeName o) (isInitialized o) (earthRadius o) g
    (spacecraftId o) (DSNDatabase o) (igrz_yyyymmddMin o) (igrz_yyyymmddMax o)
    (ap_yyyymmddMin o) (ap_yyyymmddMax o) (waveLength o) (epoch o) (yyyy o)
    (mmdd o) (hours o) (stationLoc o) (spacecraftLoc o) (igrz_WarningCount o).
Definition set_igrz_yyyymmddMin (d : Z) (o : Ionosphere) : Ionosphere :=
  mkIonosphere (modelTypeName o) (isInitialized o) (earthRadius o) (groundStationId o)
    (spacecraftId o) (DSNDatabase o) d (igrz_yyyymmddMax o)
    (ap_yyyymmddMin o) (ap_yyyymmddMax o) (waveLength o) (epoch o) (yyyy o)
    (mmdd o) (hours o) (stationLoc o) (spacecraftLoc o) (igrz_WarningCount o).
Definition set_igrz_yyyymmddMax (d : Z) (o : Ionosphere) : Ionosphere :=
  mkIonosphere (modelTypeName o) (isInitialized o) (earthRadius o) (groundStationId o)
    (spacecraftId o) (DSNDatabase o) (igrz_yyyymmddMin o) d
    (ap_yyyymmddMin o) (ap_yyyymmddMax o) (waveLength o) (epoch o) (yyyy o)
    (mmdd o) (hours o) (stationLoc o) (spacecraftLoc o) (igrz_WarningCount o).
Definition set_ap_yyyymmddMin (d : Z) (o : Ionosphere) : Ionosphere :=
  mkIonosphere (modelTypeName o) (isInitialized o) (earthRadius o) (groundStationId o)
    (spacecraftId o) (DSNDatabase o) (igrz_yyyymmddMin o) (igrz_yyyymmddMax o)
    d (ap_yyyymmddMax o) (waveLength o) (epoch o) (yyyy o)
    (mmdd o) (hours o) (stationLoc o) (spacecraftLoc o) (igrz_WarningCount o).
Definition set_ap_yyyymmddMax (d : Z) (o : Ionosphere) : Ionosphere :=
  mkIonosphere (modelTypeName o) (isInitialized o) (earthRadius o) (groundStationId o)
    (spacecraftId o) (DSNDatabase o) (igrz_yyyymmddMin o) (igrz_yyyymmddMax o)
    (ap_yyyymmddMin o) d (waveLength o) (epoch o) (yyyy o)
    (mmdd o) (hours o) (stationLoc o) (spacecraftLoc o) (igrz_WarningCount o).
Definition set_waveLength (l : Real) (o : Ionosphere) : Ionosphere :=
  mkIonosphere (modelTypeName o) (isInitialized o) (earthRadius o) (groundStationId o)
    (spacecraftId o) (DSNDatabase o) (igrz_yyyymmddMin o) (igrz_yyyymmddMax o)
    (ap_yyyymmddMin o) (ap_yyyymmddMax o) l (epoch o) (yyyy o)
    (mmdd o) (hours o) (stationLoc o) (spacecraftLoc o) (igrz_WarningCount o).
Definition set_epoch (ep : Real) (o : Ionosphere) : Ionosphere :=
  mkIonosphere (modelTypeName o) (isInitialized o) (earthRadius o) (groundStationId o)
    (spacecraftId o) (DSNDatabase o) (igrz_yyyymmddMin o) (igrz_yyyymmddMax o)
    (ap_yyyymmddMin o) (ap_yyyymmddMax o) (waveLength o) ep (yyyy o)
    (mmdd o) (hours o) (stationLoc o) (spacecraftLoc o) (igrz_WarningCount o).
Definition set_yyyy (y : Z) (o : Ionosphere) : Ionosphere :=
  mkIonosphere (modelTypeName o) (isInitialized o) (earthRadius o) (groundStationId o)
    (spacecraftId o) (DSNDatabase o) (igrz_yyyymmddMin o) (igrz_yyyymmddMax o)
    (ap_yyyymmddMin o) (ap_yyyymmddMax o) (waveLength o) (epoch o) y
    (mmdd o) (hours o) (stationLoc o) (spacecraftLoc o) (igrz_WarningCount o).
Definition set_mmdd (md : Z) (o : Ionosphere) : Ionosphere :=
  mkIonosphere (modelTypeName o) (isInitialized o) (earthRadius o) (groundStationId o)
    (spacecraftId o) (DSNDatabase o) (igrz_yyyymmddMin o) (igrz_yyyymmddMax o)
    (ap_yyyymmddMin o) (ap_yyyymmddMax o) (waveLength o) (epoch o) (yyyy o)
    md (hours o) (stationLoc o) (spacecraftLoc o) (igrz_WarningCount o).
Definition set_hours (h : Real) (o : Ionosphere) : Ionosphere :=
  mkIonosphere (modelTypeName o) (isInitialized o) (earthRadius o) (groundStationId o)
    (spacecraftId o) (DSNDatabase o) (igrz_yyyymmddMin o) (igrz_yyyymmddMax o)
    (ap_yyyymmddMin o) (ap_yyyymmddMax o) (waveLength o) (epoch o) (yyyy o)
    (mmdd o) h (stationLoc o) (spacecraftLoc o) (igrz_WarningCount o).
Definition set_stationLoc (p : Rvector3) (o : Ionosphere) : Ionosphere :=
  mkIonosphere (modelTypeName o) (isInitialized o) (earthRadius o) (groundStationId o)
    (spacecraftId o) (DSNDatabase o) (igrz_yyyymmddMin o) (igrz_yyyymmddMax o)
    (ap_yyyymmddMin o) (ap_yyyymmddMax o) (waveLength o) (epoch o) (yyyy o)
    (mmdd o) (hours o) p (spacecraftLoc o) (igrz_WarningCount o).
Definition set_spacecraftLoc (p : Rvector3) (o : Ionosphere) : Ionosphere :=
  mkIonosphere (modelTypeName o) (isInitialized o) (earthRadius o) (groundStationId o)
    (spacecraftId o) (DSNDatabase o) (igrz_yyyymmddMin o) (igrz_yyyymmddMax o)
    (ap_yyyymmddMin o) (ap_yyyymmddMax o) (waveLength o) (epoch o) (yyyy o)
    (mmdd o) (hours o) (stationLoc o) p (igrz_WarningCount o).
Definition set_igrz_WarningCount (n : Z) (o : Ionosphere) : Ionosphere :=
  mkIonosphere (modelTypeName o) (isInitialized o) (earthRadius o) (groundStationId o)
    (spacecraftId o) (DSNDatabase o) (igrz_yyyymmddMin o) (igrz_yyyymmddMax o)
    (ap_yyyymmddMin o) (ap_yyyymmddMax o) (waveLength o) (epoch o) (yyyy o)
    (mmdd o) (hours o) (stationLoc o) (spacecraftLoc o) n.

(* ------------------------------------------------------------------ *)
(** ** Construction and the setters *)

(** [Ionosphere::Ionosphere(nomme)]; the arguments are the fields the base
    class constructor sets. *)
Definition Ionosphere_new (nomme : string) (radius : Real) (station : string)
    (scid : Z) (db : list (list string)) (origin : Rvector3) : Ionosphere :=
  mkIonosphere nomme false radius station scid db
    20000101 20000101 20000101 20000101
    (lit 0) (lit 0) 0 0 (lit 0) origin origin 0.

Definition IsInitialized : M bool := o <- this ;; ret (isInitialized o).

Definition SetWaveLength (lambda : Real) : M bool :=
  assign (set_waveLength lambda) ;;; ret true.

Definition SetTime (ep : Real) : M bool :=
  assign (set_epoch ep) ;;;
  o <- this ;;
  let time := ConvertA1MjdToUTCGregorian (epoch o) in
  y <- lift (substr time 0 4) ;;
  assign (set_yyyy (atoi y)) ;;;
  mo <- lift (substr time 5 2) ;;
  d <- lift (substr time 8 2) ;;
  assign (set_mmdd (atoi mo * 100 + atoi d)) ;;;
  h <- lift (substr time 11 2) ;;
  mi <- lift (substr time 14 2) ;;
  se <- lift (substr time 17 2) ;;
  ms <- lift (substr time 20 3) ;;
  assign (set_hours (atof h + atof mi / lit 60 + atof se / lit 3600
                     + atof ms / lit 3600000)%r) ;;;
  ret true.

Definition SetStationPosition (p : Rvector3) : M bool :=
  assign (set_stationLoc p) ;;; ret true.

Definition SetSpacecraftPosition (p : Rvector3) : M bool :=
  assign (set_spacecraftLoc p) ;;; ret true.

Definition SetEarthRadius (r : Real) : M bool :=
  assign (set_earthRadius r) ;;; ret true.

(* ------------------------------------------------------------------ *)
(** ** Time ranges of the index files *)

(** A [std::stringstream]: the unread text and whether the stream is good.
    An extraction that runs into the end of the text sets eofbit, after
    which neither [<<] nor [>>] does anything. *)
Record stringstream : Type := mkStream { unread : string; good : bool }.

Definition ss_new : stringstream := mkStream "" true.

(** [ss.str(text)] replaces the text and keeps the state bits. *)
Definition ss_str (ss : stringstream) (text : string) : stringstream :=
  mkStream text (good ss).

(** [ss << text]. *)
Definition ss_put (ss : stringstream) (text : string) : stringstream :=
  if good ss then mkStream (unread ss ++ text) true else ss.

(** [ss >> v] for an [Integer v] that holds [old] ([None]: never
    assigned).  On a stream that is not good nothing is done.  On a good
    stream the white space is skipped first: when no text is left after it,
    the extraction fails before anything is parsed and [v] keeps what it
    held; when text is left in which no number is read, the parse fails and
    stores 0. *)
Definition ss_get (ss : stringstream) (old : option Z) : stringstream * option Z :=
  if good ss then
    let text := skip_ws (unread ss) in
    if text =? "" then (mkStream "" false, old)
    else
      match extract_int text with
      | Some (v, rest) => (mkStream rest (negb (rest =? "")), Some v)
      | None => (mkStream text false, Some 0)
      end
  else (ss, old).

(** Reading an [Integer] variable. *)
Definition read_var (v : option Z) : M Z :=
  match v with
  | Some z => ret z
  | None => lift (Fault UninitializedRead)
  end.

(** [while(!fs.eof()) { oldLine = theLine; std::getline(fs,theLine); }]
    over the lines that follow the one already read. *)
Fixpoint last_lines (rest : list string) (oldLine theLine : string) : string * string :=
  match rest with
  | [] => (oldLine, theLine)
  | l :: rest' => last_lines rest' theLine l
  end.

(** The two-digit year of an ap.dat line, made a full year. *)
Definition AP_year (year : Z) : Z :=
  if (year >=? 58)%Z then 1900 + year else 2000 + year.

Definition GetAPTimeRange : M unit :=
  let filename := "/IonosphereData/ap.dat" in
  (* 2. lower bound: the first line *)
  let theLine := hd "" ap_dat in
  let ss := ss_put ss_new theLine in
  let '(ss, year) := ss_get ss None in
  let '(ss, month) := ss_get ss None in
  let '(ss, day) := ss_get ss None in
  year <- read_var year ;;
  let year := AP_year year in
  mo <- read_var month ;;
  d <- read_var day ;;
  assign (set_ap_yyyymmddMin (year * 10000 + mo * 100 + d)) ;;;
  (* 3. upper bound: the last line *)
  let '(oldLine, theLine) := last_lines (tl ap_dat) "" theLine in
  let theLine := if theLine =? "" then oldLine else theLine in
  let ss := ss_put (ss_str ss "") theLine in
  let '(ss, year) := ss_get ss (Some year) in
  let '(ss, month) := ss_get ss month in
  let '(ss, day) := ss_get ss day in
  year <- read_var year ;;
  let year := AP_year year in
  mo <- read_var month ;;
  d <- read_var day ;;
  assign (set_ap_yyyymmddMax (year * 10000 + mo * 100 + d)) ;;;
  (* 5. verify the range *)
  o <- this ;;
  if (ap_yyyymmddMax o <=? ap_yyyymmddMin o)%Z
  then throw (InvalidTimeRange filename)
  else ret tt.

(** [do { GetLine(&fs, theLine); theLine = Trim(theLine); } while (theLine == "")]:
    the first line that is not blank and the lines after it; the loop does
    not end when no such line is left. *)
Fixpoint next_nonblank (lines : list string) : Outcome (string * list string) :=
  match lines with
  | [] => Fault Diverges
  | l :: rest =>
      let t := Trim l in
      if t =? "" then next_nonblank rest else Ok (t, rest)
  end.

(** [loc = s.find_first_of(','); f = s.substr(0, loc); s = s.substr(loc+1)]. *)
Definition split_comma (s : string) : string * string :=
  let loc := find_first_of s "," in
  if (loc <? 0)%Z then (s, s)
  else (substring 0 (Z.to_nat loc) s,
        substring (Z.to_nat (loc + 1)) (String.length s - Z.to_nat (loc + 1)) s).

Definition GetIGRZTimeRange : M unit :=
  let filename := "/IonosphereData/ig_rz.dat" in
  (* 2.1 the creation date of the file *)
  '(_, lines) <- lift (next_nonblank ig_rz_dat) ;;
  (* 2.2 the time range *)
  '(theLine, _) <- lift (next_nonblank lines) ;;
  (* 2.3 month and year of both ends *)
  let '(monthMins, theLine) := split_comma theLine in
  let '(yearMins, theLine) := split_comma theLine in
  let '(monthMaxs, theLine) := split_comma theLine in
  let '(yearMaxs, theLine) := split_comma theLine in
  let ss := ss_put ss_new monthMins in
  let ss := ss_put ss " " in
  let ss := ss_put ss yearMins in
  let ss := ss_put ss " " in
  let ss := ss_put ss monthMaxs in
  let ss := ss_put ss " " in
  let ss := ss_put ss yearMaxs in
  let '(ss, monthMin) := ss_get ss None in
  let '(ss, yearMin) := ss_get ss None in
  let '(ss, monthMax) := ss_get ss None in
  let '(ss, yearMax) := ss_get ss None in
  yearMin <- read_var yearMin ;;
  monthMin <- read_var monthMin ;;
  assign (set_igrz_yyyymmddMin (yearMin * 10000 + monthMin * 100 + 1)) ;;;
  monthMax <- read_var monthMax ;;
  dayMax <-
    (if (monthMax =? 2)%Z then
       yearMax <- read_var yearMax ;;
       ret (if ((Z.rem yearMax 4 =? 0) && negb (Z.rem yearMax 100 =? 0)
                || (Z.rem yearMax 400 =? 0))%Z
            then 29 else 28)
     else if existsb (Z.eqb monthMax) [1; 3; 5; 7; 8; 10; 12]
     then ret 31
     else ret 30) ;;
  yearMax <- read_var yearMax ;;
  assign (set_igrz_yyyymmddMax (yearMax * 10000 + monthMax * 100 + dayMax)) ;;;
  o <- this ;;
  if (igrz_yyyymmddMax o <=? igrz_yyyymmddMin o)%Z
  then throw (InvalidTimeRange filename)
  else ret tt.

Definition Initialize : M bool :=
  b <- IsInitialized ;;
  if b then ret true
  else
    (if MediaCorrectionInterface_Initialize then
       GetAPTimeRange ;;;
       GetIGRZTimeRange ;;;
       let errNo := load_all_files in
       if (errNo >=? 1000)%Z then throw DataFileMissing
       else if ((1000 >? errNo) && (errNo >? 0))%Z then throw ProviderLoadError
       else assign (set_isInitialized true)
     else ret tt) ;;;
    ret true.

(* ------------------------------------------------------------------ *)
(** ** The IRI2007 physics model *)

Definition NUM_OF_INTERVALS : nat := 200.
Definition IONOSPHERE_MAX_ALTITUDE : Q := 2000.

(** [jf[1..30]]: all TRUE_ except the entries the source clears. *)
Definition jf_flags : list bool :=
  map (fun i => negb (existsb (Nat.eqb i) [2; 3; 5; 6; 23; 29; 30; 12; 21; 28]%nat))
      (seq 1 30).

Definition ElectronDensity (pos1 : Rvector3) : M Real :=
  o <- this ;;
  let radius := EquatorialRadius in
  let flattening := Flattening in
  let state := (pos1, vec3 (lit 0) (lit 0) (lit 0)) in
  let latitude := real4 (CalculatePlanetData "Latitude" state radius flattening (lit 0)) in
  let longitude := real4 (CalculatePlanetData "Longitude" state radius flattening (lit 0)) in
  let hbeg := real4 (CalculatePlanetData "Altitude" state radius flattening (lit 0)) in
  let jmag := 0 in
  let iy := yyyy o in
  let md := mmdd o in
  let hour := real4 (hours o) in
  let hend := hbeg in
  let hstp := real4 (lit 1) in
  let iut := 1 in
  let hour := real4 (hour + of_int iut * lit 25)%r in
  '(outf21, error) <- call_iri_sub
      (mkIriCall jf_flags jmag latitude longitude iy md hour hbeg hend hstp) ;;
  if negb (error =? 0)%Z then throw DensityProviderError
  else
    let density := outf21 in
    let density := if (density <? lit 0)%r then real4 (lit 0) else density in
    ret density.

(** The body of the integration loop of [TEC], [n] iterations left. *)
Fixpoint TEC_loop (n : nat) (dR p1 : Rvector3) (tec : Real) : M Real :=
  match n with
  | O => ret tec
  | S n' =>
      let p2 := vadd p1 dR in
      electdensity <- ElectronDensity (vdiv (vadd p1 p2) (lit 2)) ;;
      let ds := (GetMagnitude (vsub p2 p1) * KM_TO_M)%r in
      TEC_loop n' dR p2 (tec + electdensity * ds)%r
  end.

Definition TEC : M Real :=
  o <- this ;;
  let s := vsub (spacecraftLoc o) (stationLoc o) in
  let a := dot s s in
  let b := dot (vscale (lit 2) (stationLoc o)) s in
  let c := (dot (stationLoc o) (stationLoc o)
            - Pow (earthRadius o + lit IONOSPHERE_MAX_ALTITUDE) 2)%r in
  let discriminant := (b * b - lit 4 * a * c)%r in
  if (discriminant <=? lit 0)%r then ret (lit 0)
  else
    let d1 := ((- b - Sqrt (b * b - lit 4 * a * c)) / (lit 2 * a))%r in
    let d2 := ((- b + Sqrt (b * b - lit 4 * a * c)) / (lit 2 * a))%r in
    if ((d1 >? lit 1)%r && (d2 >? lit 1)%r) || ((d1 <? lit 0)%r && (d2 <? lit 0)%r)
    then ret (lit 0)
    else
      let d1 := Max d1 (lit 0) in
      let d2 := Min d2 (lit 1) in
      let start := vadd (stationLoc o) (vscale d1 s) in
      let end_ := vadd (stationLoc o) (vscale d2 s) in
      let dR := vdiv (vsub end_ start) (of_int (Z.of_nat NUM_OF_INTERVALS)) in
      TEC_loop NUM_OF_INTERVALS dR start (lit 0).

(** The body of the marching loop of [BendingAngle], [n] iterations left. *)
Fixpoint BendingAngle_loop (n : nat) (rangeVec dR : Rvector3) (freq : Real)
    (r_i1 : Rvector3) (theta_i1 n_i1 dtheta_i1 : Real) : M Real :=
  match n with
  | O => ret dtheta_i1
  | S n' =>
      let r_i := vsub r_i1 dR in
      density_i <- ElectronDensity r_i ;;
      let n_i := (lit 1 - lit 40.3 * density_i / (freq * freq))%r in
      let dtheta := ((n_i1 - n_i) / n_i * Tan theta_i1)%r in
      let dtheta_i1 := (dtheta_i1 + dtheta)%r in
      let r_i1 := r_i in
      let theta_i1 :=
        (ACos (dot (GetUnitVector rangeVec) (GetUnitVector r_i1)) - dtheta_i1)%r in
      BendingAngle_loop n' rangeVec dR freq r_i1 theta_i1 n_i dtheta_i1
  end.

Definition BendingAngle : M Real :=
  o <- this ;;
  let s := vsub (spacecraftLoc o) (stationLoc o) in
  let a := dot s s in
  let b := dot (vscale (lit 2) (stationLoc o)) s in
  let c := (dot (stationLoc o) (stationLoc o)
            - Pow (earthRadius o + lit IONOSPHERE_MAX_ALTITUDE) 2)%r in
  let discriminant := (b * b - lit 4 * a * c)%r in
  if (discriminant <=? lit 0)%r then ret (lit 0)
  else
    let d1 := ((- b - Sqrt (b * b - lit 4 * a * c)) / (lit 2 * a))%r in
    let d2 := ((- b + Sqrt (b * b - lit 4 * a * c)) / (lit 2 * a))%r in
    if ((d1 >? lit 1)%r && (d2 >? lit 1)%r) || ((d1 <? lit 0)%r && (d2 <? lit 0)%r)
    then ret (lit 0)
    else
      let d1 := Max d1 (lit 0) in
      let d2 := Min d2 (lit 1) in
      let start := vadd (stationLoc o) (vscale d1 s) in
      let end_ := vadd (stationLoc o) (vscale d2 s) in
      let rangeVec := vsub end_ start in
      let dR := vdiv rangeVec (of_int (Z.of_nat NUM_OF_INTERVALS)) in
      let r_i1 := end_ in
      let freq := (SPEED_OF_LIGHT_VACUUM / waveLength o)%r in
      let theta_i1 := ACos (dot (GetUnitVector rangeVec) (GetUnitVector r_i1)) in
      density_i1 <- ElectronDensity r_i1 ;;
      let n_i1 := (lit 1 - lit 40.3 * density_i1 / (freq * freq))%r in
      dtheta_i1 <- BendingAngle_loop NUM_OF_INTERVALS rangeVec dR freq
                     r_i1 theta_i1 n_i1 (lit 0) ;;
      let dbeta := (- dtheta_i1)%r in
      ret dbeta.

(** [month/day/year] of a packed YYYYMMDD date, as the messages print it. *)
Definition date_string (yyyymmdd : Z) : string :=
  let year := Z.quot yyyymmdd 10000 in
  let md := yyyymmdd - year * 10000 in
  let month := Z.quot md 100 in
  let day := md - month * 100 in
  Trim (ToString month) ++ "/" ++ Trim (ToString day) ++ "/" ++ Trim (ToString year).

Definition CalculateIRI2007 : M (list Real) :=
  b <- IsInitialized ;;
  (if negb b then Initialize else ret true) ;;;
  o <- this ;;
  let mjdate := yyyy o * 10000 + mmdd o in
  (* the time range of ig_rz.dat *)
  (if ((igrz_yyyymmddMin o >? mjdate) || (mjdate >=? igrz_yyyymmddMax o))%Z then
     let dateMin := date_string (igrz_yyyymmddMin o) in
     let dateMax := date_string (igrz_yyyymmddMax o) in
     if (igrz_WarningCount o =? 0)%Z then
       ShowMessage (IgrzRangeWarning (epoch o) dateMin dateMax) ;;;
       assign (fun o => set_igrz_WarningCount (igrz_WarningCount o + 1) o)
     else ret tt
   else ret tt) ;;;
  (* the time range of ap.dat *)
  (if ((ap_yyyymmddMin o >? mjdate) || (mjdate >=? ap_yyyymmddMax o))%Z then
     let dateMin := date_string (ap_yyyymmddMin o) in
     let dateMax := date_string (ap_yyyymmddMax o) in
     throw (DataOutOfRange dateMin dateMax)
   else ret tt) ;;;
  let freq := (SPEED_OF_LIGHT_VACUUM / waveLength o)%r in
  tec <- TEC ;;
  let drho := (lit 40.3 * tec / (freq * freq))%r in
  dphi <- BendingAngle ;;
  let dtime := (drho / SPEED_OF_LIGHT_VACUUM)%r in
  ret [drho; dphi; dtime].

(* ------------------------------------------------------------------ *)
(** ** The TRK-2-23 empirical model *)

(** The two-digit year of a TRK-2-23 time token, made a full year. *)
Definition TRK223_year (year : Z) : Z :=
  if ((year >=? 69) && (year <? 1000))%Z then year + 1900
  else if (year <? 69)%Z then year + 2000
  else year.

(** [Integer v = 0; GmatStringUtil::ToInteger(text, v)]. *)
Definition ToInteger_or (dflt : Z) (text : string) : Z :=
  match ToInteger text with Some v => v | None => dflt end.

Definition GetTRK223Time (TRK223TimeLine : string) : Outcome Real :=
  y <-- substr TRK223TimeLine 0 2 ;;
  let year := TRK223_year (ToInteger_or 0 y) in
  mo <-- substr TRK223TimeLine 3 2 ;;
  let monthTRK := ToInteger_or 0 mo in
  d <-- substr TRK223TimeLine 6 2 ;;
  let day := ToInteger_or 0 d in
  h <-- substr TRK223TimeLine 9 2 ;;
  let hour := ToInteger_or 0 h in
  mi <-- substr TRK223TimeLine 12 2 ;;
  let minute := ToInteger_or 0 mi in
  second <--
    (if (14 <? String.length TRK223TimeLine)%nat then
       se <-- substr_from TRK223TimeLine 15 ;;
       Ok (match ToReal se with Some v => v | None => lit 0 end)
     else Ok (lit 0)) ;;
  Ok (ModifiedJulianDate year monthTRK day hour minute second).

(** The indices [i = 2, 4, 6, ...] with [i < size] the TRIG loop visits. *)
Definition TRIG_indices (size : nat) : list nat :=
  filter Nat.even (seq 2 (size - 2)).

Fixpoint TRIG_loop (idx : list nat) (coefs : list Real) (Time : Real)
    (count : Z) (drho : Real) : Outcome Real :=
  match idx with
  | [] => Ok drho
  | i :: idx' =>
      ci <-- at_ coefs i ;;
      ci1 <-- at_ coefs (i + 1) ;;
      TRIG_loop idx' coefs Time (count + 1)
        (drho + (ci * Cos (Time * of_int count) + ci1 * Sin (Time * of_int count)))%r
  end.

Fixpoint NRMPOW_loop (idx : list nat) (coefs : list Real) (Time : Real)
    (drho : Real) : Outcome Real :=
  match idx with
  | [] => Ok drho
  | i :: idx' =>
      ci <-- at_ coefs i ;;
      NRMPOW_loop idx' coefs Time (drho + ci * Pow Time (Z.of_nat i))%r
  end.

(** The correction a record gives before it is rescaled to the signal
    frequency: the CONST / TRIG / NRMPOW branches of [TRK223Solver]. *)
Definition TRK223_series (modelType : string) (coefs : list Real)
    (epochTime epochStart epochEnd : Real) : Outcome Real :=
  if modelType =? "CONST" then
    at_ coefs 0
  else if modelType =? "TRIG" then
    let Time := (epochTime * lit 86400)%r in
    let spanStart := (epochStart * lit 86400)%r in
    c0 <-- at_ coefs 0 ;;
    let Time := (TWO_PI * (Time - spanStart) / c0)%r in
    c1 <-- at_ coefs 1 ;;
    TRIG_loop (TRIG_indices (List.length coefs)) coefs Time 1 c1
  else if modelType =? "NRMPOW" then
    let Time := (epochTime * lit 86400)%r in
    let spanStart := (epochStart * lit 86400)%r in
    let spanEnd := (epochEnd * lit 86400)%r in
    let Time := (lit 2 * ((Time - spanStart) / (spanEnd - spanStart)) - lit 1)%r in
    NRMPOW_loop (seq 0 (List.length coefs)) coefs Time (lit 0)
  else Throw (Measurement (UnsupportedModel modelType)).

Definition freqSBand : Real := (lit 2295 * lit 1000000)%r.

Definition TRK223Solver (TRK223Line : list string) (epochTime : Real) : M Real :=
  o <- this ;;
  modelType <- lift (at_ TRK223Line 1) ;;
  f2 <- lift (at_ TRK223Line 2) ;;
  let coefs := ToRealArray f2 in
  f4 <- lift (at_ TRK223Line 4) ;;
  epochStart <- lift (GetTRK223Time f4) ;;
  f5 <- lift (at_ TRK223Line 5) ;;
  epochEnd <- lift (GetTRK223Time f5) ;;
  drho <- lift (TRK223_series modelType coefs epochTime epochStart epochEnd) ;;
  let freq := (SPEED_OF_LIGHT_VACUUM / waveLength o)%r in
  let drho := (drho * (freqSBand / freq) * (freqSBand / freq))%r in
  ret drho.

(** The innermost tests of the table scan:
    [GetTRK223Time(row[4]) <= epoch && GetTRK223Time(row[5]) >= epoch],
    then [row[3] == "CHPART"]. *)
Definition brackets_CHPART (row : list string) (ep : Real) : Outcome bool :=
  f4 <-- at_ row 4 ;;
  t4 <-- GetTRK223Time f4 ;;
  if (t4 <=? ep)%r then
    f5 <-- at_ row 5 ;;
    t5 <-- GetTRK223Time f5 ;;
    if (t5 >=? ep)%r then
      f3 <-- at_ row 3 ;;
      Ok (f3 =? "CHPART")
    else Ok false
  else Ok false.

(** Which entry of [ionoLine] the body of the scan loop assigns for a row:
    0 for a complex-level match, 1 for a station-level match. *)
Inductive Level : Type := ComplexLevel | StationLevel.

Definition match_level (spacecraftName DSNComplexName station : string) (ep : Real)
    (row : list string) : Outcome (option Level) :=
  f7 <-- at_ row 7 ;;
  if f7 =? spacecraftName then
    f0 <-- at_ row 0 ;;
    if (f0 =? "DOPRNG") || (f0 =? "RANGE") then
      f6 <-- at_ row 6 ;;
      if f6 =? DSNComplexName then
        hit <-- brackets_CHPART row ep ;;
        Ok (if hit then Some ComplexLevel else None)
      else if f6 =? station then
        hit <-- brackets_CHPART row ep ;;
        Ok (if hit then Some StationLevel else None)
      else Ok None
    else Ok None
  else Ok None.

(** [for (i = 0; i < DSNDatabase.size(); ++i)] from row [i] on. *)
Fixpoint scan (spacecraftName DSNComplexName station : string) (ep : Real)
    (rows : list (list string)) (i : nat) (ionoLine : Z * Z) : Outcome (Z * Z) :=
  match rows with
  | [] => Ok ionoLine
  | row :: rows' =>
      lv <-- match_level spacecraftName DSNComplexName station ep row ;;
      let ionoLine :=
        match lv with
        | Some ComplexLevel => (Z.of_nat i, snd ionoLine)
        | Some StationLevel => (fst ionoLine, Z.of_nat i)
        | None => ionoLine
        end in
      scan spacecraftName DSNComplexName station ep rows' (S i) ionoLine
  end.

(** The complex a station number belongs to; [dflt] is the name held so far. *)
Definition complex_of (stationNumber : Z) (dflt : string) : string :=
  if (stationNumber <? 30)%Z then "DSN(C10)"
  else if ((stationNumber <? 50) && (stationNumber >=? 30))%Z then "DSN(C40)"
  else if (stationNumber >=? 50)%Z then "DSN(C60)"
  else dflt.

(** [CalculateTRK223], first part: the station key is put in DSN form in
    the engine itself, and the complex of the station is named. *)
Definition CalculateTRK223_station : M string :=
  o <- this ;;
  let DSNComplexName := "" in
  (* common abbreviations *)
  DSNComplexName <-
    (if groundStationId o =? "GDS" then
       assign (set_groundStationId "DSN(C10)") ;;; ret "DSN(C10)"
     else if groundStationId o =? "CAN" then
       assign (set_groundStationId "DSN(C40)") ;;; ret "DSN(C40)"
     else if groundStationId o =? "MAD" then
       assign (set_groundStationId "DSN(C60)") ;;; ret "DSN(C60)"
     else ret DSNComplexName) ;;
  o <- this ;;
  first <- lift (substr (groundStationId o) 0 1) ;;
  stationNumber <-
    (if first =? "C" then
       rest <- lift (substr_from (groundStationId o) 1) ;;
       ret (ToInteger rest)
     else ret (ToInteger (groundStationId o))) ;;
  (if (String.length (groundStationId o) <? 3)%nat
   then assign (set_groundStationId ("DSN(0" ++ groundStationId o ++ ")"))
   else assign (set_groundStationId ("DSN(" ++ groundStationId o ++ ")"))) ;;;
  stationNumber <- read_var stationNumber ;;
  ret (complex_of stationNumber DSNComplexName).

(** [CalculateTRK223], second part: the table scan and the evaluation of
    the records found. *)
Definition CalculateTRK223_lookup (DSNComplexName : string) : M (list Real) :=
  o <- this ;;
  let spacecraftName :=
    "SCID(" ++ RemoveAllBlanks (ToString (spacecraftId o)) ++ ")" in
  (* the entries that correspond to the measurement time *)
  ionoLine <- lift (scan spacecraftName DSNComplexName (groundStationId o)
                      (epoch o) (DSNDatabase o) 0 (-1, -1)) ;;
  (* the DSN complex *)
  correction <-
    (if negb (fst ionoLine =? -1)%Z then
       row <- lift (at_ (DSNDatabase o) (Z.to_nat (fst ionoLine))) ;;
       TRK223Solver row (epoch o)
     else throw (RecordNotFound (groundStationId o) DSNComplexName spacecraftName)) ;;
  (* the individual station, if specified *)
  correction <-
    (if negb (snd ionoLine =? -1)%Z then
       row <- lift (at_ (DSNDatabase o) (Z.to_nat (snd ionoLine))) ;;
       c <- TRK223Solver row (epoch o) ;;
       ret (correction + c)%r
     else ret correction) ;;
  let drho := correction in
  let dE := lit 0 in
  ret [drho; dE; (drho / SPEED_OF_LIGHT_VACUUM)%r].

Definition CalculateTRK223 : M (list Real) :=
  DSNComplexName <- CalculateTRK223_station ;;
  CalculateTRK223_lookup DSNComplexName.

(* ------------------------------------------------------------------ *)
(** ** The dispatcher *)

Definition Correction : M (list Real) :=
  o <- this ;;
  if modelTypeName o =? "IRI2007" then CalculateIRI2007
  else if modelTypeName o =? "TRK-2-23" then CalculateTRK223
  else
    ShowMessage (UnrecognizedModelMessage (modelTypeName o)) ;;;
    throw (UnrecognizedModel (modelTypeName o)).

End Model.

(** The interval count stays folded when a term is simplified. *)
Arguments NUM_OF_INTERVALS : simpl never.

Notation "x <- m ;; k" := (bind m (fun x => k))
  (at level 61, m at next level, right associativity).
Notation "' pat <- m ;; k" := (bind m (fun x => match x with pat => k end))
  (at level 61, pat pattern, m at next level, right associativity).
Notation "m ;;; k" := (bind m (fun _ => k))
  (at level 61, right associativity).

(* ------------------------------------------------------------------ *)
(** ** The quadratic of the ray/shell intersection *)

Section ShellQuadratic.

Context {Real : Type} {RO : RealOps Real}.

(** The chord [station + t (spacecraft - station)] against the sphere of
    radius [earthRadius + IONOSPHERE_MAX_ALTITUDE]. *)
Definition chord (o : Ionosphere) : Rvector3 := vsub (spacecraftLoc o) (stationLoc o).
Definition quad_a (o : Ionosphere) : Real := dot (chord o) (chord o).
Definition quad_b (o : Ionosphere) : Real := dot (vscale (lit 2) (stationLoc o)) (chord o).
Definition quad_c (o : Ionosphere) : Real :=
  (dot (stationLoc o) (stationLoc o)
   - Pow (earthRadius o + lit IONOSPHERE_MAX_ALTITUDE) 2)%r.
Definition discriminant (o : Ionosphere) : Real :=
  (quad_b o * quad_b o - lit 4 * quad_a o * quad_c o)%r.
Definition root1 (o : Ionosphere) : Real :=
  ((- quad_b o - Sqrt (discriminant o)) / (lit 2 * quad_a o))%r.
Definition root2 (o : Ionosphere) : Real :=
  ((- quad_b o + Sqrt (discriminant o)) / (lit 2 * quad_a o))%r.

(** The segment does not cross the shell: no two real roots, or both roots
    beyond the same end of [[0,1]]. *)
Definition misses_shell (o : Ionosphere) : Prop :=
  (discriminant o <=? lit 0)%r = true
  \/ ((root1 o >? lit 1)%r = true /\ (root2 o >? lit 1)%r = true)
  \/ ((root1 o <? lit 0)%r = true /\ (root2 o <? lit 0)%r = true).

End ShellQuadratic.

(* ------------------------------------------------------------------ *)
(** ** The mathematical reals as [Real] *)

Definition Rltb (x y : R) : bool := if Rlt_dec x y then true else false.
Definition Rleb (x y : R) : bool := if Rle_dec x y then true else false.

#[export] Instance R_RealOps : RealOps R := {
  lit := Q2R;
  radd := Rplus;
  rsub := Rminus;
  rmul := Rmult;
  rdiv := Rdiv;
  rneg := Ropp;
  rltb := Rltb;
  rleb := Rleb;
  real4 := fun x => x;
  Sqrt := sqrt;
  Pow := powerRZ;
  Cos := cos;
  Sin := sin;
  Tan := tan;
  ACos := acos;
  Max := Rmax;
  Min := Rmin;
  TWO_PI := (2 * PI)%R
}.


(* ------------------------------------------------------------------ *)
(** ** A concrete set of collaborators

    Used to run the model on concrete contexts.  The string and time
    utilities are decimal parsers and the calendar formula of GMAT's
    [ModifiedJulianDate]; the density provider answers a constant. *)

Module Demo.

Definition parse_integer (s : string) : option Z :=
  match extract_int s with
  | Some (v, rest) => if skip_ws rest =? "" then Some v else None
  | None => None
  end.

Definition parse_real (s : string) : option R := option_map IZR (parse_integer s).

Fixpoint split_on (c : ascii) (s : string) : list string :=
  match s with
  | EmptyString => [EmptyString]
  | String a s' =>
      if Ascii.eqb a c then EmptyString :: split_on c s'
      else match split_on c s' with
           | [] => [String a EmptyString]
           | w :: ws => String a w :: ws
           end
  end.

Definition parse_real_array (s : string) : list R :=
  flat_map (fun w => match parse_integer w with Some v => [IZR v] | None => [] end)
           (split_on "," s).

Definition decimal_string (z : Z) : string := DecimalString.NilZero.string_of_int (Z.to_int z).

Definition rev_string (s : string) : string :=
  string_of_list_ascii (rev (list_ascii_of_string s)).

Definition trim (s : string) : string :=
  rev_string (skip_ws (rev_string (skip_ws s))).

Fixpoint remove_blanks (s : string) : string :=
  match s with
  | EmptyString => EmptyString
  | String a s' => if is_space a then remove_blanks s' else String a (remove_blanks s')
  end.

Definition DayNumber (year month day : Z) : Z :=
  367 * year - Z.quot (7 * (year + Z.quot (month + 9) 12)) 4
  + Z.quot (275 * month) 9 + day.

Definition modified_julian_date (year month day hour minute : Z) (second : R) : R :=
  (IZR (DayNumber year month day) + 1721013.5 - 2430000
   + (second + IZR minute * 60 + IZR hour * 3600) / 86400)%R.

Definition c_atoi (s : string) : Z :=
  match extract_int s with Some (v, _) => v | None => 0 end.

Definition ap_lines : list string :=
  [" 58  1  1 18 18 12  9 12 22 12  9 13";
   " 58  1  2 13  9  6  6  9 12 12 18 11";
   " 24 12 30  4  6  7  5  6  9  7  5  6";
   " 24 12 31  5  5  6  7  9 12 15  9  8";
   ""].

Definition ig_rz_lines : list string :=
  [""; " 15, 1,2025"; ""; " 1,1958,12,2026"; " 37.1, 30.4"].

(** The collaborators, for an ap.dat file with the lines [ap_file]. *)
Definition collaborators (ap_file : list string) : Externals (Real := R) := {|
  SPEED_OF_LIGHT_VACUUM := 299792458%R;
  KM_TO_M := 1000%R;
  ToInteger := parse_integer;
  ToReal := parse_real;
  ToRealArray := parse_real_array;
  ToString := decimal_string;
  Trim := trim;
  RemoveAllBlanks := remove_blanks;
  ModifiedJulianDate := modified_julian_date;
  ConvertA1MjdToUTCGregorian := fun _ => "2020-06-15T12:00:00.000";
  atoi := c_atoi;
  atof := fun s => IZR (c_atoi s);
  EquatorialRadius := 6378.1363%R;
  Flattening := 0.0033527%R;
  CalculatePlanetData := fun item state radius _ _ =>
    if item =? "Altitude" then (GetMagnitude (fst state) - radius)%R else 0%R;
  iri_sub := fun _ => (100000000000%R, 0%Z);
  MediaCorrectionInterface_Initialize := true;
  ap_dat := ap_file;
  ig_rz_dat := ig_rz_lines;
  load_all_files := 0
|}.

#[export] Instance ext : Externals (Real := R) := collaborators ap_lines.

(** An initialised engine at packed date [date], for a link between two
    points 20000 km from the centre of the Earth; its ap.dat window ends at
    [ap_max], its ig_rz.dat window at [igrz_max]. *)
Definition engine (model station : string) (db : list (list string))
    (ap_max igrz_max date : Z) : Ionosphere (Real := R) :=
  mkIonosphere model true 6378.1363%R station 7%Z db
    19580101 igrz_max 19580101 ap_max
    0.13%R 29016%R (Z.quot date 10000) (Z.rem date 10000) 12%R
    (vec3 20000 0 0)%R (vec3 0 20000 0)%R 0.

Definition state_of (o : Ionosphere (Real := R)) : State := mkState o [] [].

Definition physics : State :=
  state_of (engine "IRI2007" "15" [] 20241231 20261231 20200615).

(** The same engine with an ig_rz.dat window that ends in 2019. *)
Definition physics_late : State :=
  state_of (engine "IRI2007" "15" [] 20241231 20191231 20200615).

(** The same engine on the last day of the ap.dat file. *)
Definition physics_last_day : State :=
  state_of (engine "IRI2007" "15" [] 20241231 20261231 20241231).

(** The same engine on the first day of both files. *)
Definition physics_first_day : State :=
  state_of (engine "IRI2007" "15" [] 20241231 20261231 19580101).

(** The same engine on the last day of the ig_rz.dat file, inside the
    ap.dat window. *)
Definition physics_igrz_last_day : State :=
  state_of (engine "IRI2007" "15" [] 20241231 20231231 20231231).

Definition complex_row : list string :=
  ["RANGE"; "CONST"; "3"; "CHPART"; "20 01 01 00 00"; "20 12 31 00 00";
   "DSN(C10)"; "SCID(7)"].

Definition station_row : list string :=
  ["DOPRNG"; "CONST"; "2"; "CHPART"; "20 01 01 00 00"; "20 12 31 00 00";
   "DSN(015)"; "SCID(7)"].

(** The empirical model for station 15 and spacecraft 7. *)
Definition empirical (db : list (list string)) : State :=
  state_of (engine "TRK-2-23" "15" db 20241231 20261231 20200615).

End Demo.

#[global] Existing Instance Demo.ext.

(* ------------------------------------------------------------------ *)
(** ** Date windows, the warning step and call sequences *)

Section Windows.

Context {Real : Type} {RO : RealOps Real} {EX : Externals (Real := Real)}.

Local Abbreviation State := (@State Real).
Local Abbreviation Ionosphere := (@Ionosphere Real).
Local Abbreviation Message := (@Message Real).
Local Abbreviation Rvector3 := (@Rvector3 Real).
Local Abbreviation M := (@M Real).

(** The packed date [yyyy * 10000 + mmdd] of the epoch. *)
Definition mjdate (o : Ionosphere) : Z := yyyy o * 10000 + mmdd o.

(** The tests of [CalculateIRI2007] on the two windows. *)
Definition outside_igrz (o : Ionosphere) : bool :=
  ((igrz_yyyymmddMin o >? mjdate o) || (mjdate o >=? igrz_yyyymmddMax o))%Z.
Definition outside_ap (o : Ionosphere) : bool :=
  ((ap_yyyymmddMin o >? mjdate o) || (mjdate o >=? ap_yyyymmddMax o))%Z.

(** The warning of the ig_rz.dat window for the engine [o]. *)
Definition igrz_warning (o : Ionosphere) : Message :=
  IgrzRangeWarning (epoch o) (date_string (igrz_yyyymmddMin o))
                   (date_string (igrz_yyyymmddMax o)).

(** The fields the integration reads. *)
Definition geometry (o : Ionosphere) :=
  (stationLoc o, spacecraftLoc o, earthRadius o, waveLength o,
   (yyyy o, mmdd o, hours o)).

(** The state the ig_rz.dat check leaves: the warning is logged and
    counted when the date is outside the window and none was logged yet. *)
Definition igrz_step (st : State) : State :=
  if outside_igrz (self st) && (igrz_WarningCount (self st) =? 0)%Z
  then mkState (set_igrz_WarningCount (igrz_WarningCount (self st) + 1) (self st))
               (messages st ++ [igrz_warning (self st)])%list (iri_calls st)
  else st.

(** The triple [CalculateIRI2007] builds from the electron content [tec]
    and the bending angle [dphi]. *)
Definition IRI2007_triple (o : Ionosphere) (tec dphi : Real) : list Real :=
  let frequency := (SPEED_OF_LIGHT_VACUUM / waveLength o)%r in
  let rangeCorrection := (lit 40.3 * tec / (frequency * frequency))%r in
  let angleCorrection := dphi in
  let timeCorrection := (rangeCorrection / SPEED_OF_LIGHT_VACUUM)%r in
  [rangeCorrection; angleCorrection; timeCorrection].

(** The out-of-range error of the ap.dat window for the engine [o]. *)
Definition ap_out_of_range (o : Ionosphere) : Exception :=
  Measurement (DataOutOfRange (date_string (ap_yyyymmddMin o))
                              (date_string (ap_yyyymmddMax o))).

Definition is_out_of_range {A} (r : Outcome A) : bool :=
  match r with
  | Throw (Measurement (DataOutOfRange _ _)) => true
  | _ => false
  end.

Definition is_igrz_warning (m : Message) : bool :=
  match m with IgrzRangeWarning _ _ _ => true | _ => false end.

(** How many times the ig_rz.dat warning is in the log. *)
Definition igrz_warnings (st : State) : nat :=
  List.length (filter is_igrz_warning (messages st)).

(** The log holds the warning as often as the counter says: not at all,
    or once. *)
Definition warned_at_most_once (st : State) : Prop :=
  (igrz_WarningCount (self st) = 0 /\ igrz_warnings st = 0%nat)
  \/ (igrz_WarningCount (self st) = 1 /\ igrz_warnings st = 1%nat).

(** The calls a client makes on an engine. *)
Inductive Call : Type :=
| CallSetWaveLength (lambda : Real)
| CallSetTime (ep : Real)
| CallSetStationPosition (p : Rvector3)
| CallSetSpacecraftPosition (p : Rvector3)
| CallSetEarthRadius (r : Real)
| CallInitialize
| CallCorrection.

Definition run_call (st : State) (c : Call) : State :=
  match c with
  | CallSetWaveLength lambda => fst (SetWaveLength lambda st)
  | CallSetTime ep => fst (SetTime ep st)
  | CallSetStationPosition p => fst (SetStationPosition p st)
  | CallSetSpacecraftPosition p => fst (SetSpacecraftPosition p st)
  | CallSetEarthRadius r => fst (SetEarthRadius r st)
  | CallInitialize => fst (Initialize st)
  | CallCorrection => fst (Correction st)
  end.

Definition run_calls (st : State) (cs : list Call) : State := fold_left run_call cs st.

End Windows.

(* ------------------------------------------------------------------ *)
(** ** The keys of the table scan *)

Section Keys.

Context {Real : Type} {RO : RealOps Real} {EX : Externals (Real := Real)}.

Local Abbreviation State := (@State Real).
Local Abbreviation Ionosphere := (@Ionosphere Real).
Local Abbreviation Message := (@Message Real).
Local Abbreviation Rvector3 := (@Rvector3 Real).
Local Abbreviation M := (@M Real).

(** GDS, CAN and MAD stand for the three complexes. *)
Definition expand_abbreviation (g : string) : string :=
  if g =? "GDS" then "DSN(C10)"
  else if g =? "CAN" then "DSN(C40)"
  else if g =? "MAD" then "DSN(C60)"
  else g.

Definition wrap_DSN (g : string) : string :=
  if (String.length g <? 3)%nat then "DSN(0" ++ g ++ ")" else "DSN(" ++ g ++ ")".

(** The station key a call of [CalculateTRK223] scans the table with. *)
Definition station_key (o : Ionosphere) : string :=
  wrap_DSN (expand_abbreviation (groundStationId o)).

(** The number [GmatStringUtil::ToInteger] reads in the station identifier,
    if it reads one. *)
Definition station_number (o : Ionosphere) : option Z :=
  let g := expand_abbreviation (groundStationId o) in
  if substring 0 1 g =? "C"
  then ToInteger (substring 1 (String.length g - 1) g)
  else ToInteger g.

Definition complex_key (n : Z) : string := complex_of n "".

Definition spacecraft_key (o : Ionosphere) : string :=
  "SCID(" ++ RemoveAllBlanks (ToString (spacecraftId o)) ++ ")".

(** The test the scan applies to a row, for the engine [o] whose station
    number is [n]. *)
Definition row_level (o : Ionosphere) (n : Z) (row : list string)
  : Outcome (option Level) :=
  match_level (spacecraft_key o) (complex_key n) (station_key o) (epoch o) row.

(** Row [i] is the last row of [db] the test [level] puts at [lv]. *)
Definition last_match (level : list string -> Outcome (option Level)) (lv : Level)
    (db : list (list string)) (i : nat) (row : list string) : Prop :=
  nth_error db i = Some row
  /\ level row = Ok (Some lv)
  /\ forall j row', (i < j)%nat -> nth_error db j = Some row' ->
                    level row' <> Ok (Some lv).

(** What the scan of [rows], whose first row has index [i], leaves in an
    entry of [ionoLine] that held [x0]: [x0] itself when no row is at [lv],
    the index of the last such row otherwise. *)
Definition slot (level : list string -> Outcome (option Level)) (lv : Level)
    (rows : list (list string)) (i : nat) (x0 x : Z) : Prop :=
  (x = x0 /\ forall row, In row rows -> level row <> Ok (Some lv))
  \/ (exists k row, x = Z.of_nat (i + k) /\ last_match level lv rows k row).

(** The table of [o] holds one complex-level match, a CONST record with
    first coefficient [k], and no station-level match. *)
Definition single_CONST_match (o : Ionosphere) (k : Real) : Prop :=
  exists n i row f2 rest,
    station_number o = Some n
    /\ nth_error (DSNDatabase o) i = Some row
    /\ row_level o n row = Ok (Some ComplexLevel)
    /\ (forall j row', j <> i -> nth_error (DSNDatabase o) j = Some row' ->
                       row_level o n row' = Ok None)
    /\ at_ row 1 = Ok "CONST"
    /\ at_ row 2 = Ok f2
    /\ ToRealArray f2 = k :: rest.

(** The state the first part of [CalculateTRK223] leaves. *)
Definition keyed (st : State) : State :=
  mkState (set_groundStationId (station_key (self st)) (self st))
          (messages st) (iri_calls st).

(** The engine [st] with another epoch. *)
Definition with_epoch (ep : Real) (st : State) : State :=
  mkState (set_epoch ep (self st)) (messages st) (iri_calls st).

End Keys.

(* ------------------------------------------------------------------ *)
(** ** What a method leaves unchanged, and how it can end *)

Section Frames.

Context {Real : Type} {RO : RealOps Real} {EX : Externals (Real := Real)}.

Local Abbreviation State := (@State Real).
Local Abbreviation Ionosphere := (@Ionosphere Real).
Local Abbreviation Message := (@Message Real).
Local Abbreviation Rvector3 := (@Rvector3 Real).
Local Abbreviation M := (@M Real).

(** [keeps obs m]: the observation [obs] of the state is the same after
    [m] as before, however [m] ends. *)
Definition keeps {X A} (obs : State -> X) (m : M A) : Prop :=
  forall st, obs (fst (m st)) = obs st.

(** The observations used below. *)
Definition obs_self (st : State) := self st.
Definition obs_log (st : State) := (messages st, igrz_WarningCount (self st)).
Definition obs_geometry (st : State) := geometry (self st).
Definition obs_engine (st : State) := (self st, messages st).
Definition obs_warn (st : State) := (igrz_warnings st, igrz_WarningCount (self st)).

(** Two states with the same fields for the integration to read. *)
Definition same_geometry (st st' : State) : Prop :=
  geometry (self st) = geometry (self st').

(** [m] and [m'] end the same way from states with the same geometry. *)
Definition related {A} (m m' : M A) : Prop :=
  forall st st', same_geometry st st' ->
    snd (m st) = snd (m' st') /\ same_geometry (fst (m st)) (fst (m' st')).

(** [m] never ends in undefined behaviour, and throws only the
    exception [e]. *)
Definition throws_only {A} (e : Exception) (m : M A) : Prop :=
  forall st, match snd (m st) with
             | Ok _ => True
             | Throw e' => e' = e
             | Fault _ => False
             end.

(** The integration part of [CalculateIRI2007], after the two date checks. *)
Definition integrate (f : Real -> Real -> list Real) : M (list Real) :=
  bind TEC (fun tec => bind BendingAngle (fun dphi => ret (f tec dphi))).

End Frames.

(* ------------------------------------------------------------------ *)
(** ** The TRIG series over the reals *)

(** The harmonics [j0, ..., j0 + m - 1] of the series the source sums:
    the cosine amplitude of harmonic [j] is [coefs[2j]], its sine amplitude
    [coefs[2j+1]]. *)
Fixpoint harmonics (coefs : list R) (phase : R) (j0 m : nat) : R :=
  match m with
  | O => 0%R
  | S m' =>
      (nth (2 * j0) coefs 0 * cos (INR j0 * phase)
       + nth (2 * j0 + 1) coefs 0 * sin (INR j0 * phase)
       + harmonics coefs phase (S j0) m')%R
  end.

(** The series as the specification words it: the coefficients after the first
    taken two by two, [coefs[2j-1]] and [coefs[2j]] the cosine and sine
    amplitudes of harmonic [j]. *)
Fixpoint paired_harmonics (coefs : list R) (phase : R) (j0 m : nat) : R :=
  match m with
  | O => 0%R
  | S m' =>
      (nth (2 * j0 - 1) coefs 0 * cos (INR j0 * phase)
       + nth (2 * j0) coefs 0 * sin (INR j0 * phase)
       + paired_harmonics coefs phase (S j0) m')%R
  end.

Definition TRIG_as_claimed (coefs : list R) (phase : R) : R :=
  paired_harmonics coefs phase 1 (Nat.div2 (List.length coefs)).

(** The phase of the first harmonic at epoch [t] for a window that starts
    at [start], both in days. *)
Definition TRIG_phase (coefs : list R) (t start : R) : R :=
  (2 * PI * (t - start) * 86400 / nth 0 coefs 0)%R.

(* ------------------------------------------------------------------ *)
(** ** The part of the path inside the shell *)

Section Crossing.

Context {Real : Type} {RO : RealOps Real} {EX : Externals (Real := Real)}.

Local Abbreviation State := (@State Real).
Local Abbreviation Ionosphere := (@Ionosphere Real).
Local Abbreviation Rvector3 := (@Rvector3 Real).

(** The two ends of the part of the path [TEC] and [BendingAngle] work on
    when the path crosses the shell, and the step of their loops. *)
Definition entry_point (o : Ionosphere) : Rvector3 :=
  vadd (stationLoc o) (vscale (Max (root1 o) (lit 0)) (chord o)).
Definition exit_point (o : Ionosphere) : Rvector3 :=
  vadd (stationLoc o) (vscale (Min (root2 o) (lit 1)) (chord o)).
Definition step_vector (o : Ionosphere) : Rvector3 :=
  vdiv (vsub (exit_point o) (entry_point o)) (of_int (Z.of_nat NUM_OF_INTERVALS)).

(** The density [ElectronDensity] returns for the value the provider
    leaves in [outf[21]]. *)
Definition clamp_density (outf21 : Real) : Real :=
  if (outf21 <? lit 0)%r then real4 (lit 0) else outf21.

(** [m], run from [st], returns normally after [k] more calls of the
    provider, and changes nothing else. *)
Definition makes_calls {A} (k : nat) (m : M A) (st : State) : Prop :=
  exists v l,
    m st = (mkState (self st) (messages st) (iri_calls st ++ l)%list, Ok v)
    /\ List.length l = k.

(** [m], run from [st], throws the provider error after [k] more calls of
    the provider, and changes nothing else. *)
Definition fails_after {A} (k : nat) (m : M A) (st : State) : Prop :=
  exists l,
    m st = (mkState (self st) (messages st) (iri_calls st ++ l)%list,
            Throw (Measurement DensityProviderError))
    /\ List.length l = k.

(** What holds of every call of the provider [ElectronDensity] makes for
    the engine [o], whatever the position is: the flags, geographic
    coordinates, the date and the hour of the engine (the hour with 25
    added, for universal time), and one height only. *)
Definition call_of_engine (o : Ionosphere) (c : IriCall) : Prop :=
  ic_jf c = jf_flags
  /\ ic_jmag c = 0%Z
  /\ ic_iyyyy c = yyyy o
  /\ ic_mmdd c = mmdd o
  /\ ic_dhour c = real4 (real4 (hours o) + of_int 1 * lit 25)%r
  /\ ic_heiend c = ic_heibeg c
  /\ ic_heistp c = real4 (lit 1).

(** [m], run from [st], only adds calls of the provider that hold [P], and
    changes neither the engine nor the log. *)
Definition appends {A} (P : IriCall -> Prop) (m : M A) (st : State) : Prop :=
  exists l,
    fst (m st) = mkState (self st) (messages st) (iri_calls st ++ l)%list
    /\ Forall P l.

End Crossing.

(* ------------------------------------------------------------------ *)
(** ** Rows the scan can test *)

(** A row with the eight fields the scan reads, whose two time tokens
    reach the minute field. *)
Definition row_can_be_tested (row : list string) : Prop :=
  (8 <= List.length row)%nat
  /\ (12 <= String.length (nth 4 row ""))%nat
  /\ (12 <= String.length (nth 5 row ""))%nat.

(* ------------------------------------------------------------------ *)
(** ** Copies of an engine, and the engine of the correction model *)

Section Lifetime.

Context {Real : Type} {RO : RealOps Real}.

Local Abbreviation Ionosphere := (@Ionosphere Real).

(** [Ionosphere::Ionosphere(const Ionosphere& ions)], which [Clone] calls.
    [base] holds the fields the constructor does not set itself, as
    [MediaCorrection(ions)] leaves them; the windows, the wavelength, the
    time and the two positions are those of [ions], and the count of
    warnings starts at 0. *)
Definition Ionosphere_copy (base ions : Ionosphere) : Ionosphere :=
  mkIonosphere (modelTypeName base) (isInitialized base) (earthRadius base)
    (groundStationId base) (spacecraftId base) (DSNDatabase base)
    (igrz_yyyymmddMin ions) (igrz_yyyymmddMax ions)
    (ap_yyyymmddMin ions) (ap_yyyymmddMax ions)
    (waveLength ions) (epoch ions) (yyyy ions) (mmdd ions) (hours ions)
    (stationLoc ions) (spacecraftLoc ions) 0.

(** [Ionosphere::operator=(const Ionosphere& ions)] on the engine [target]:
    nothing when [ions] is that very object ([same]); otherwise the same
    fields as in the copy constructor are taken from [ions], [base] being
    the target as [MediaCorrection::operator=] leaves it. *)
Definition Ionosphere_assign (same : bool) (base target ions : Ionosphere) : Ionosphere :=
  if same then target else Ionosphere_copy base ions.

(** The static pointer [IonosphereCorrectionModel::instance] (set or
    NULL) and the member [ionosphereObj] of the object it points to. *)
Record CorrectionModel : Type := mkCorrectionModel {
  instance : bool;
  ionosphereObj : option Ionosphere
}.

(** [IonosphereCorrectionModel::Instance()]. *)
Definition Instance_ (g : CorrectionModel) : CorrectionModel :=
  if instance g then g else mkCorrectionModel true None.

(** [IonosphereCorrectionModel::GetIonosphereInstance()]; the arguments
    but the last are the fields the base class constructor sets for
    [new Ionosphere("IRI2007")]. *)
Definition GetIonosphereInstance (radius : Real) (station : string) (scid : Z)
    (db : list (list string)) (origin : Rvector3) (g : CorrectionModel)
  : CorrectionModel * Ionosphere :=
  match ionosphereObj g with
  | Some o => (g, o)
  | None =>
      let o := Ionosphere_new "IRI2007" radius station scid db origin in
      (mkCorrectionModel (instance g) (Some o), o)
  end.

(** [IonosphereCorrectionModel::~IonosphereCorrectionModel()] for the
    object [instance] points to.  [delete instance] runs this destructor
    again, for the same object, before [instance] is set to NULL; [fuel]
    bounds the depth of the calls. *)
Fixpoint destructor (fuel : nat) (g : CorrectionModel) : CorrectionModel * Outcome unit :=
  match fuel with
  | O => (g, Fault Diverges)
  | S fuel' =>
      let g :=
        match ionosphereObj g with
        | Some _ => mkCorrectionModel (instance g) None
        | None => g
        end in
      if instance g then
        match destructor fuel' g with
        | (g', Ok _) => (mkCorrectionModel false (ionosphereObj g'), Ok tt)
        | (g', Throw e) => (g', Throw e)
        | (g', Fault u) => (g', Fault u)
        end
      else (g, Ok tt)
  end.

End Lifetime.

(* ------------------------------------------------------------------ *)
(** ** The power series over the reals *)

(** The polynomial with the coefficients [coefs], lowest degree first, by
    Horner's rule. *)
Definition horner (coefs : list R) (x : R) : R :=
  fold_right (fun c acc => c + x * acc)%R 0%R coefs.

(* ------------------------------------------------------------------ *)
(** ** The timestamp [SetTime] takes apart *)

(** The character of the decimal digit [n mod 10]. *)
Definition digit (n : Z) : ascii := ascii_of_nat (48 + Z.to_nat (n mod 10)).

(** The last [k] decimal digits of [n], most significant first. *)
Fixpoint digits (k : nat) (n : Z) : string :=
  match k with
  | O => ""
  | S k' => String (digit (n / 10 ^ Z.of_nat k')) (digits k' n)
  end.

(** The layout [YYYY-MM-DDTHH:MM:SS.mmm] of a UTC Gregorian date. *)
Definition iso_timestamp (Y Mo D h mi s ms : Z) : string :=
  digits 4 Y ++ "-" ++ digits 2 Mo ++ "-" ++ digits 2 D ++ "T"
  ++ digits 2 h ++ ":" ++ digits 2 mi ++ ":" ++ digits 2 s ++ "." ++ digits 3 ms.

(* ------------------------------------------------------------------ *)
(** ** The last day of the ig_rz.dat window *)


(* ------------------------------------------------------------------ *)
(** ** More concrete contexts *)

Module Cases.

(** The engine of [Demo.physics] for a station on the equator and a
    spacecraft at its zenith, 20000 km from the centre of the Earth. *)
Definition zenith : State (Real := R) :=
  Demo.state_of
    (set_stationLoc (vec3 6378.1363 0 0)%R
       (set_spacecraftLoc (vec3 20000 0 0)%R (self Demo.physics))).

(** The collaborators of [Demo] with another density provider, another
    outcome of [MediaCorrectionInterface::Initialize], another status of
    the load of the provider's files, another ap.dat file and another
    answer of the time converter. *)
Definition collaborators (provider : IriCall (Real := R) -> R * Z) (interface : bool)
    (load : Z)
    (ap_file : list string) (time : string) : Externals (Real := R) := {|
  SPEED_OF_LIGHT_VACUUM := SPEED_OF_LIGHT_VACUUM (Externals := Demo.ext);
  KM_TO_M := KM_TO_M (Externals := Demo.ext);
  ToInteger := ToInteger (Externals := Demo.ext);
  ToReal := ToReal (Externals := Demo.ext);
  ToRealArray := ToRealArray (Externals := Demo.ext);
  ToString := ToString (Externals := Demo.ext);
  Trim := Trim (Externals := Demo.ext);
  RemoveAllBlanks := RemoveAllBlanks (Externals := Demo.ext);
  ModifiedJulianDate := ModifiedJulianDate (Externals := Demo.ext);
  ConvertA1MjdToUTCGregorian := fun _ => time;
  atoi := atoi (Externals := Demo.ext);
  atof := atof (Externals := Demo.ext);
  EquatorialRadius := EquatorialRadius (Externals := Demo.ext);
  Flattening := Flattening (Externals := Demo.ext);
  CalculatePlanetData := CalculatePlanetData (Externals := Demo.ext);
  iri_sub := provider;
  MediaCorrectionInterface_Initialize := interface;
  ap_dat := ap_file;
  ig_rz_dat := ig_rz_dat (Externals := Demo.ext);
  load_all_files := load
|}.

Definition uniform_provider : IriCall (Real := R) -> R * Z :=
  fun _ => (100000000000%R, 0%Z).

(** A provider that reports an error; an interface that cannot be
    initialised; a load of the provider's files that fails. *)
Definition failing_provider : Externals (Real := R) :=
  collaborators (fun _ => (0%R, 1%Z)) true 0 Demo.ap_lines "2020-06-15T12:00:00.000".
Definition failing_interface : Externals (Real := R) :=
  collaborators uniform_provider false 0 Demo.ap_lines "2020-06-15T12:00:00.000".
Definition failing_load : Externals (Real := R) :=
  collaborators uniform_provider true 1000 Demo.ap_lines "2020-06-15T12:00:00.000".

(** An ap.dat file reduced to its first and last line, and one whose
    lines hold the date only. *)
Definition two_lines : Externals (Real := R) :=
  collaborators uniform_provider true 0
    [" 58  1  1 18 18 12  9 12 22 12  9 13"; " 24 12 31  5  5  6  7  9 12 15  9  8"]
    "2020-06-15T12:00:00.000".
Definition three_columns : Externals (Real := R) :=
  collaborators uniform_provider true 0 ["58 1 1"; "24 12 31"] "2020-06-15T12:00:00.000".

(** The engine of [Demo.physics_late] after it has logged the warning
    about ig_rz.dat. *)
Definition warned : State (Real := R) :=
  mkState (set_igrz_WarningCount 1 (self Demo.physics_late))
          [igrz_warning (self Demo.physics_late)] [].

(** An engine as the constructor leaves it. *)
Definition new_engine : State (Real := R) :=
  Demo.state_of (Ionosphere_new "IRI2007" 6378.1363%R "15" 7 [] (vec3 0 0 0)%R).

(** A row of the table with two fields only. *)
Definition short_row : list string := ["RANGE"; "CONST"].

(** The empirical model for the complex C10 itself, and for the
    abbreviation GDS. *)
Definition complex_C10 : State (Real := R) :=
  Demo.state_of (Demo.engine "TRK-2-23" "C10" [Demo.complex_row] 20241231 20261231 20200615).

Definition station_GDS : State (Real := R) :=
  Demo.state_of (Demo.engine "TRK-2-23" "GDS" [Demo.complex_row] 20241231 20261231 20200615).

End Cases.

(* ================================================================== *)
(** * Properties *)

Unset Implicit Arguments.

Section Properties.

Context {Real : Type} {RO : RealOps Real} {EX : Externals (Real := Real)}.

Local Abbreviation State := (@State Real).
Local Abbreviation Ionosphere := (@Ionosphere Real).
Local Abbreviation Message := (@Message Real).
Local Abbreviation Call := (@Call Real).
Local Abbreviation M := (@M Real).

Ltac unfold_monad := unfold bind, ret, this, assign, lift, throw, IsInitialized in *.

(** ** What a method leaves unchanged *)


Section Keeps.

Context {X : Type} (obs : State -> X).

Lemma keeps_ret {A} (a : A) : keeps obs (ret a).
Proof. intro st. reflexivity. Qed.

Lemma keeps_lift {A} (o : Outcome A) : keeps obs (lift o).
Proof. intro st. reflexivity. Qed.

Lemma keeps_throw {A} (e : MeasurementException) : keeps obs (@throw _ A e).
Proof. intro st. reflexivity. Qed.

Lemma keeps_this : keeps obs this.
Proof. intro st. reflexivity. Qed.

Lemma keeps_read_var (v : option Z) : keeps obs (read_var v).
Proof. intro st. destruct v; reflexivity. Qed.

Lemma keeps_bind {A B} (m : M A) (k : A -> M B) :
  keeps obs m -> (forall a, keeps obs (k a)) -> keeps obs (bind m k).
Proof.
  intros Hm Hk st. unfold bind.
  specialize (Hm st). destruct (m st) as [st' [a | e | u]]; cbn in *.
  - rewrite Hk. exact Hm.
  - exact Hm.
  - exact Hm.
Qed.

Lemma keeps_assign (f : Ionosphere -> Ionosphere) :
  (forall st, obs (mkState (f (self st)) (messages st) (iri_calls st)) = obs st) ->
  keeps obs (assign f).
Proof. intros H st. apply H. Qed.

Lemma keeps_ShowMessage (m : Message) :
  (forall st, obs (mkState (self st) (messages st ++ [m])%list (iri_calls st)) = obs st) ->
  keeps obs (ShowMessage m).
Proof. intros H st. apply H. Qed.

Lemma keeps_call_iri_sub (c : IriCall) :
  (forall st, obs (mkState (self st) (messages st) (iri_calls st ++ [c])%list) = obs st) ->
  keeps obs (call_iri_sub c).
Proof. intros H st. apply H. Qed.

End Keeps.

(** One step of a proof of [keeps]: splits a [bind], closes the pure
    steps, goes by cases on a test. *)
Ltac keeps_step :=
  match goal with
  | |- keeps _ (bind _ _) => apply keeps_bind; [| intros ?]
  | |- keeps _ (ret _) => apply keeps_ret
  | |- keeps _ (lift _) => apply keeps_lift
  | |- keeps _ (throw _) => apply keeps_throw
  | |- keeps _ this => apply keeps_this
  | |- keeps _ IsInitialized => unfold IsInitialized
  | |- keeps _ (read_var _) => apply keeps_read_var
  | |- keeps _ (assign _) => apply keeps_assign; intros ?; reflexivity
  | |- keeps _ (call_iri_sub _) => apply keeps_call_iri_sub; intros ?; reflexivity
  | |- keeps _ (if ?b then _ else _) => destruct b
  | |- keeps _ (match ?x with _ => _ end) => destruct x
  end.


Lemma ElectronDensity_keeps (p : Rvector3) : keeps obs_engine (ElectronDensity p).
Proof. unfold ElectronDensity. repeat keeps_step. Qed.

Lemma TEC_loop_keeps (n : nat) : forall dR p1 tec, keeps obs_engine (TEC_loop n dR p1 tec).
Proof.
  induction n as [| n IH]; intros; cbn [TEC_loop].
  - apply keeps_ret.
  - apply keeps_bind; [apply ElectronDensity_keeps | intros; apply IH].
Qed.

Lemma TEC_keeps : keeps obs_engine TEC.
Proof.
  unfold TEC. cbv zeta.
  repeat first [apply TEC_loop_keeps | keeps_step].
Qed.

Lemma BendingAngle_loop_keeps (n : nat) :
  forall rangeVec dR freq r_i1 theta_i1 n_i1 dtheta_i1,
    keeps obs_engine (BendingAngle_loop n rangeVec dR freq r_i1 theta_i1 n_i1 dtheta_i1).
Proof.
  induction n as [| n IH]; intros; cbn [BendingAngle_loop].
  - apply keeps_ret.
  - apply keeps_bind; [apply ElectronDensity_keeps | intros; apply IH].
Qed.

Lemma BendingAngle_keeps : keeps obs_engine BendingAngle.
Proof.
  unfold BendingAngle. cbv zeta.
  repeat first [apply BendingAngle_loop_keeps | apply ElectronDensity_keeps | keeps_step].
Qed.

Lemma GetAPTimeRange_keeps : keeps (fun st => (obs_log st, obs_geometry st)) GetAPTimeRange.
Proof. unfold GetAPTimeRange. cbv zeta. repeat keeps_step. Qed.

Lemma GetIGRZTimeRange_keeps : keeps (fun st => (obs_log st, obs_geometry st)) GetIGRZTimeRange.
Proof. unfold GetIGRZTimeRange. cbv zeta. repeat keeps_step. Qed.

Lemma Initialize_keeps : keeps (fun st => (obs_log st, obs_geometry st)) Initialize.
Proof.
  unfold Initialize.
  repeat first [apply GetAPTimeRange_keeps | apply GetIGRZTimeRange_keeps | keeps_step].
Qed.

(** ** What the outcome of the integration depends on *)


Lemma related_ret {A} (a : A) : related (Real := Real) (ret a) (ret a).
Proof. intros st st' H. split; [reflexivity | exact H]. Qed.

Lemma related_bind {A B} (m m' : M A) (k k' : A -> M B) :
  related m m' -> (forall a, related (k a) (k' a)) ->
  related (bind m k) (bind m' k').
Proof.
  intros Hm Hk st st' H. unfold bind.
  destruct (Hm st st' H) as [Ho Hs].
  destruct (m st) as [s1 r1], (m' st') as [s1' r1']. cbn in Ho, Hs. subst r1'.
  destruct r1 as [a | e | u]; [apply Hk; exact Hs | split; [reflexivity | exact Hs] ..].
Qed.

Lemma related_this_bind {A} (k k' : Ionosphere -> M A) :
  (forall o o', geometry o = geometry o' -> related (k o) (k' o')) ->
  related (bind this k) (bind this k').
Proof.
  intros Hk st st' H. unfold bind, this. apply Hk; exact H.
Qed.

Lemma ElectronDensity_related (p : Rvector3) :
  related (ElectronDensity p) (ElectronDensity p).
Proof.
  unfold ElectronDensity. apply related_this_bind. intros o o' H.
  unfold geometry in H. injection H as _ _ _ _ Hy Hm Hh.
  rewrite Hy, Hm, Hh. cbv zeta.
  intros st st' Hst. unfold bind, call_iri_sub. cbn.
  destruct (iri_sub _) as [outf21 error].
  destruct (negb (error =? 0)%Z); split; first [reflexivity | exact Hst].
Qed.

Lemma TEC_loop_related (n : nat) :
  forall dR p1 tec, related (TEC_loop n dR p1 tec) (TEC_loop n dR p1 tec).
Proof.
  induction n as [| n IH]; intros; cbn [TEC_loop].
  - apply related_ret.
  - apply related_bind; [apply ElectronDensity_related | intros; apply IH].
Qed.

Lemma TEC_related : related TEC TEC.
Proof.
  unfold TEC. apply related_this_bind. intros o o' H.
  unfold geometry in H. injection H as Hst Hsc Hr _ _ _ _.
  rewrite Hst, Hsc, Hr. cbv zeta.
  destruct (rleb _ (lit 0)); [apply related_ret |].
  destruct (_ || _); [apply related_ret | apply TEC_loop_related].
Qed.

Lemma BendingAngle_loop_related (n : nat) :
  forall rangeVec dR freq r_i1 theta_i1 n_i1 dtheta_i1,
    related (BendingAngle_loop n rangeVec dR freq r_i1 theta_i1 n_i1 dtheta_i1)
            (BendingAngle_loop n rangeVec dR freq r_i1 theta_i1 n_i1 dtheta_i1).
Proof.
  induction n as [| n IH]; intros; cbn [BendingAngle_loop].
  - apply related_ret.
  - apply related_bind; [apply ElectronDensity_related | intros; apply IH].
Qed.

Lemma BendingAngle_related : related BendingAngle BendingAngle.
Proof.
  unfold BendingAngle. apply related_this_bind. intros o o' H.
  unfold geometry in H. injection H as Hst Hsc Hr Hw _ _ _.
  rewrite Hst, Hsc, Hr, Hw. cbv zeta.
  destruct (rleb _ (lit 0)); [apply related_ret |].
  destruct (_ || _); [apply related_ret |].
  apply related_bind; [apply ElectronDensity_related | intros].
  apply related_bind; [apply BendingAngle_loop_related | intros; apply related_ret].
Qed.

(** ** How the integration can fail *)


Lemma throws_only_ret {A} e (a : A) : throws_only (Real := Real) e (ret a).
Proof. intro st. exact I. Qed.

Lemma throws_only_bind {A B} e (m : M A) (k : A -> M B) :
  throws_only e m -> (forall a, throws_only e (k a)) -> throws_only e (bind m k).
Proof.
  intros Hm Hk st. unfold bind. specialize (Hm st).
  destruct (m st) as [st' [a | e' | u]]; cbn in *; [apply Hk | exact Hm | exact Hm].
Qed.

Lemma ElectronDensity_throws (p : Rvector3) :
  throws_only (Measurement DensityProviderError) (ElectronDensity p).
Proof.
  intro st. unfold ElectronDensity, bind, this, call_iri_sub. cbn.
  destruct (iri_sub _) as [outf21 error].
  destruct (negb (error =? 0)%Z); cbn; auto.
Qed.

Lemma TEC_loop_throws (n : nat) :
  forall dR p1 tec, throws_only (Measurement DensityProviderError) (TEC_loop n dR p1 tec).
Proof.
  induction n as [| n IH]; intros; cbn [TEC_loop].
  - apply throws_only_ret.
  - apply throws_only_bind; [apply ElectronDensity_throws | intros; apply IH].
Qed.

Lemma TEC_throws : throws_only (Measurement DensityProviderError) TEC.
Proof.
  unfold TEC. apply throws_only_bind; [intro; exact I | intros o]. cbv zeta.
  destruct (rleb _ (lit 0)); [apply throws_only_ret |].
  destruct (_ || _); [apply throws_only_ret | apply TEC_loop_throws].
Qed.

Lemma BendingAngle_loop_throws (n : nat) :
  forall rangeVec dR freq r_i1 theta_i1 n_i1 dtheta_i1,
    throws_only (Measurement DensityProviderError)
      (BendingAngle_loop n rangeVec dR freq r_i1 theta_i1 n_i1 dtheta_i1).
Proof.
  induction n as [| n IH]; intros; cbn [BendingAngle_loop].
  - apply throws_only_ret.
  - apply throws_only_bind; [apply ElectronDensity_throws | intros; apply IH].
Qed.

Lemma BendingAngle_throws : throws_only (Measurement DensityProviderError) BendingAngle.
Proof.
  unfold BendingAngle. apply throws_only_bind; [intro; exact I | intros o]. cbv zeta.
  destruct (rleb _ (lit 0)); [apply throws_only_ret |].
  destruct (_ || _); [apply throws_only_ret |].
  apply throws_only_bind; [apply ElectronDensity_throws | intros].
  apply throws_only_bind; [apply BendingAngle_loop_throws | intros; apply throws_only_ret].
Qed.

(** ** C1: a path that misses the shell *)

Lemma TEC_misses_shell (st : State) :
  misses_shell (self st) -> TEC st = (st, Ok (lit 0)).
Proof.
  unfold misses_shell, root1, root2, discriminant, quad_a, quad_b, quad_c, chord.
  intros H. unfold TEC. unfold_monad. cbv zeta.
  destruct H as [H | [[H1 H2] | [H1 H2]]].
  - rewrite H. reflexivity.
  - destruct (rleb _ (lit 0)); [reflexivity |].
    rewrite H1, H2. reflexivity.
  - destruct (rleb _ (lit 0)); [reflexivity |].
    rewrite H1, H2. cbn [andb]. rewrite orb_true_r. reflexivity.
Qed.

Lemma BendingAngle_misses_shell (st : State) :
  misses_shell (self st) -> BendingAngle st = (st, Ok (lit 0)).
Proof.
  unfold misses_shell, root1, root2, discriminant, quad_a, quad_b, quad_c, chord.
  intros H. unfold BendingAngle. unfold_monad. cbv zeta.
  destruct H as [H | [[H1 H2] | [H1 H2]]].
  - rewrite H. reflexivity.
  - destruct (rleb _ (lit 0)); [reflexivity |].
    rewrite H1, H2. reflexivity.
  - destruct (rleb _ (lit 0)); [reflexivity |].
    rewrite H1, H2. cbn [andb]. rewrite orb_true_r. reflexivity.
Qed.

(** C1.  When the segment from the station to the spacecraft does not cross
    the shell of radius [earthRadius + 2000] (discriminant [<= 0], or both
    roots above 1, or both below 0), [TEC] and [BendingAngle] return exactly
    0, and the state they leave, the list of provider calls included, is
    the one they were called in. *)
Theorem C1_no_crossing_gives_zero (st : State) :
  misses_shell (self st) ->
  TEC st = (st, Ok (lit 0))
  /\ BendingAngle st = (st, Ok (lit 0))
  /\ iri_calls (fst (TEC st)) = iri_calls st
  /\ iri_calls (fst (BendingAngle st)) = iri_calls st.
Proof.
  intros H.
  rewrite (TEC_misses_shell st H), (BendingAngle_misses_shell st H).
  repeat split.
Qed.

(** ** The structure of [CalculateIRI2007] *)

Lemma Initialize_when_initialized (st : State) :
  isInitialized (self st) = true -> Initialize st = (st, Ok true).
Proof.
  intros H. unfold Initialize, bind, IsInitialized, this, ret. cbn. rewrite H. reflexivity.
Qed.

(** After the lazy initialisation has left [st1]: the ig_rz.dat check, the
    ap.dat check, then the integration. *)
Lemma CalculateIRI2007_unfold (st st1 : State) (b : bool) :
  Initialize st = (st1, Ok b) ->
  CalculateIRI2007 st =
    if outside_ap (self st1)
    then (igrz_step st1, Throw (ap_out_of_range (self st1)))
    else bind TEC (fun tec => bind BendingAngle (fun dphi =>
           ret (IRI2007_triple (self st1) tec dphi))) (igrz_step st1).
Proof.
  intros Hinit.
  assert (Hguard : bind IsInitialized
            (fun b => if negb b then Initialize else ret true) st = (st1, Ok b)).
  { unfold bind, IsInitialized, this, ret. cbn.
    destruct (isInitialized (self st)) eqn:E; cbn.
    - rewrite (Initialize_when_initialized st E) in Hinit. exact Hinit.
    - exact Hinit. }
  unfold CalculateIRI2007.
  unfold bind at 1 2. unfold bind at 1 in Hguard.
  destruct (IsInitialized st) as [s0 [b0 | e0 | u0]]; try discriminate Hguard.
  rewrite Hguard. clear Hguard.
  unfold bind at 1. unfold this at 1. cbv zeta.
  unfold igrz_step, outside_ap, outside_igrz, mjdate, ap_out_of_range, igrz_warning.
  set (o := self st1).
  destruct ((igrz_yyyymmddMin o >? yyyy o * 10000 + mmdd o)%Z
            || (yyyy o * 10000 + mmdd o >=? igrz_yyyymmddMax o)%Z) eqn:Eig;
  destruct ((ap_yyyymmddMin o >? yyyy o * 10000 + mmdd o)%Z
            || (yyyy o * 10000 + mmdd o >=? ap_yyyymmddMax o)%Z) eqn:Eap;
  destruct (igrz_WarningCount o =? 0)%Z eqn:Ec;
  reflexivity.
Qed.

Lemma outside_ap_iff (o : Ionosphere) :
  outside_ap o = true <-> (mjdate o < ap_yyyymmddMin o \/ ap_yyyymmddMax o <= mjdate o)%Z.
Proof. unfold outside_ap. rewrite orb_true_iff. lia. Qed.

Lemma outside_igrz_iff (o : Ionosphere) :
  outside_igrz o = true <-> (mjdate o < igrz_yyyymmddMin o \/ igrz_yyyymmddMax o <= mjdate o)%Z.
Proof. unfold outside_igrz. rewrite orb_true_iff. lia. Qed.

Lemma igrz_step_geometry (st : State) : same_geometry st (igrz_step st).
Proof. unfold igrz_step. destruct (_ && _); reflexivity. Qed.

Lemma Initialize_geometry (st : State) : same_geometry st (fst (Initialize st)).
Proof.
  pose proof (Initialize_keeps st) as H. apply (f_equal snd) in H. cbn [snd] in H.
  unfold same_geometry. symmetry. exact H.
Qed.

Lemma Initialize_log : keeps obs_log Initialize.
Proof.
  intros st. pose proof (Initialize_keeps st) as H.
  apply (f_equal fst) in H. cbn [fst] in H. exact H.
Qed.


Lemma integrate_outcome (f : Real -> Real -> list Real) (st st2 : State) (tec dphi : Real) :
  same_geometry st st2 ->
  snd (TEC st) = Ok tec -> snd (BendingAngle st) = Ok dphi ->
  snd (integrate f st2) = Ok (f tec dphi).
Proof.
  intros Hg Ht Hb. unfold integrate, bind.
  destruct (TEC_related _ _ Hg) as [Ho _]. rewrite Ht in Ho.
  pose proof (TEC_keeps st2) as Hk.
  destruct (TEC st2) as [s3 r3]. cbn in Ho, Hk. subst r3.
  assert (Hg3 : same_geometry st s3).
  { unfold same_geometry in *. injection Hk as Hs _. rewrite Hs. exact Hg. }
  destruct (BendingAngle_related _ _ Hg3) as [Ho' _]. rewrite Hb in Ho'.
  destruct (BendingAngle s3) as [s4 r4]. cbn in Ho'. subst r4. reflexivity.
Qed.

Lemma integrate_keeps f : keeps obs_engine (integrate f).
Proof.
  unfold integrate.
  apply keeps_bind; [apply TEC_keeps | intros].
  apply keeps_bind; [apply BendingAngle_keeps | intros; apply keeps_ret].
Qed.

Lemma integrate_throws f :
  throws_only (Measurement DensityProviderError) (integrate f).
Proof.
  unfold integrate.
  apply throws_only_bind; [apply TEC_throws | intros].
  apply throws_only_bind; [apply BendingAngle_throws | intros; apply throws_only_ret].
Qed.

Lemma integrate_not_out_of_range f (st : State) :
  is_out_of_range (snd (integrate f st)) = false.
Proof.
  pose proof (integrate_throws f st) as H.
  destruct (snd (integrate f st)) as [a | e | u]; [reflexivity | | contradiction].
  subst e. reflexivity.
Qed.

(** ** C2: the triple of the physics model *)

Lemma C2_triple_helper (st st1 : State) (b : bool) (tec dphi : Real) :
  Initialize st = (st1, Ok b) ->
  (ap_yyyymmddMin (self st1) <= mjdate (self st1) < ap_yyyymmddMax (self st1))%Z ->
  snd (TEC st) = Ok tec ->
  snd (BendingAngle st) = Ok dphi ->
  snd (CalculateIRI2007 st) = Ok (IRI2007_triple (self st) tec dphi).
Proof.
  intros Hinit Hwin Ht Hb.
  rewrite (CalculateIRI2007_unfold _ _ _ Hinit).
  assert (Hap : outside_ap (self st1) = false).
  { destruct (outside_ap (self st1)) eqn:E; [| reflexivity].
    apply outside_ap_iff in E. lia. }
  rewrite Hap.
  assert (Hg1 : same_geometry st st1).
  { pose proof (Initialize_geometry st) as H. rewrite Hinit in H. exact H. }
  assert (Hg : same_geometry st (igrz_step st1)).
  { unfold same_geometry in *. rewrite Hg1. apply igrz_step_geometry. }
  fold (integrate (IRI2007_triple (self st1))).
  rewrite (integrate_outcome _ _ _ _ _ Hg Ht Hb).
  unfold IRI2007_triple. unfold same_geometry, geometry in Hg1.
  injection Hg1 as _ _ _ Hw _ _ _. rewrite Hw. reflexivity.
Qed.

(** C2.  With the epoch inside the ap.dat window, [CalculateIRI2007] returns
    the triple (range, angle, time) with frequency = c / wavelength,
    range = 40.3 * TEC() / frequency^2, angle = BendingAngle() and
    time = range / c, where TEC() and BendingAngle() are the values the two
    methods return for the engine. *)
Theorem C2_IRI2007_returns_triple (st st1 : State) (b : bool) (tec dphi : Real) :
  Initialize st = (st1, Ok b) ->
  (ap_yyyymmddMin (self st1) <= mjdate (self st1) < ap_yyyymmddMax (self st1))%Z ->
  snd (TEC st) = Ok tec ->
  snd (BendingAngle st) = Ok dphi ->
  let frequency := (SPEED_OF_LIGHT_VACUUM / waveLength (self st))%r in
  let rangeCorrection := (lit 40.3 * tec / (frequency * frequency))%r in
  let angleCorrection := dphi in
  let timeCorrection := (rangeCorrection / SPEED_OF_LIGHT_VACUUM)%r in
  snd (CalculateIRI2007 st) = Ok [rangeCorrection; angleCorrection; timeCorrection].
Proof.
  intros Hinit Hwin Ht Hb. cbv zeta.
  exact (C2_triple_helper _ _ _ _ _ Hinit Hwin Ht Hb).
Qed.

(** ** The warning of the ig_rz.dat window *)


Lemma keeps_warn_of_log {A} (m : M A) : keeps obs_log m -> keeps obs_warn m.
Proof.
  intros H st. specialize (H st). unfold obs_log in H. injection H as Hm Hc.
  unfold obs_warn, igrz_warnings. rewrite Hm, Hc. reflexivity.
Qed.

Lemma keeps_warn_of_engine {A} (m : M A) : keeps obs_engine m -> keeps obs_warn m.
Proof.
  intros H st. specialize (H st). unfold obs_engine in H. injection H as Hs Hm.
  unfold obs_warn, igrz_warnings. rewrite Hm, Hs. reflexivity.
Qed.

Lemma warned_of_obs_warn (st st' : State) :
  obs_warn st' = obs_warn st -> warned_at_most_once st -> warned_at_most_once st'.
Proof.
  unfold obs_warn, warned_at_most_once. intros H. injection H as Hw Hc.
  rewrite Hw, Hc. exact (fun x => x).
Qed.

Lemma igrz_warnings_app (st : State) (m : Message) :
  igrz_warnings (mkState (self st) (messages st ++ [m])%list (iri_calls st))
  = (igrz_warnings st + (if is_igrz_warning m then 1 else 0))%nat.
Proof.
  unfold igrz_warnings. cbn. rewrite filter_app, length_app. cbn.
  destruct (is_igrz_warning m); reflexivity.
Qed.

Lemma igrz_step_warned (st : State) :
  warned_at_most_once st -> warned_at_most_once (igrz_step st).
Proof.
  intros H. unfold igrz_step.
  destruct (outside_igrz (self st) && (igrz_WarningCount (self st) =? 0)%Z) eqn:E;
    [| exact H].
  apply andb_true_iff in E. destruct E as [_ Ec]. apply Z.eqb_eq in Ec.
  destruct H as [[Hc Hw] | [Hc Hw]]; [| lia].
  right. split.
  - cbn. lia.
  - unfold igrz_warnings in *. cbn. rewrite filter_app, length_app, Hw. reflexivity.
Qed.

Lemma igrz_step_outside (st : State) :
  warned_at_most_once st -> outside_igrz (self st) = true ->
  igrz_warnings (igrz_step st) = 1%nat.
Proof.
  intros H Ho. unfold igrz_step. rewrite Ho. cbn [andb].
  destruct H as [[Hc Hw] | [Hc Hw]]; rewrite Hc; cbn [Z.eqb].
  - unfold igrz_warnings in *. cbn. rewrite filter_app, length_app, Hw. reflexivity.
  - exact Hw.
Qed.

Lemma CalculateIRI2007_init_fails (st : State) :
  (forall b, snd (Initialize st) <> Ok b) ->
  CalculateIRI2007 st =
    (fst (Initialize st),
     match snd (Initialize st) with
     | Ok _ => Fault Diverges
     | Throw e => Throw e
     | Fault u => Fault u
     end).
Proof.
  intros H. unfold CalculateIRI2007. unfold bind at 1.
  change (IsInitialized st) with (st, Ok (isInitialized (self st))). cbv iota.
  destruct (isInitialized (self st)) eqn:E.
  - exfalso. apply (H true). rewrite (Initialize_when_initialized st E). reflexivity.
  - cbn [negb]. unfold bind at 1.
    destruct (Initialize st) as [s1 [b | e | u]]; cbn [fst snd] in *;
      [exfalso; apply (H b); reflexivity | reflexivity | reflexivity].
Qed.

(** The state [CalculateIRI2007] leaves holds the log and the counter of
    the ig_rz.dat step taken after the initialisation. *)
Lemma CalculateIRI2007_warn (st st1 : State) (b : bool) :
  Initialize st = (st1, Ok b) ->
  obs_engine (fst (CalculateIRI2007 st)) = obs_engine (igrz_step st1).
Proof.
  intros Hinit. rewrite (CalculateIRI2007_unfold _ _ _ Hinit).
  destruct (outside_ap (self st1)); [reflexivity |].
  apply (integrate_keeps (IRI2007_triple (self st1))).
Qed.

Lemma CalculateIRI2007_warned (st : State) :
  warned_at_most_once st -> warned_at_most_once (fst (CalculateIRI2007 st)).
Proof.
  intros H.
  assert (H1 : warned_at_most_once (fst (Initialize st))).
  { apply (warned_of_obs_warn st); [| exact H].
    apply keeps_warn_of_log. apply Initialize_log. }
  destruct (Initialize st) as [st1 [b | e | u]] eqn:Hinit.
  - cbn in H1. apply igrz_step_warned in H1.
    pose proof (CalculateIRI2007_warn _ _ _ Hinit) as K. unfold obs_engine in K.
    injection K as Ks Km.
    unfold warned_at_most_once, igrz_warnings in *. rewrite Ks, Km. exact H1.
  - rewrite CalculateIRI2007_init_fails; rewrite Hinit; [exact H1 | discriminate].
  - rewrite CalculateIRI2007_init_fails; rewrite Hinit; [exact H1 | discriminate].
Qed.

Lemma SetTime_keeps (ep : Real) : keeps obs_log (SetTime ep).
Proof. unfold SetTime. repeat keeps_step. Qed.

Lemma TRK223Solver_keeps (row : list string) (ep : Real) :
  keeps obs_self (TRK223Solver row ep).
Proof. unfold TRK223Solver. repeat keeps_step. Qed.

Lemma TRK223Solver_keeps_log (row : list string) (ep : Real) :
  keeps obs_log (TRK223Solver row ep).
Proof. unfold TRK223Solver. repeat keeps_step. Qed.

Lemma CalculateTRK223_lookup_keeps (cx : string) :
  keeps obs_engine (CalculateTRK223_lookup cx).
Proof.
  assert (K : forall row ep, keeps obs_engine (TRK223Solver row ep)).
  { intros. unfold TRK223Solver. repeat keeps_step. }
  unfold CalculateTRK223_lookup. cbv zeta.
  repeat first [apply K | keeps_step].
Qed.

Lemma CalculateTRK223_keeps : keeps obs_log CalculateTRK223.
Proof.
  unfold CalculateTRK223, CalculateTRK223_station, CalculateTRK223_lookup. cbv zeta.
  repeat first [apply TRK223Solver_keeps_log | keeps_step].
Qed.

Lemma Correction_warned (st : State) :
  warned_at_most_once st -> warned_at_most_once (fst (Correction st)).
Proof.
  intros H. unfold Correction. unfold bind at 1. unfold this at 1.
  destruct (modelTypeName (self st) =? "IRI2007").
  - apply CalculateIRI2007_warned. exact H.
  - destruct (modelTypeName (self st) =? "TRK-2-23").
    + apply (warned_of_obs_warn st); [| exact H].
      apply keeps_warn_of_log. apply CalculateTRK223_keeps.
    + apply (warned_of_obs_warn st); [| exact H].
      unfold bind, ShowMessage, throw. cbn. unfold obs_warn.
      rewrite igrz_warnings_app. cbn. rewrite Nat.add_0_r. reflexivity.
Qed.

Lemma run_call_warned (st : State) (c : Call) :
  warned_at_most_once st -> warned_at_most_once (run_call st c).
Proof.
  intros H. destruct c; cbn [run_call];
    [apply (warned_of_obs_warn st); [| exact H] .. | apply Correction_warned; exact H].
  - reflexivity.
  - apply keeps_warn_of_log. apply SetTime_keeps.
  - reflexivity.
  - reflexivity.
  - reflexivity.
  - apply keeps_warn_of_log. apply Initialize_log.
Qed.

Lemma run_calls_warned (cs : list Call) :
  forall st, warned_at_most_once st -> warned_at_most_once (run_calls st cs).
Proof.
  induction cs as [| c cs IH]; intros st H; cbn.
  - exact H.
  - apply IH. apply run_call_warned. exact H.
Qed.

(** ** C4: the fatal window and the warning window *)

(** C4.  After the lazy initialisation, [CalculateIRI2007] throws the
    out-of-range error exactly when the packed date of the epoch is outside
    the ap.dat window.  A date outside the ig_rz.dat window only is not
    fatal: the warning goes to the log if none was logged before, and the
    correction is computed as usual.  Over any sequence of calls on an
    engine that has logged no warning yet, the log never holds more than one
    warning, and holds exactly one after a correction whose date is outside
    the ig_rz.dat window. *)
Theorem C4_fatal_ap_window_one_igrz_warning :
  (forall (st st1 : State) (b : bool),
      Initialize st = (st1, Ok b) ->
      let o := self st1 in
      (is_out_of_range (snd (CalculateIRI2007 st)) = true
       <-> (mjdate o < ap_yyyymmddMin o \/ ap_yyyymmddMax o <= mjdate o)%Z)
      /\ ((mjdate o < igrz_yyyymmddMin o \/ igrz_yyyymmddMax o <= mjdate o)%Z ->
          (ap_yyyymmddMin o <= mjdate o < ap_yyyymmddMax o)%Z ->
          is_out_of_range (snd (CalculateIRI2007 st)) = false
          /\ messages (fst (CalculateIRI2007 st))
             = (messages st
                ++ if (igrz_WarningCount (self st) =? 0)%Z
                   then [igrz_warning o] else [])%list
          /\ forall tec dphi,
               snd (TEC st) = Ok tec -> snd (BendingAngle st) = Ok dphi ->
               snd (CalculateIRI2007 st) = Ok (IRI2007_triple (self st) tec dphi)))
  /\ (forall (st0 : State) (cs : list Call),
        igrz_WarningCount (self st0) = 0 -> igrz_warnings st0 = 0%nat ->
        let st := run_calls st0 cs in
        (igrz_warnings st <= 1)%nat
        /\ forall st1 b,
             Initialize st = (st1, Ok b) ->
             (mjdate (self st1) < igrz_yyyymmddMin (self st1)
              \/ igrz_yyyymmddMax (self st1) <= mjdate (self st1))%Z ->
             igrz_warnings (fst (CalculateIRI2007 st)) = 1%nat).
Proof.
  split.
  - intros st st1 b Hinit o.
    assert (Hlog : obs_log st1 = obs_log st).
    { pose proof (Initialize_log st) as K. rewrite Hinit in K. exact K. }
    unfold obs_log in Hlog. injection Hlog as Hm Hc.
    split.
    + rewrite (CalculateIRI2007_unfold _ _ _ Hinit). rewrite <- outside_ap_iff. fold o.
      destruct (outside_ap o).
      * cbn. tauto.
      * fold (integrate (IRI2007_triple o)).
        rewrite integrate_not_out_of_range. tauto.
    + intros Hig Hap.
      assert (Eap : outside_ap o = false).
      { destruct (outside_ap o) eqn:E; [| reflexivity].
        apply outside_ap_iff in E. lia. }
      apply outside_igrz_iff in Hig.
      split; [| split].
      * rewrite (CalculateIRI2007_unfold _ _ _ Hinit). fold o. rewrite Eap.
        apply (integrate_not_out_of_range (IRI2007_triple o)).
      * pose proof (CalculateIRI2007_warn _ _ _ Hinit) as K. unfold obs_engine in K.
        injection K as _ Km. rewrite Km. unfold igrz_step. fold o.
        rewrite Hig. cbn [andb]. rewrite <- Hc. fold o.
        destruct (igrz_WarningCount o =? 0)%Z; cbn.
        -- rewrite Hm. reflexivity.
        -- rewrite app_nil_r. exact Hm.
      * intros tec dphi Ht Hb.
        assert (Hwin : (ap_yyyymmddMin (self st1) <= mjdate (self st1)
                        < ap_yyyymmddMax (self st1))%Z) by exact Hap.
        exact (C2_triple_helper _ _ _ _ _ Hinit Hwin Ht Hb).
  - intros st0 cs Hc Hw st.
    assert (Hinv : warned_at_most_once st).
    { apply run_calls_warned. left. split; assumption. }
    split.
    + destruct Hinv as [[_ H] | [_ H]]; rewrite H; lia.
    + intros st1 b Hinit Hout. apply outside_igrz_iff in Hout.
      pose proof (CalculateIRI2007_warn _ _ _ Hinit) as K. unfold obs_engine in K.
      injection K as _ Km. unfold igrz_warnings at 1. rewrite Km.
      apply igrz_step_outside; [| exact Hout].
      apply (warned_of_obs_warn st); [| exact Hinv].
      pose proof (keeps_warn_of_log Initialize Initialize_log st) as K. rewrite Hinit in K.
      exact K.
Qed.

(** ** The station key of the empirical model *)

Lemma length_append (s1 s2 : string) :
  String.length (s1 ++ s2) = (String.length s1 + String.length s2)%nat.
Proof. induction s1 as [| a s1 IH]; cbn; [reflexivity | rewrite IH; reflexivity]. Qed.

Lemma length_expand_abbreviation (g : string) :
  (String.length g <= String.length (expand_abbreviation g))%nat.
Proof.
  unfold expand_abbreviation.
  destruct (String.eqb_spec g "GDS") as [-> |]; [cbn; lia |].
  destruct (String.eqb_spec g "CAN") as [-> |]; [cbn; lia |].
  destruct (String.eqb_spec g "MAD") as [-> |]; [cbn; lia | lia].
Qed.

Lemma expand_abbreviation_long (g : string) :
  String.length g <> 3%nat -> expand_abbreviation g = g.
Proof.
  intros H. unfold expand_abbreviation.
  destruct (String.eqb_spec g "GDS") as [-> |]; [cbn in H; lia |].
  destruct (String.eqb_spec g "CAN") as [-> |]; [cbn in H; lia |].
  destruct (String.eqb_spec g "MAD") as [-> |]; [cbn in H; lia | reflexivity].
Qed.

Lemma length_wrap_DSN (g : string) :
  (String.length g + 5 <= String.length (wrap_DSN g))%nat.
Proof.
  unfold wrap_DSN. destruct (String.length g <? 3)%nat;
    repeat rewrite length_append; cbn; lia.
Qed.

Lemma station_key_differs (o : Ionosphere) : station_key o <> groundStationId o.
Proof.
  intros H. apply (f_equal String.length) in H. unfold station_key in H.
  pose proof (length_wrap_DSN (expand_abbreviation (groundStationId o))).
  pose proof (length_expand_abbreviation (groundStationId o)). lia.
Qed.

Lemma wrap_DSN_again (g : string) :
  wrap_DSN (expand_abbreviation (wrap_DSN g)) = "DSN(" ++ wrap_DSN g ++ ")".
Proof.
  pose proof (length_wrap_DSN g) as H.
  rewrite expand_abbreviation_long by lia.
  unfold wrap_DSN at 1.
  destruct (Nat.ltb_spec (String.length (wrap_DSN g)) 3); [lia | reflexivity].
Qed.

Lemma substring_first_C (g : string) :
  substring 0 1 g = "C" -> (1 <= String.length g)%nat.
Proof. destruct g; cbn; [discriminate | lia]. Qed.

(** The first part of [CalculateTRK223] always stores the station key;
    it ends in the name of the complex when the identifier holds a station
    number, and in a read of the unassigned [stationNumber] otherwise. *)
Lemma CalculateTRK223_station_spec (st : State) :
  exists dflt,
    CalculateTRK223_station st =
      (mkState (set_groundStationId (station_key (self st)) (self st))
               (messages st) (iri_calls st),
       match station_number (self st) with
       | Some n => Ok (complex_of n dflt)
       | None => Fault UninitializedRead
       end).
Proof.
  unfold CalculateTRK223_station, station_key, station_number, expand_abbreviation.
  unfold bind at 1. unfold this at 1. cbv zeta.
  set (g := groundStationId (self st)).
  assert (Hgen : forall g' dflt st',
    self st' = set_groundStationId g' (self st) \/ (g' = g /\ st' = st) ->
    messages st' = messages st -> iri_calls st' = iri_calls st ->
    groundStationId (self st') = g' ->
    (o <- this ;;
     first <- lift (substr (groundStationId o) 0 1) ;;
     stationNumber <-
       (if first =? "C" then
          rest <- lift (substr_from (groundStationId o) 1) ;;
          ret (ToInteger rest)
        else ret (ToInteger (groundStationId o))) ;;
     (if (String.length (groundStationId o) <? 3)%nat
      then assign (set_groundStationId ("DSN(0" ++ groundStationId o ++ ")"))
      else assign (set_groundStationId ("DSN(" ++ groundStationId o ++ ")"))) ;;;
     stationNumber <- read_var stationNumber ;;
     ret (complex_of stationNumber dflt)) st' =
    (mkState (set_groundStationId (wrap_DSN g') (self st)) (messages st) (iri_calls st),
     match (if substring 0 1 g' =? "C"
            then ToInteger (substring 1 (String.length g' - 1) g')
            else ToInteger g') with
     | Some n => Ok (complex_of n dflt)
     | None => Fault UninitializedRead
     end)).
  { intros g' dflt st' Hs Hm Hi Hg.
    unfold bind at 1. unfold this at 1. rewrite Hg.
    unfold bind at 1. unfold lift at 1. unfold substr at 1. cbn [Nat.leb].
    assert (Hst : forall gnew,
      mkState (set_groundStationId gnew (self st')) (messages st') (iri_calls st')
      = mkState (set_groundStationId gnew (self st)) (messages st) (iri_calls st)).
    { intros gnew. rewrite Hm, Hi. f_equal.
      destruct Hs as [Hs | [_ Hs]]; [rewrite Hs | rewrite Hs]; reflexivity. }
    unfold wrap_DSN.
    destruct (substring 0 1 g' =? "C") eqn:EC.
    - apply String.eqb_eq in EC. pose proof (substring_first_C g' EC) as Hlen.
      unfold bind, lift, substr_from, substr, ret, assign, read_var.
      destruct (Nat.leb_spec 1 (String.length g')); [| lia].
      destruct (String.length g' <? 3)%nat; cbn; rewrite Hst;
        destruct (ToInteger _); reflexivity.
    - unfold bind, lift, ret, assign, read_var.
      destruct (String.length g' <? 3)%nat; cbn; rewrite Hst;
        destruct (ToInteger _); reflexivity. }
  destruct (g =? "GDS") eqn:E1; [| destruct (g =? "CAN") eqn:E2;
                                   [| destruct (g =? "MAD") eqn:E3]].
  - exists "DSN(C10)". unfold bind at 1 2. unfold assign at 1. cbv beta iota.
    unfold ret at 1. cbv beta iota.
    apply Hgen; [left; reflexivity | reflexivity ..].
  - exists "DSN(C40)". unfold bind at 1 2. unfold assign at 1. cbv beta iota.
    unfold ret at 1. cbv beta iota.
    apply Hgen; [left; reflexivity | reflexivity ..].
  - exists "DSN(C60)". unfold bind at 1 2. unfold assign at 1. cbv beta iota.
    unfold ret at 1. cbv beta iota.
    apply Hgen; [left; reflexivity | reflexivity ..].
  - exists "". unfold bind at 1. unfold ret at 1. cbv beta iota.
    apply Hgen; [right; split; reflexivity | reflexivity ..].
Qed.

(** ** C9: the station key is stored in the engine *)

Lemma CalculateTRK223_self (st : State) :
  self (fst (CalculateTRK223 st)) = set_groundStationId (station_key (self st)) (self st).
Proof.
  unfold CalculateTRK223. unfold bind at 1.
  destruct (CalculateTRK223_station_spec st) as [dflt Hs]. rewrite Hs.
  destruct (station_number (self st)) as [n |]; [| reflexivity].
  pose proof (CalculateTRK223_lookup_keeps (complex_of n dflt)
    (mkState (set_groundStationId (station_key (self st)) (self st))
             (messages st) (iri_calls st))) as K.
  apply (f_equal fst) in K. exact K.
Qed.

(** C9.  Every call of [CalculateTRK223], however it ends, leaves in the
    engine's [groundStationId] the DSN form of the identifier it found there
    (GDS, CAN and MAD expanded, then wrapped in "DSN(...)"), which is never
    the identifier it found; a second call wraps the stored key once more,
    so it scans the table with another station key than the first. *)
Theorem C9_station_key_overwritten (st : State) :
  let st1 := fst (CalculateTRK223 st) in
  let st2 := fst (CalculateTRK223 st1) in
  groundStationId (self st1) = wrap_DSN (expand_abbreviation (groundStationId (self st)))
  /\ groundStationId (self st1) <> groundStationId (self st)
  /\ groundStationId (self st2) = "DSN(" ++ groundStationId (self st1) ++ ")"
  /\ groundStationId (self st2) <> groundStationId (self st1).
Proof.
  cbv zeta. rewrite !CalculateTRK223_self.
  cbn [groundStationId set_groundStationId].
  split; [reflexivity |].
  split; [apply station_key_differs |].
  assert (H2 : station_key (set_groundStationId (station_key (self st)) (self st))
               = "DSN(" ++ station_key (self st) ++ ")").
  { unfold station_key at 1. cbn [groundStationId set_groundStationId].
    unfold station_key. apply wrap_DSN_again. }
  split; [exact H2 |].
  rewrite H2. intros H. apply (f_equal String.length) in H.
  rewrite !length_append in H. cbn in H. lia.
Qed.

(** ** The table scan *)

Section Scan.

Variables (sc cx gs : string) (ep : Real).

Let level := match_level sc cx gs ep.

Lemma slot_cons (lv : Level) (row : list string) (rows : list (list string))
    (i : nat) (lv0 : option Level) (x0 x : Z) :
  level row = Ok lv0 ->
  slot level lv rows (S i)
       (match lv0 with
        | Some l => if match l, lv with
                       | ComplexLevel, ComplexLevel | StationLevel, StationLevel => true
                       | _, _ => false
                       end
                    then Z.of_nat i else x0
        | None => x0
        end) x ->
  slot level lv (row :: rows) i x0 x.
Proof.
  intros Hlv [[Hx Hnone] | (k & r & Hx & Hn & Hl & Hafter)].
  - assert (Hcase : lv0 = Some lv \/ lv0 <> Some lv).
    { destruct lv0 as [[|] |], lv; auto; right; discriminate. }
    destruct Hcase as [-> | Hne].
    + right. exists 0%nat, row. split.
      * subst x. destruct lv; cbn; f_equal; lia.
      * split; [reflexivity |]. split; [exact Hlv |].
        intros j row' Hj Hnth. destruct j as [| j]; [lia |]. cbn in Hnth.
        apply Hnone. eapply nth_error_In. exact Hnth.
    + left. split.
      * subst x. destruct lv0 as [[|] |], lv; try reflexivity; exfalso; apply Hne; reflexivity.
      * intros r [<- | Hin]; [rewrite Hlv; congruence | apply Hnone; exact Hin].
  - right. exists (S k), r. split; [subst x; f_equal; lia |].
    split; [exact Hn |]. split; [exact Hl |].
    intros j row' Hj Hnth. destruct j as [| j]; [lia |]. cbn in Hnth.
    apply (Hafter j row'); [lia | exact Hnth].
Qed.

Lemma scan_spec (rows : list (list string)) :
  forall (i : nat) (acc : Z * Z),
    (forall row, In row rows -> exists lv, level row = Ok lv) ->
    exists a b,
      scan sc cx gs ep rows i acc = Ok (a, b)
      /\ slot level ComplexLevel rows i (fst acc) a
      /\ slot level StationLevel rows i (snd acc) b.
Proof.
  induction rows as [| row rows IH]; intros i acc Hall.
  - exists (fst acc), (snd acc). destruct acc as [a b]. cbn.
    split; [reflexivity |].
    split; left; (split; [reflexivity | intros r []]).
  - destruct (Hall row (or_introl eq_refl)) as [lv0 Hlv].
    cbn [scan]. fold level. rewrite Hlv. cbn [obind].
    match goal with |- context [scan _ _ _ _ rows (S i) ?acc'] =>
      destruct (IH (S i) acc' (fun r Hr => Hall r (or_intror Hr)))
        as (a & b & Hs & Ha & Hb)
    end.
    exists a, b. split; [exact Hs |].
    split; (eapply slot_cons; [exact Hlv |]).
    + destruct lv0 as [[|] |]; exact Ha.
    + destruct lv0 as [[|] |]; exact Hb.
Qed.

Lemma last_match_unique (lv : Level) (db : list (list string))
    (i j : nat) (r r' : list string) :
  last_match level lv db i r -> last_match level lv db j r' -> i = j /\ r = r'.
Proof.
  intros (Hn & Hl & Ha) (Hn' & Hl' & Ha').
  destruct (Nat.lt_trichotomy i j) as [H | [H | H]].
  - exfalso. exact (Ha j r' H Hn' Hl').
  - subst j. split; [reflexivity | congruence].
  - exfalso. exact (Ha' i r H Hn Hl).
Qed.

End Scan.

(** ** The evaluation of a record *)

Ltac destruct_outcomes :=
  repeat match goal with
         | |- context [match ?x with Ok _ => _ | Throw _ => _ | Fault _ => _ end] =>
             destruct x; try reflexivity
         end.

Lemma TRK223Solver_state (row : list string) (ep : Real) (st : State) :
  TRK223Solver row ep st = (st, snd (TRK223Solver row ep st)).
Proof.
  unfold TRK223Solver, bind, this, lift, ret. cbv beta iota.
  destruct_outcomes.
Qed.

Lemma TRK223Solver_waveLength (row : list string) (ep : Real) (st st' : State) :
  waveLength (self st) = waveLength (self st') ->
  snd (TRK223Solver row ep st) = snd (TRK223Solver row ep st').
Proof.
  intros H. unfold TRK223Solver, bind, this, lift, ret. cbv beta iota.
  rewrite H. destruct_outcomes.
Qed.

Lemma TRK223Solver_CONST (st : State) (row : list string) (ep : Real)
    (f2 f4 f5 : string) (k : Real) (rest : list Real) (t4 t5 : Real) :
  at_ row 1 = Ok "CONST" -> at_ row 2 = Ok f2 -> ToRealArray f2 = (k :: rest)%list ->
  at_ row 4 = Ok f4 -> GetTRK223Time f4 = Ok t4 ->
  at_ row 5 = Ok f5 -> GetTRK223Time f5 = Ok t5 ->
  let r := (freqSBand / (SPEED_OF_LIGHT_VACUUM / waveLength (self st)))%r in
  TRK223Solver row ep st = (st, Ok (k * r * r)%r).
Proof.
  intros H1 H2 Hk H4 Ht4 H5 Ht5 r.
  unfold TRK223Solver, bind, this, lift, ret. cbv beta iota.
  rewrite H1, H2, H4, Ht4, H5, Ht5, Hk. reflexivity.
Qed.

Lemma match_level_times (sc cx gs : string) (ep : Real) (row : list string) (lv : Level) :
  match_level sc cx gs ep row = Ok (Some lv) ->
  exists f4 t4 f5 t5,
    at_ row 4 = Ok f4 /\ GetTRK223Time f4 = Ok t4
    /\ at_ row 5 = Ok f5 /\ GetTRK223Time f5 = Ok t5
    /\ (t4 <=? ep)%r = true /\ (t5 >=? ep)%r = true.
Proof.
  unfold match_level, brackets_CHPART, obind. intros H.
  destruct (at_ row 7) as [f7 | |]; try discriminate.
  destruct (f7 =? sc); try discriminate.
  destruct (at_ row 0) as [f0 | |]; try discriminate.
  destruct ((f0 =? "DOPRNG") || (f0 =? "RANGE")); try discriminate.
  destruct (at_ row 6) as [f6 | |]; try discriminate.
  destruct (at_ row 4) as [f4 | |];
    [| destruct (f6 =? cx); [| destruct (f6 =? gs)]; discriminate ..].
  destruct (GetTRK223Time f4) as [t4 | |] eqn:Et4;
    [| destruct (f6 =? cx); [| destruct (f6 =? gs)]; discriminate ..].
  destruct (t4 <=? ep)%r eqn:E4;
    [| destruct (f6 =? cx); [| destruct (f6 =? gs)]; discriminate].
  destruct (at_ row 5) as [f5 | |];
    [| destruct (f6 =? cx); [| destruct (f6 =? gs)]; discriminate ..].
  destruct (GetTRK223Time f5) as [t5 | |] eqn:Et5;
    [| destruct (f6 =? cx); [| destruct (f6 =? gs)]; discriminate ..].
  destruct (t5 >=? ep)%r eqn:E5;
    [| destruct (f6 =? cx); [| destruct (f6 =? gs)]; discriminate].
  exists f4, t4, f5, t5. repeat split; reflexivity || assumption.
Qed.

(** The test of the scan, spelled out for a row whose fields are there. *)
Lemma match_level_complex_iff (sc cx gs : string) (ep : Real) (row : list string)
    (f0 f3 f4 f5 f6 f7 : string) (t4 t5 : Real) :
  at_ row 0 = Ok f0 -> at_ row 3 = Ok f3 -> at_ row 4 = Ok f4 -> at_ row 5 = Ok f5 ->
  at_ row 6 = Ok f6 -> at_ row 7 = Ok f7 ->
  GetTRK223Time f4 = Ok t4 -> GetTRK223Time f5 = Ok t5 ->
  (match_level sc cx gs ep row = Ok (Some ComplexLevel)
   <-> f7 = sc /\ (f0 = "DOPRNG" \/ f0 = "RANGE") /\ f6 = cx
       /\ (t4 <=? ep)%r = true /\ (t5 >=? ep)%r = true /\ f3 = "CHPART").
Proof.
  intros H0 H3 H4 H5 H6 H7 Ht4 Ht5.
  unfold match_level, brackets_CHPART, obind.
  rewrite H0, H3, H4, H5, H6, H7, Ht4, Ht5.
  destruct (String.eqb_spec f7 sc) as [E7 | E7]; [| split; [discriminate | tauto]].
  destruct (String.eqb_spec f0 "DOPRNG") as [E0 | E0];
    destruct (String.eqb_spec f0 "RANGE") as [E0' | E0']; cbn [orb];
    try (split; [discriminate | tauto]);
    (destruct (String.eqb_spec f6 cx) as [E6 | E6];
     [ destruct (t4 <=? ep)%r; [| split; [discriminate | intuition discriminate]];
       destruct (t5 >=? ep)%r; [| split; [discriminate | intuition discriminate]];
       destruct (String.eqb_spec f3 "CHPART") as [E3 | E3];
       [ tauto | split; [discriminate | tauto] ]
     | destruct (f6 =? gs);
       [ destruct (t4 <=? ep)%r; [| split; [discriminate | tauto]];
         destruct (t5 >=? ep)%r; [| split; [discriminate | tauto]];
         destruct (f3 =? "CHPART"); split; (discriminate || tauto)
       | split; [discriminate | tauto] ] ]).
Qed.

Lemma match_level_station (sc cx gs : string) (ep : Real) (row : list string)
    (f0 f3 f4 f5 f6 f7 : string) (t4 t5 : Real) :
  at_ row 0 = Ok f0 -> at_ row 3 = Ok f3 -> at_ row 4 = Ok f4 -> at_ row 5 = Ok f5 ->
  at_ row 6 = Ok f6 -> at_ row 7 = Ok f7 ->
  GetTRK223Time f4 = Ok t4 -> GetTRK223Time f5 = Ok t5 ->
  f7 = sc -> (f0 = "DOPRNG" \/ f0 = "RANGE") -> f6 <> cx -> f6 = gs ->
  (t4 <=? ep)%r = true -> (t5 >=? ep)%r = true -> f3 = "CHPART" ->
  match_level sc cx gs ep row = Ok (Some StationLevel).
Proof.
  intros H0 H3 H4 H5 H6 H7 Ht4 Ht5 E7 E0 E6 E6' Et4 Et5 E3.
  unfold match_level, brackets_CHPART, obind.
  rewrite H0, H3, H4, H5, H6, H7, Ht4, Ht5, Et4, Et5.
  apply String.eqb_eq in E7, E6', E3. apply String.eqb_neq in E6.
  rewrite E7, E6, E6', E3.
  destruct E0 as [-> | ->]; reflexivity.
Qed.

(** ** The lookup *)

Lemma complex_of_dflt (n : Z) (d : string) : complex_of n d = complex_key n.
Proof.
  unfold complex_key, complex_of.
  destruct (n <? 30)%Z eqn:E1; [reflexivity |].
  destruct ((n <? 50) && (n >=? 30))%Z eqn:E2; [reflexivity |].
  destruct (n >=? 50)%Z eqn:E3; [reflexivity |].
  exfalso. apply andb_false_iff in E2. lia.
Qed.

Lemma CalculateTRK223_eq (st : State) (n : Z) :
  station_number (self st) = Some n ->
  CalculateTRK223 st = CalculateTRK223_lookup (complex_key n) (keyed st).
Proof.
  intros Hn. unfold CalculateTRK223. unfold bind at 1.
  destruct (CalculateTRK223_station_spec st) as [dflt Hs]. rewrite Hs, Hn.
  rewrite complex_of_dflt. reflexivity.
Qed.

Lemma CalculateTRK223_no_number (st : State) :
  station_number (self st) = None ->
  CalculateTRK223 st = (keyed st, Fault UninitializedRead).
Proof.
  intros Hn. unfold CalculateTRK223. unfold bind at 1.
  destruct (CalculateTRK223_station_spec st) as [dflt Hs]. rewrite Hs, Hn.
  reflexivity.
Qed.

Section Lookup.

Variables (cx : string) (s' : State).

Let o := self s'.

Lemma lookup_not_found (b : Z) :
  scan (spacecraft_key o) cx (groundStationId o) (epoch o) (DSNDatabase o) 0 (-1, -1)
  = Ok (-1, b) ->
  snd (CalculateTRK223_lookup cx s')
  = Throw (Measurement (RecordNotFound (groundStationId o) cx (spacecraft_key o))).
Proof.
  intros H. unfold CalculateTRK223_lookup, bind, this, lift. cbv beta iota zeta.
  unfold spacecraft_key, o in H. rewrite H. reflexivity.
Qed.

Lemma lookup_one (i0 : nat) (row0 : list string) (v0 : Real) :
  scan (spacecraft_key o) cx (groundStationId o) (epoch o) (DSNDatabase o) 0 (-1, -1)
  = Ok (Z.of_nat i0, -1) ->
  nth_error (DSNDatabase o) i0 = Some row0 ->
  snd (TRK223Solver row0 (epoch o) s') = Ok v0 ->
  snd (CalculateTRK223_lookup cx s')
  = Ok [v0; lit 0; (v0 / SPEED_OF_LIGHT_VACUUM)%r].
Proof.
  intros H Hn Hv. unfold CalculateTRK223_lookup, bind, this, lift. cbv beta iota zeta.
  unfold spacecraft_key, o in H. rewrite H. cbn [fst snd].
  assert (E : (Z.of_nat i0 =? -1)%Z = false) by (apply Z.eqb_neq; lia).
  rewrite E. cbn [negb Z.eqb]. rewrite Nat2Z.id.
  unfold at_. fold o. rewrite Hn.
  rewrite TRK223Solver_state. fold o. rewrite Hv. reflexivity.
Qed.

Lemma lookup_both (i0 i1 : nat) (row0 row1 : list string) (v0 v1 : Real) :
  scan (spacecraft_key o) cx (groundStationId o) (epoch o) (DSNDatabase o) 0 (-1, -1)
  = Ok (Z.of_nat i0, Z.of_nat i1) ->
  nth_error (DSNDatabase o) i0 = Some row0 ->
  nth_error (DSNDatabase o) i1 = Some row1 ->
  snd (TRK223Solver row0 (epoch o) s') = Ok v0 ->
  snd (TRK223Solver row1 (epoch o) s') = Ok v1 ->
  snd (CalculateTRK223_lookup cx s')
  = Ok [(v0 + v1)%r; lit 0; ((v0 + v1) / SPEED_OF_LIGHT_VACUUM)%r].
Proof.
  intros H Hn0 Hn1 Hv0 Hv1.
  unfold CalculateTRK223_lookup, bind, this, lift. cbv beta iota zeta.
  unfold spacecraft_key, o in H. rewrite H. cbn [fst snd].
  assert (E0 : (Z.of_nat i0 =? -1)%Z = false) by (apply Z.eqb_neq; lia).
  assert (E1 : (Z.of_nat i1 =? -1)%Z = false) by (apply Z.eqb_neq; lia).
  rewrite E0, E1. cbn [negb]. rewrite !Nat2Z.id.
  unfold at_. fold o. rewrite Hn0, Hn1.
  rewrite (TRK223Solver_state row0). fold o. rewrite Hv0.
  rewrite (TRK223Solver_state row1). fold o. rewrite Hv1. reflexivity.
Qed.

End Lookup.

(** The scan of the table of [st], with the keys of the first part. *)
Lemma keyed_scan (st : State) (n : Z) :
  let o := self st in
  (forall row, In row (DSNDatabase o) -> exists lv, row_level o n row = Ok lv) ->
  exists a b,
    scan (spacecraft_key (self (keyed st))) (complex_key n)
         (groundStationId (self (keyed st))) (epoch (self (keyed st)))
         (DSNDatabase (self (keyed st))) 0 (-1, -1) = Ok (a, b)
    /\ slot (row_level o n) ComplexLevel (DSNDatabase o) 0 (-1) a
    /\ slot (row_level o n) StationLevel (DSNDatabase o) 0 (-1) b.
Proof.
  intros o Hall.
  exact (scan_spec (spacecraft_key o) (complex_key n) (station_key o) (epoch o)
           (DSNDatabase o) 0%nat (-1, -1) Hall).
Qed.

(** ** No record, or the sum of two *)

(** For an engine whose station identifier holds a station number and a
    table whose rows can all be tested: when no row is a complex-level
    match (spacecraft key, signal type DOPRNG or RANGE, complex key, window
    around the epoch, CHPART marker), [CalculateTRK223] throws RecordNotFound;
    when the table has a complex-level and a station-level match, the range
    correction returned is the sum of the corrections the two records (the
    last match of each kind) evaluate to. *)
Lemma record_not_found_or_sum (st : State) (n : Z) :
  station_number (self st) = Some n ->
  let o := self st in
  (forall row, In row (DSNDatabase o) -> exists lv, row_level o n row = Ok lv) ->
  ((forall row, In row (DSNDatabase o) -> row_level o n row <> Ok (Some ComplexLevel)) ->
   snd (CalculateTRK223 st)
   = Throw (Measurement (RecordNotFound (station_key o) (complex_key n)
                                        (spacecraft_key o))))
  /\ (forall i0 i1 row0 row1 v0 v1,
        last_match (row_level o n) ComplexLevel (DSNDatabase o) i0 row0 ->
        last_match (row_level o n) StationLevel (DSNDatabase o) i1 row1 ->
        snd (TRK223Solver row0 (epoch o) st) = Ok v0 ->
        snd (TRK223Solver row1 (epoch o) st) = Ok v1 ->
        snd (CalculateTRK223 st)
        = Ok [(v0 + v1)%r; lit 0; ((v0 + v1) / SPEED_OF_LIGHT_VACUUM)%r]).
Proof.
  intros Hn o Hall.
  rewrite (CalculateTRK223_eq st n Hn).
  destruct (keyed_scan st n Hall) as (a & b & Hscan & Ha & Hb).
  split.
  - intros Hnone.
    destruct Ha as [[-> _] | (k & row & _ & Hk & Hl & _)].
    + exact (lookup_not_found (complex_key n) (keyed st) b Hscan).
    + exfalso. apply (Hnone row); [eapply nth_error_In; exact Hk | exact Hl].
  - intros i0 i1 row0 row1 v0 v1 H0 H1 Hv0 Hv1.
    destruct Ha as [[_ Hnone] | (k0 & r0 & -> & Hk0)].
    { exfalso. destruct H0 as (Hn0 & Hl0 & _).
      apply (Hnone row0); [eapply nth_error_In; exact Hn0 | exact Hl0]. }
    destruct Hb as [[_ Hnone] | (k1 & r1 & -> & Hk1)].
    { exfalso. destruct H1 as (Hn1 & Hl1 & _).
      apply (Hnone row1); [eapply nth_error_In; exact Hn1 | exact Hl1]. }
    destruct (last_match_unique _ _ _ _ _ _ _ _ _ _ Hk0 H0) as [-> ->].
    destruct (last_match_unique _ _ _ _ _ _ _ _ _ _ Hk1 H1) as [-> ->].
    destruct H0 as (Hn0 & _). destruct H1 as (Hn1 & _).
    apply (lookup_both (complex_key n) (keyed st) i0 i1 row0 row1 v0 v1 Hscan Hn0 Hn1).
    + rewrite <- Hv0. apply TRK223Solver_waveLength. reflexivity.
    + rewrite <- Hv1. apply TRK223Solver_waveLength. reflexivity.
Qed.

(** ** One CONST record *)

Lemma single_CONST_result (st : State) (k : Real) :
  single_CONST_match (self st) k ->
  let r := (freqSBand / (SPEED_OF_LIGHT_VACUUM / waveLength (self st)))%r in
  snd (CalculateTRK223 st)
  = Ok [(k * r * r)%r; lit 0; (k * r * r / SPEED_OF_LIGHT_VACUUM)%r].
Proof.
  intros (n & i & row & f2 & rest & Hn & Hi & Hrow & Hothers & H1 & H2 & Hk) r.
  set (o := self st) in *.
  assert (Hall : forall row', In row' (DSNDatabase o) ->
                              exists lv, row_level o n row' = Ok lv).
  { intros row' Hin. apply In_nth_error in Hin. destruct Hin as [j Hj].
    destruct (Nat.eq_dec j i) as [-> | Hne].
    - rewrite Hi in Hj. injection Hj as <-. eexists. exact Hrow.
    - eexists. exact (Hothers j row' Hne Hj). }
  rewrite (CalculateTRK223_eq st n Hn).
  destruct (keyed_scan st n Hall) as (a & b & Hscan & Ha & Hb).
  fold o in Ha, Hb.
  assert (Ea : a = Z.of_nat i).
  { destruct Ha as [[_ Hnone] | (j & row' & -> & Hj & Hl & _)].
    - exfalso. apply (Hnone row); [eapply nth_error_In; exact Hi | exact Hrow].
    - destruct (Nat.eq_dec j i) as [-> | Hne]; [reflexivity |].
      rewrite (Hothers j row' Hne Hj) in Hl. discriminate. }
  assert (Eb : b = (-1)%Z).
  { destruct Hb as [[-> _] | (j & row' & _ & Hj & Hl & _)]; [reflexivity |].
    exfalso. destruct (Nat.eq_dec j i) as [-> | Hne].
    - rewrite Hi in Hj. injection Hj as <-. rewrite Hrow in Hl. discriminate.
    - rewrite (Hothers j row' Hne Hj) in Hl. discriminate. }
  subst a b.
  destruct (match_level_times _ _ _ _ _ _ Hrow)
    as (f4 & t4 & f5 & t5 & H4 & Ht4 & H5 & Ht5 & _ & _).
  apply (lookup_one (complex_key n) (keyed st) i row (k * r * r)%r Hscan Hi).
  rewrite (TRK223Solver_CONST (keyed st) row (epoch (self (keyed st)))
             f2 f4 f5 k rest t4 t5 H1 H2 Hk H4 Ht4 H5 Ht5).
  reflexivity.
Qed.

(** For an engine whose station identifier holds a station number: when
    the table holds exactly one complex-level match for the station, the
    spacecraft and the epoch, a CONST record with first coefficient [k], and
    no station-level match, [CalculateTRK223] returns
    (k (refFreq/freq)^2, 0, k (refFreq/freq)^2 / c) with refFreq = 2295 MHz
    and freq = c / wavelength, the square taken as the source takes it, by
    two multiplications; the triple is the same for any other epoch at which
    the record is still that single match. *)
Lemma single_CONST_record (st : State) (k : Real) :
  single_CONST_match (self st) k ->
  let refFreq := (lit 2295 * lit 1000000)%r in
  let freq := (SPEED_OF_LIGHT_VACUUM / waveLength (self st))%r in
  snd (CalculateTRK223 st)
  = Ok [(k * (refFreq / freq) * (refFreq / freq))%r;
        lit 0;
        (k * (refFreq / freq) * (refFreq / freq) / SPEED_OF_LIGHT_VACUUM)%r]
  /\ forall ep',
       single_CONST_match (self (with_epoch ep' st)) k ->
       snd (CalculateTRK223 (with_epoch ep' st)) = snd (CalculateTRK223 st).
Proof.
  intros H refFreq freq. split.
  - exact (single_CONST_result st k H).
  - intros ep' H'.
    rewrite (single_CONST_result st k H).
    rewrite (single_CONST_result (with_epoch ep' st) k H').
    reflexivity.
Qed.

(** ** The windows the initialisation leaves *)

Ltac step_var H v :=
  unfold bind at 1 in H; destruct v; [| discriminate H]; cbn [read_var ret] in H.

Lemma GetAPTimeRange_valid (st st' : State) :
  GetAPTimeRange st = (st', Ok tt) ->
  (ap_yyyymmddMin (self st') < ap_yyyymmddMax (self st'))%Z.
Proof.
  unfold GetAPTimeRange. cbv zeta. intros H.
  destruct (ss_get _ None) as [ss1 year] in H.
  destruct (ss_get ss1 None) as [ss2 month] in H.
  destruct (ss_get ss2 None) as [ss3 day] in H.
  step_var H year. step_var H month. step_var H day.
  unfold bind at 1 in H. unfold assign at 1 in H.
  destruct (last_lines _ _ _) as [oldLine theLine] in H.
  destruct (ss_get _ (Some _)) as [ss4 year2] in H.
  destruct (ss_get ss4 _) as [ss5 month2] in H.
  destruct (ss_get ss5 _) as [ss6 day2] in H.
  step_var H year2. step_var H month2. step_var H day2.
  unfold bind at 1 in H. unfold assign at 1 in H.
  unfold bind at 1 in H. unfold this at 1 in H.
  cbn [self set_ap_yyyymmddMax set_ap_yyyymmddMin ap_yyyymmddMax ap_yyyymmddMin] in H.
  match type of H with
  | context [(?a <=? ?b)%Z] => destruct (Z.leb_spec a b) as [Hle | Hlt] in H
  end.
  - discriminate H.
  - injection H as <-. cbn. exact Hlt.
Qed.

Lemma GetIGRZTimeRange_valid (st st' : State) :
  GetIGRZTimeRange st = (st', Ok tt) ->
  (igrz_yyyymmddMin (self st') < igrz_yyyymmddMax (self st'))%Z
  /\ ap_yyyymmddMin (self st') = ap_yyyymmddMin (self st)
  /\ ap_yyyymmddMax (self st') = ap_yyyymmddMax (self st).
Proof.
  unfold GetIGRZTimeRange. cbv zeta. intros H.
  unfold bind at 1 in H. unfold lift at 1 in H.
  destruct (next_nonblank ig_rz_dat) as [[l1 lines] | |]; try discriminate H.
  unfold bind at 1 in H. unfold lift at 1 in H.
  destruct (next_nonblank lines) as [[theLine rest] | |]; try discriminate H.
  destruct (split_comma theLine) as [monthMins l2] in H.
  destruct (split_comma l2) as [yearMins l3] in H.
  destruct (split_comma l3) as [monthMaxs l4] in H.
  destruct (split_comma l4) as [yearMaxs l5] in H.
  destruct (ss_get _ None) as [ss1 monthMin] in H.
  destruct (ss_get ss1 None) as [ss2 yearMin] in H.
  destruct (ss_get ss2 None) as [ss3 monthMax] in H.
  destruct (ss_get ss3 None) as [ss4 yearMax] in H.
  step_var H yearMin. step_var H monthMin.
  unfold bind at 1 in H. unfold assign at 1 in H.
  step_var H monthMax.
  match type of H with
  | context [set_igrz_yyyymmddMin ?d (self st)] =>
      assert (Hend : forall (s : State) (y dayMax : Z),
        s = mkState (set_igrz_yyyymmddMin d (self st)) (messages st) (iri_calls st) ->
        (assign (set_igrz_yyyymmddMax (y * 10000 + z1 * 100 + dayMax)) ;;;
         o0 <- this ;;
         (if (igrz_yyyymmddMax o0 <=? igrz_yyyymmddMin o0)%Z
          then throw (InvalidTimeRange "/IonosphereData/ig_rz.dat")
          else ret tt)) s = (st', Ok tt) ->
        (igrz_yyyymmddMin (self st') < igrz_yyyymmddMax (self st'))%Z
        /\ ap_yyyymmddMin (self st') = ap_yyyymmddMin (self st)
        /\ ap_yyyymmddMax (self st') = ap_yyyymmddMax (self st))
  end.
  { intros s y dayMax -> K.
    unfold bind at 1 in K. unfold assign at 1 in K.
    unfold bind at 1 in K. unfold this at 1 in K.
    cbn [self set_igrz_yyyymmddMax set_igrz_yyyymmddMin igrz_yyyymmddMax
         igrz_yyyymmddMin] in K.
    match type of K with
    | context [(?a <=? ?b)%Z] => destruct (Z.leb_spec a b) as [Hle | Hlt] in K
    end.
    - discriminate K.
    - injection K as <-. cbn. split; [exact Hlt | split; reflexivity]. }
  unfold bind at 1 in H.
  destruct (z1 =? 2)%Z.
  - unfold bind at 1 in H. destruct yearMax as [y |]; [| discriminate H].
    cbn [read_var ret] in H. unfold bind at 1 in H. cbn [read_var ret] in H.
    eapply Hend; [reflexivity | exact H].
  - destruct (existsb _ _); cbn [ret] in H;
      (destruct yearMax as [y |];
       [| unfold bind at 1 in H; discriminate H]);
      unfold bind at 1 in H; cbn [read_var ret] in H;
      (eapply Hend; [reflexivity | exact H]).
Qed.

(** An engine that [Initialize] has initialised holds two windows whose
    upper end is above the lower one. *)
Lemma Initialize_valid (st st1 : State) (b : bool) :
  isInitialized (self st) = false ->
  Initialize st = (st1, Ok b) ->
  isInitialized (self st1) = true ->
  (ap_yyyymmddMin (self st1) < ap_yyyymmddMax (self st1))%Z
  /\ (igrz_yyyymmddMin (self st1) < igrz_yyyymmddMax (self st1))%Z.
Proof.
  intros Hno H Hyes. unfold Initialize in H. unfold bind at 1 in H.
  change (IsInitialized st) with (st, Ok (isInitialized (self st))) in H.
  rewrite Hno in H. cbv iota in H.
  destruct MediaCorrectionInterface_Initialize.
  - unfold bind at 1 2 in H.
    destruct (GetAPTimeRange st) as [s1 [[] | |]] eqn:E1; try discriminate H.
    unfold bind at 1 in H.
    destruct (GetIGRZTimeRange s1) as [s2 [[] | |]] eqn:E2; try discriminate H.
    apply GetAPTimeRange_valid in E1.
    apply GetIGRZTimeRange_valid in E2. destruct E2 as (Hig & Hmin & Hmax).
    destruct (load_all_files >=? 1000)%Z; [discriminate H |].
    destruct ((1000 >? load_all_files) && (load_all_files >? 0))%Z; [discriminate H |].
    unfold assign, ret in H. injection H as <- _. cbn.
    split; [rewrite Hmin, Hmax; exact E1 | exact Hig].
  - unfold bind, ret in H. injection H as <- _. congruence.
Qed.

(** ** C10: the windows are closed below and open above *)

(** C10.  After the lazy initialisation, with windows whose upper end is
    above the lower one: a packed date equal to the lower end of the ap.dat
    window raises no out-of-range error, and one equal to its upper end
    raises it; a packed date equal to the lower end of the ig_rz.dat window
    logs nothing, and one equal to its upper end logs the warning (when the
    engine has logged none yet). *)
Theorem C10_windows_half_open (st st1 : State) (b : bool) :
  Initialize st = (st1, Ok b) ->
  let o := self st1 in
  (mjdate o = ap_yyyymmddMin o -> (ap_yyyymmddMin o < ap_yyyymmddMax o)%Z ->
   is_out_of_range (snd (CalculateIRI2007 st)) = false)
  /\ (mjdate o = ap_yyyymmddMax o ->
      snd (CalculateIRI2007 st) = Throw (ap_out_of_range o))
  /\ (mjdate o = igrz_yyyymmddMin o -> (igrz_yyyymmddMin o < igrz_yyyymmddMax o)%Z ->
      messages (fst (CalculateIRI2007 st)) = messages st)
  /\ (mjdate o = igrz_yyyymmddMax o -> igrz_WarningCount (self st) = 0 ->
      messages (fst (CalculateIRI2007 st)) = (messages st ++ [igrz_warning o])%list).
Proof.
  intros Hinit o.
  assert (Hlog : obs_log st1 = obs_log st).
  { pose proof (Initialize_log st) as K. rewrite Hinit in K. exact K. }
  unfold obs_log in Hlog. injection Hlog as Hm Hc. fold o in Hc.
  pose proof (CalculateIRI2007_warn _ _ _ Hinit) as K. unfold obs_engine in K.
  injection K as _ Km.
  split; [| split; [| split]].
  - intros Hd Hlt. rewrite (CalculateIRI2007_unfold _ _ _ Hinit). fold o.
    assert (E : outside_ap o = false).
    { unfold outside_ap. rewrite Hd. apply orb_false_iff. lia. }
    rewrite E. apply (integrate_not_out_of_range (IRI2007_triple o)).
  - intros Hd. rewrite (CalculateIRI2007_unfold _ _ _ Hinit). fold o.
    assert (E : outside_ap o = true).
    { unfold outside_ap. rewrite Hd. apply orb_true_iff. lia. }
    rewrite E. reflexivity.
  - intros Hd Hlt. rewrite Km. unfold igrz_step. fold o.
    assert (E : outside_igrz o = false).
    { unfold outside_igrz. rewrite Hd. apply orb_false_iff. lia. }
    rewrite E. cbn [andb]. exact Hm.
  - intros Hd Hcount. rewrite Km. unfold igrz_step. fold o.
    assert (E : outside_igrz o = true).
    { unfold outside_igrz. rewrite Hd. apply orb_true_iff. lia. }
    rewrite E, Hc, Hcount. cbn. rewrite Hm. reflexivity.
Qed.

(** ** C8: the coefficients the evaluator reads *)

(** The reads of NRMPOW stay inside the list. *)
Lemma NRMPOW_loop_in_bounds (coefs : list Real) (Time : Real) :
  forall (idx : list nat) (drho : Real),
    (forall i, In i idx -> (i < List.length coefs)%nat) ->
    exists v, NRMPOW_loop idx coefs Time drho = Ok v.
Proof.
  induction idx as [| i idx IH]; intros drho Hidx; cbn [NRMPOW_loop].
  - eexists. reflexivity.
  - unfold at_. destruct (nth_error coefs i) as [ci |] eqn:E.
    + cbn [obind]. apply IH. intros j Hj. apply Hidx. right. exact Hj.
    + exfalso. apply nth_error_None in E.
      specialize (Hidx i (or_introl eq_refl)). lia.
Qed.

Lemma NRMPOW_in_bounds (coefs : list Real) (t s e : Real) :
  exists v, TRK223_series "NRMPOW" coefs t s e = Ok v.
Proof.
  unfold TRK223_series. cbn [String.eqb Ascii.eqb Bool.eqb]. cbv zeta.
  apply NRMPOW_loop_in_bounds. intros i Hi. apply in_seq in Hi. lia.
Qed.

Lemma CONST_in_bounds (c0 : Real) (coefs : list Real) (t s e : Real) :
  TRK223_series "CONST" (c0 :: coefs) t s e = Ok c0.
Proof. reflexivity. Qed.

(** C8 fails on the code: a TRIG record with three coefficients makes the
    loop read [coefs[3]], one past the end, and a CONST record with no
    coefficient makes the evaluator read [coefs[0]] of an empty list. *)
Theorem C8_reads_past_the_end (a b c t s e : Real) :
  TRK223_series "TRIG" [a; b; c] t s e = Fault (OutOfBounds 3 3)
  /\ TRK223_series "CONST" [] t s e = Fault (OutOfBounds 0 0)
  /\ TRK223_series "TRIG" [a] t s e = Fault (OutOfBounds 1 1).
Proof. repeat split. Qed.


(** ** The provider calls of the physics model *)

Lemma ElectronDensity_run (p : Rvector3) (st : State) :
  exists c,
    ElectronDensity p st =
      (mkState (self st) (messages st) (iri_calls st ++ [c])%list,
       if negb (snd (iri_sub c) =? 0)%Z then Throw (Measurement DensityProviderError)
       else Ok (clamp_density (fst (iri_sub c)))).
Proof.
  unfold ElectronDensity, bind, this, call_iri_sub, throw, ret, clamp_density. cbv zeta.
  match goal with |- context [iri_sub ?c] => exists c end.
  destruct (iri_sub _) as [outf21 error]. cbn [fst snd].
  destruct (negb (error =? 0)%Z); reflexivity.
Qed.

Lemma TEC_crossing (st : State) :
  ~ misses_shell (self st) ->
  TEC st = TEC_loop NUM_OF_INTERVALS (step_vector (self st)) (entry_point (self st))
             (lit 0) st.
Proof.
  intros H. unfold TEC. unfold bind at 1. unfold this at 1. cbv zeta.
  fold (chord (self st)). fold (quad_a (self st)) (quad_b (self st)) (quad_c (self st)).
  fold (discriminant (self st)). fold (root1 (self st)) (root2 (self st)).
  destruct (discriminant (self st) <=? lit 0)%r eqn:Ed.
  - exfalso. apply H. left. exact Ed.
  - destruct (((root1 (self st) >? lit 1)%r && (root2 (self st) >? lit 1)%r)
              || ((root1 (self st) <? lit 0)%r && (root2 (self st) <? lit 0)%r)) eqn:Er.
    + exfalso. apply H. right.
      apply orb_true_iff in Er. destruct Er as [Er | Er];
        apply andb_true_iff in Er; [left | right]; exact Er.
    + reflexivity.
Qed.

Lemma BendingAngle_crossing (st : State) :
  ~ misses_shell (self st) ->
  let o := self st in
  let rangeVec := vsub (exit_point o) (entry_point o) in
  let freq := (SPEED_OF_LIGHT_VACUUM / waveLength o)%r in
  BendingAngle st =
    bind (ElectronDensity (exit_point o)) (fun density_i1 =>
      bind (BendingAngle_loop NUM_OF_INTERVALS rangeVec (step_vector o) freq (exit_point o)
              (ACos (dot (GetUnitVector rangeVec) (GetUnitVector (exit_point o))))
              (lit 1 - lit 40.3 * density_i1 / (freq * freq))%r (lit 0))
           (fun dtheta_i1 => ret (- dtheta_i1)%r)) st.
Proof.
  intros H. cbv zeta. unfold BendingAngle. unfold bind at 1. unfold this at 1. cbv zeta.
  fold (chord (self st)). fold (quad_a (self st)) (quad_b (self st)) (quad_c (self st)).
  fold (discriminant (self st)). fold (root1 (self st)) (root2 (self st)).
  destruct (discriminant (self st) <=? lit 0)%r eqn:Ed.
  - exfalso. apply H. left. exact Ed.
  - destruct (((root1 (self st) >? lit 1)%r && (root2 (self st) >? lit 1)%r)
              || ((root1 (self st) <? lit 0)%r && (root2 (self st) <? lit 0)%r)) eqn:Er.
    + exfalso. apply H. right.
      apply orb_true_iff in Er. destruct Er as [Er | Er];
        apply andb_true_iff in Er; [left | right]; exact Er.
    + reflexivity.
Qed.

Lemma state_eta (st : State) : mkState (self st) (messages st) (iri_calls st) = st.
Proof. destruct st; reflexivity. Qed.

Lemma makes_calls_ret {A} (a : A) (st : State) : makes_calls 0 (ret a) st.
Proof.
  exists a, []. split; [| reflexivity].
  unfold ret. rewrite app_nil_r, state_eta. reflexivity.
Qed.

Lemma makes_calls_bind {A B} (k k' : nat) (m : M A) (f : A -> M B) (st : State) :
  makes_calls k m st ->
  (forall a l, makes_calls k' (f a)
                 (mkState (self st) (messages st) (iri_calls st ++ l)%list)) ->
  makes_calls (k + k') (bind m f) st.
Proof.
  intros (v & l & Hm & Hl) Hf. unfold makes_calls, bind. rewrite Hm.
  destruct (Hf v l) as (w & l' & Hf' & Hl').
  exists w, (l ++ l')%list. split.
  - rewrite Hf'. cbn [self messages iri_calls]. rewrite app_assoc. reflexivity.
  - rewrite length_app. lia.
Qed.

Section Provider.

(** The provider reports no error. *)
Hypothesis healthy : forall c, snd (iri_sub c) = 0%Z.

Lemma ElectronDensity_calls (p : Rvector3) (st : State) :
  makes_calls 1 (ElectronDensity p) st.
Proof.
  destruct (ElectronDensity_run p st) as [c Hc]. rewrite (healthy c) in Hc.
  eexists. exists [c]. split; [exact Hc | reflexivity].
Qed.

Lemma TEC_loop_calls (n : nat) :
  forall dR p1 tec st, makes_calls n (TEC_loop n dR p1 tec) st.
Proof.
  induction n as [| n IH]; intros; cbn [TEC_loop].
  - apply makes_calls_ret.
  - apply (makes_calls_bind 1 n); [apply ElectronDensity_calls | intros; apply IH].
Qed.

Lemma BendingAngle_loop_calls (n : nat) :
  forall rangeVec dR freq r_i1 theta_i1 n_i1 dtheta_i1 st,
    makes_calls n (BendingAngle_loop n rangeVec dR freq r_i1 theta_i1 n_i1 dtheta_i1) st.
Proof.
  induction n as [| n IH]; intros; cbn [BendingAngle_loop].
  - apply makes_calls_ret.
  - apply (makes_calls_bind 1 n); [apply ElectronDensity_calls | intros; apply IH].
Qed.

Lemma TEC_calls (st : State) :
  ~ misses_shell (self st) -> makes_calls NUM_OF_INTERVALS TEC st.
Proof.
  intros H. unfold makes_calls. rewrite (TEC_crossing st H). apply TEC_loop_calls.
Qed.

Lemma BendingAngle_calls (st : State) :
  ~ misses_shell (self st) -> makes_calls (S NUM_OF_INTERVALS) BendingAngle st.
Proof.
  intros H. unfold makes_calls. rewrite (BendingAngle_crossing st H).
  apply (makes_calls_bind 1 NUM_OF_INTERVALS); [apply ElectronDensity_calls | intros].
  replace NUM_OF_INTERVALS with (NUM_OF_INTERVALS + 0)%nat at 1 by apply Nat.add_0_r.
  apply makes_calls_bind; [apply BendingAngle_loop_calls | intros; apply makes_calls_ret].
Qed.

End Provider.

Lemma misses_shell_geometry (o o' : Ionosphere) :
  geometry o = geometry o' -> misses_shell o -> misses_shell o'.
Proof.
  unfold geometry. intros H. injection H as Hst Hsc Hr _ _ _ _.
  unfold misses_shell, root1, root2, discriminant, quad_a, quad_b, quad_c, chord.
  rewrite Hst, Hsc, Hr. exact (fun x => x).
Qed.

Lemma Initialize_calls : keeps (fun st : State => iri_calls st) Initialize.
Proof.
  unfold Initialize, GetAPTimeRange, GetIGRZTimeRange. cbv zeta. repeat keeps_step.
Qed.

(** The state in which the integration of [CalculateIRI2007] starts has the
    geometry and the provider calls of the state of the call. *)
Lemma integration_start (st st1 : State) (b : bool) :
  Initialize st = (st1, Ok b) ->
  same_geometry st (igrz_step st1) /\ iri_calls (igrz_step st1) = iri_calls st.
Proof.
  intros Hinit. split.
  - pose proof (Initialize_geometry st) as H. rewrite Hinit in H. cbn [fst] in H.
    unfold same_geometry in *. rewrite H. apply igrz_step_geometry.
  - pose proof (Initialize_calls st) as H. rewrite Hinit in H. cbn [fst] in H.
    rewrite <- H. unfold igrz_step. destruct (_ && _); reflexivity.
Qed.

(** X1.  With a provider that reports no error, on a path that crosses the
    shell: [TEC] returns after exactly 200 provider calls (one per interval)
    and [BendingAngle] after exactly 201 (the end point, then one per
    interval); neither changes the engine or the log. *)
Theorem X1_provider_calls_per_integration (st : State) :
  (forall c, snd (iri_sub c) = 0%Z) ->
  ~ misses_shell (self st) ->
  (exists tec l,
      TEC st = (mkState (self st) (messages st) (iri_calls st ++ l)%list, Ok tec)
      /\ List.length l = 200%nat)
  /\ (exists dphi l,
        BendingAngle st
        = (mkState (self st) (messages st) (iri_calls st ++ l)%list, Ok dphi)
        /\ List.length l = 201%nat).
Proof.
  intros healthy H. split.
  - exact (TEC_calls healthy st H).
  - exact (BendingAngle_calls healthy st H).
Qed.

(** X2.  After the lazy initialisation, with the date inside the ap.dat
    window, a provider that reports no error and a path that crosses the
    shell, [CalculateIRI2007] returns a correction (it cannot throw), and
    the correction costs exactly 401 provider calls. *)
Theorem X2_correction_costs_401_calls (st st1 : State) (b : bool) :
  (forall c, snd (iri_sub c) = 0%Z) ->
  ~ misses_shell (self st) ->
  Initialize st = (st1, Ok b) ->
  (ap_yyyymmddMin (self st1) <= mjdate (self st1) < ap_yyyymmddMax (self st1))%Z ->
  (exists ra, snd (CalculateIRI2007 st) = Ok ra)
  /\ List.length (iri_calls (fst (CalculateIRI2007 st)))
     = (List.length (iri_calls st) + 401)%nat.
Proof.
  intros healthy H Hinit Hwin.
  rewrite (CalculateIRI2007_unfold _ _ _ Hinit).
  assert (Hap : outside_ap (self st1) = false).
  { destruct (outside_ap (self st1)) eqn:E; [| reflexivity].
    apply outside_ap_iff in E. lia. }
  rewrite Hap.
  destruct (integration_start _ _ _ Hinit) as [Hg Hc].
  set (s := igrz_step st1) in *.
  assert (Hs : ~ misses_shell (self s)).
  { intros K. apply H. apply (misses_shell_geometry (self s) (self st)); [| exact K].
    symmetry. exact Hg. }
  assert (K : makes_calls (NUM_OF_INTERVALS + (S NUM_OF_INTERVALS + 0))
                (bind TEC (fun tec => bind BendingAngle (fun dphi =>
                   ret (IRI2007_triple (self st1) tec dphi)))) s).
  { apply makes_calls_bind; [apply TEC_calls; assumption | intros tec l].
    apply makes_calls_bind; [| intros; apply makes_calls_ret].
    apply BendingAngle_calls; assumption. }
  destruct K as (ra & l & K & Hl). fold s. rewrite K. cbn [fst snd iri_calls].
  split; [exists ra; reflexivity |].
  rewrite length_app, Hc, Hl. unfold NUM_OF_INTERVALS. lia.
Qed.

Lemma fails_after_bind {A B} (k : nat) (m : M A) (f : A -> M B) (st : State) :
  fails_after k m st -> fails_after k (bind m f) st.
Proof.
  intros (l & Hm & Hl). exists l. unfold bind. rewrite Hm. split; [reflexivity | exact Hl].
Qed.

Lemma intervals_positive : exists n, NUM_OF_INTERVALS = S n.
Proof. eexists. reflexivity. Qed.

Section FailingProvider.

(** The provider reports an error. *)
Hypothesis failing : forall c, snd (iri_sub c) <> 0%Z.

Lemma ElectronDensity_fails (p : Rvector3) (st : State) :
  fails_after 1 (ElectronDensity p) st.
Proof.
  destruct (ElectronDensity_run p st) as [c Hc].
  destruct (Z.eqb_spec (snd (iri_sub c)) 0) as [E | E]; [destruct (failing c E) |].
  exists [c]. split; [exact Hc | reflexivity].
Qed.

Lemma TEC_fails (st : State) : ~ misses_shell (self st) -> fails_after 1 TEC st.
Proof.
  intros H. unfold fails_after. rewrite (TEC_crossing st H).
  destruct intervals_positive as [n ->]. cbn [TEC_loop].
  apply fails_after_bind. apply ElectronDensity_fails.
Qed.

Lemma BendingAngle_fails (st : State) :
  ~ misses_shell (self st) -> fails_after 1 BendingAngle st.
Proof.
  intros H. unfold fails_after. rewrite (BendingAngle_crossing st H).
  apply fails_after_bind. apply ElectronDensity_fails.
Qed.

End FailingProvider.

(** X3.  With a provider that reports an error, on a path that crosses the
    shell: [TEC] and [BendingAngle] stop at the first provider call and throw
    the provider error, and so does [CalculateIRI2007] for a date inside the
    ap.dat window: one provider call is made, no correction is returned. *)
Theorem X3_provider_error_stops_the_integration (st st1 : State) (b : bool) :
  (forall c, snd (iri_sub c) <> 0%Z) ->
  ~ misses_shell (self st) ->
  Initialize st = (st1, Ok b) ->
  (ap_yyyymmddMin (self st1) <= mjdate (self st1) < ap_yyyymmddMax (self st1))%Z ->
  (exists c, TEC st = (mkState (self st) (messages st) (iri_calls st ++ [c])%list,
                       Throw (Measurement DensityProviderError)))
  /\ (exists c, BendingAngle st
                = (mkState (self st) (messages st) (iri_calls st ++ [c])%list,
                   Throw (Measurement DensityProviderError)))
  /\ snd (CalculateIRI2007 st) = Throw (Measurement DensityProviderError)
  /\ List.length (iri_calls (fst (CalculateIRI2007 st)))
     = (List.length (iri_calls st) + 1)%nat.
Proof.
  intros failing H Hinit Hwin.
  assert (one : forall (m : M Real) (s : State), fails_after 1 m s ->
            exists c, m s = (mkState (self s) (messages s) (iri_calls s ++ [c])%list,
                             Throw (Measurement DensityProviderError))).
  { intros m s (l & Hm & Hl). destruct l as [| c [| c' l]]; try discriminate Hl.
    exists c. exact Hm. }
  split; [apply one; apply TEC_fails; assumption |].
  split; [apply one; apply BendingAngle_fails; assumption |].
  rewrite (CalculateIRI2007_unfold _ _ _ Hinit).
  assert (Hap : outside_ap (self st1) = false).
  { destruct (outside_ap (self st1)) eqn:E; [| reflexivity].
    apply outside_ap_iff in E. lia. }
  rewrite Hap.
  destruct (integration_start _ _ _ Hinit) as [Hg Hc].
  set (s := igrz_step st1) in *.
  assert (Hs : ~ misses_shell (self s)).
  { intros K. apply H. apply (misses_shell_geometry (self s) (self st)); [| exact K].
    symmetry. exact Hg. }
  destruct (one _ _ (TEC_fails failing s Hs)) as [c Hc'].
  assert (E : bind TEC (fun tec => bind BendingAngle (fun dphi =>
                ret (IRI2007_triple (self st1) tec dphi))) s
              = (mkState (self s) (messages s) (iri_calls s ++ [c])%list,
                 Throw (Measurement DensityProviderError))).
  { unfold bind at 1. rewrite Hc'. reflexivity. }
  rewrite E. cbn [fst snd iri_calls].
  split; [reflexivity |]. rewrite length_app, Hc. reflexivity.
Qed.

(** A correction [CalculateIRI2007] returns is the triple built from the
    electron content and the bending angle of the integration that follows
    the two date checks. *)
Lemma CalculateIRI2007_result (st : State) (ra : list Real) :
  snd (CalculateIRI2007 st) = Ok ra ->
  exists st1 b tec dphi,
    Initialize st = (st1, Ok b)
    /\ outside_ap (self st1) = false
    /\ snd (TEC (igrz_step st1)) = Ok tec
    /\ ra = IRI2007_triple (self st1) tec dphi.
Proof.
  intros H.
  destruct (Initialize st) as [st1 [b | e | u]] eqn:Hinit.
  - rewrite (CalculateIRI2007_unfold _ _ _ Hinit) in H.
    destruct (outside_ap (self st1)) eqn:Eap; [discriminate H |].
    unfold bind in H.
    destruct (TEC (igrz_step st1)) as [s2 [tec | |]] eqn:Et; try discriminate H.
    destruct (BendingAngle s2) as [s3 [dphi | |]]; try discriminate H.
    unfold ret in H. cbn [snd] in H. injection H as <-.
    exists st1, b, tec, dphi.
    split; [reflexivity |]. split; [exact Eap |]. split; [rewrite Et |]; reflexivity.
  - rewrite CalculateIRI2007_init_fails in H; rewrite Hinit in *;
      [discriminate H | discriminate].
  - rewrite CalculateIRI2007_init_fails in H; rewrite Hinit in *;
      [discriminate H | discriminate].
Qed.

Lemma misses_shell_dec (o : Ionosphere) : misses_shell o \/ ~ misses_shell o.
Proof.
  unfold misses_shell.
  destruct (discriminant o <=? lit 0)%r; [left; left; reflexivity |].
  destruct (root1 o >? lit 1)%r, (root2 o >? lit 1)%r;
    try (left; right; left; split; reflexivity);
    (destruct (root1 o <? lit 0)%r, (root2 o <? lit 0)%r;
     try (left; right; right; split; reflexivity);
     right; intros [H | [[H1 H2] | [H1 H2]]]; discriminate).
Qed.

(** ** The time tokens of the record table *)

(** X8.  [GetTRK223Time] throws [std::out_of_range] exactly for the time
    tokens with fewer than 12 characters (the position of the minute field);
    every token of 12 characters or more gives a date, whatever its
    characters are: a field in which no number is read counts as 0. *)
Theorem X8_time_token_length (s : string) :
  (GetTRK223Time s = Throw std_out_of_range <-> (String.length s < 12)%nat)
  /\ ((exists t, GetTRK223Time s = Ok t) <-> (12 <= String.length s)%nat).
Proof.
  unfold GetTRK223Time, substr_from, substr, obind.
  change (0 <=? String.length s)%nat with true. cbv iota.
  destruct (Nat.leb_spec 3 (String.length s)) as [H3 | H3];
    [| split; split; intros H; try lia; try reflexivity;
       destruct H as [t H]; discriminate H].
  destruct (Nat.leb_spec 6 (String.length s)) as [H6 | H6];
    [| split; split; intros H; try lia; try reflexivity;
       destruct H as [t H]; discriminate H].
  destruct (Nat.leb_spec 9 (String.length s)) as [H9 | H9];
    [| split; split; intros H; try lia; try reflexivity;
       destruct H as [t H]; discriminate H].
  destruct (Nat.leb_spec 12 (String.length s)) as [H12 | H12];
    [| split; split; intros H; try lia; try reflexivity;
       destruct H as [t H]; discriminate H].
  destruct (Nat.ltb_spec 14 (String.length s)) as [H14 | H14].
  - destruct (Nat.leb_spec 15 (String.length s)) as [H15 | H15]; [| lia].
    split; split; intros H; try lia; try discriminate H. eexists. reflexivity.
  - split; split; intros H; try lia; try discriminate H. eexists. reflexivity.
Qed.

(** ** The coefficients a TRIG record needs *)

Lemma TRIG_indices_In (n i : nat) :
  In i (TRIG_indices n) <-> Nat.even i = true /\ (2 <= i < n)%nat.
Proof.
  unfold TRIG_indices. rewrite filter_In, in_seq. split; intros [H1 H2]; split;
    try assumption; lia.
Qed.

Lemma TRIG_loop_in_bounds (coefs : list Real) (Time : Real) :
  forall (idx : list nat) (count : Z) (drho : Real),
    (forall i, In i idx -> (i + 1 < List.length coefs)%nat) ->
    exists v, TRIG_loop idx coefs Time count drho = Ok v.
Proof.
  induction idx as [| i idx IH]; intros count drho Hidx; cbn [TRIG_loop].
  - eexists. reflexivity.
  - specialize (Hidx i (or_introl eq_refl)) as Hi. unfold at_.
    destruct (nth_error coefs i) as [ci |] eqn:E;
      [| apply nth_error_None in E; lia].
    destruct (nth_error coefs (i + 1)) as [ci1 |] eqn:E1;
      [| apply nth_error_None in E1; lia].
    cbn [obind]. apply IH. intros j Hj. apply Hidx. right. exact Hj.
Qed.

Lemma TRIG_loop_past_the_end (coefs : list Real) (Time : Real) (last : nat) :
  (last < List.length coefs)%nat -> (List.length coefs <= last + 1)%nat ->
  forall (idx : list nat) (count : Z) (drho : Real),
    (forall i, In i idx -> (i + 1 < List.length coefs)%nat) ->
    TRIG_loop (idx ++ [last]) coefs Time count drho
    = Fault (OutOfBounds (last + 1) (List.length coefs)).
Proof.
  intros Hlast Hend.
  induction idx as [| i idx IH]; intros count drho Hidx.
  - cbn [app TRIG_loop]. unfold at_.
    destruct (nth_error coefs last) as [ci |] eqn:E;
      [| apply nth_error_None in E; lia].
    destruct (nth_error coefs (last + 1)) as [ci1 |] eqn:E1.
    + assert (K : nth_error coefs (last + 1) <> None) by congruence.
      apply nth_error_Some in K. lia.
    + reflexivity.
  - cbn [app TRIG_loop]. specialize (Hidx i (or_introl eq_refl)) as Hi. unfold at_.
    destruct (nth_error coefs i) as [ci |] eqn:E;
      [| apply nth_error_None in E; lia].
    destruct (nth_error coefs (i + 1)) as [ci1 |] eqn:E1;
      [| apply nth_error_None in E1; lia].
    cbn [obind]. apply IH. intros j Hj. apply Hidx. right. exact Hj.
Qed.

Lemma TRIG_indices_odd (n : nat) :
  (3 <= n)%nat -> Nat.odd n = true ->
  TRIG_indices n = (TRIG_indices (n - 1) ++ [(n - 1)%nat])%list.
Proof.
  intros Hn Hodd. unfold TRIG_indices.
  replace (n - 2)%nat with (S (n - 1 - 2)) by lia.
  rewrite seq_S, filter_app. cbn [filter].
  replace (2 + (n - 1 - 2))%nat with (n - 1)%nat by lia.
  assert (E : Nat.even (n - 1) = true).
  { replace n with (S (n - 1))%nat in Hodd by lia. rewrite Nat.odd_succ in Hodd. exact Hodd. }
  rewrite E. reflexivity.
Qed.

Lemma TRIG_even (coefs : list Real) (t s e : Real) :
  (2 <= List.length coefs)%nat -> Nat.even (List.length coefs) = true ->
  exists v, TRK223_series "TRIG" coefs t s e = Ok v.
Proof.
  intros Hn Heven. unfold TRK223_series. cbn [String.eqb Ascii.eqb Bool.eqb]. cbv zeta.
  unfold at_ at 1.
  destruct (nth_error coefs 0) as [c0 |] eqn:E0; [| apply nth_error_None in E0; lia].
  cbn [obind]. unfold at_ at 1.
  destruct (nth_error coefs 1) as [c1 |] eqn:E1; [| apply nth_error_None in E1; lia].
  cbn [obind]. apply TRIG_loop_in_bounds.
  intros i Hi. apply TRIG_indices_In in Hi. destruct Hi as [Hi Hr].
  apply Nat.even_spec in Hi, Heven. destruct Hi as [k Hk], Heven as [m Hm]. lia.
Qed.

Lemma TRIG_odd (coefs : list Real) (t s e : Real) :
  (3 <= List.length coefs)%nat -> Nat.odd (List.length coefs) = true ->
  TRK223_series "TRIG" coefs t s e
  = Fault (OutOfBounds (List.length coefs) (List.length coefs)).
Proof.
  intros Hn Hodd. unfold TRK223_series. cbn [String.eqb Ascii.eqb Bool.eqb]. cbv zeta.
  unfold at_ at 1.
  destruct (nth_error coefs 0) as [c0 |] eqn:E0; [| apply nth_error_None in E0; lia].
  cbn [obind]. unfold at_ at 1.
  destruct (nth_error coefs 1) as [c1 |] eqn:E1; [| apply nth_error_None in E1; lia].
  cbn [obind]. rewrite (TRIG_indices_odd _ Hn Hodd).
  rewrite TRIG_loop_past_the_end.
  - replace (List.length coefs - 1 + 1)%nat with (List.length coefs) by lia. reflexivity.
  - lia.
  - lia.
  - intros i Hi. apply TRIG_indices_In in Hi. lia.
Qed.

(** X9.  The TRIG branch of the evaluator reads inside the coefficient list
    exactly when the record has an even number of coefficients, at least
    two.  With none it reads [coefs[0]] of an empty list, with one it reads
    [coefs[1]], and with any odd number [n >= 3] its last iteration reads
    [coefs[n]], one past the end. *)
Theorem X9_TRIG_needs_an_even_number_of_coefficients (coefs : list Real) (t s e : Real) :
  let n := List.length coefs in
  ((exists v, TRK223_series "TRIG" coefs t s e = Ok v)
   <-> (2 <= n)%nat /\ Nat.even n = true)
  /\ (n = 0%nat -> TRK223_series "TRIG" coefs t s e = Fault (OutOfBounds 0 0))
  /\ (n = 1%nat -> TRK223_series "TRIG" coefs t s e = Fault (OutOfBounds 1 1))
  /\ ((3 <= n)%nat -> Nat.odd n = true ->
      TRK223_series "TRIG" coefs t s e = Fault (OutOfBounds n n)).
Proof.
  intros n.
  assert (H0 : n = 0%nat -> TRK223_series "TRIG" coefs t s e = Fault (OutOfBounds 0 0)).
  { intros E. destruct coefs; [reflexivity | discriminate E]. }
  assert (H1 : n = 1%nat -> TRK223_series "TRIG" coefs t s e = Fault (OutOfBounds 1 1)).
  { intros E. destruct coefs as [| c0 [| c1 l]]; try discriminate E. reflexivity. }
  assert (H3 : (3 <= n)%nat -> Nat.odd n = true ->
               TRK223_series "TRIG" coefs t s e = Fault (OutOfBounds n n))
    by apply TRIG_odd.
  split; [| split; [exact H0 | split; [exact H1 | exact H3]]].
  split.
  - intros [v Hv].
    destruct (Nat.even n) eqn:Heven.
    + split; [| reflexivity].
      destruct n as [| [| k]] eqn:En; [rewrite H0 in Hv by reflexivity; discriminate Hv
                                      | discriminate Heven | lia].
    + exfalso. assert (Hodd : Nat.odd n = true) by (unfold Nat.odd; rewrite Heven; reflexivity).
      destruct n as [| [| [| k]]] eqn:En.
      * discriminate Heven.
      * rewrite H1 in Hv by reflexivity. discriminate Hv.
      * discriminate Hodd.
      * rewrite H3 in Hv by (try lia; exact Hodd). discriminate Hv.
  - intros [Hn Heven]. apply TRIG_even; assumption.
Qed.

(** ** More on the table scan *)

Lemma scan_app (sc cx gs : string) (ep : Real) (rows1 rows2 : list (list string)) :
  forall (i : nat) (acc : Z * Z),
    scan sc cx gs ep (rows1 ++ rows2) i acc
    = obind (scan sc cx gs ep rows1 i acc)
        (fun acc' => scan sc cx gs ep rows2 (i + List.length rows1) acc').
Proof.
  induction rows1 as [| row rows1 IH]; intros i acc.
  - cbn [app scan obind List.length]. rewrite Nat.add_0_r. reflexivity.
  - cbn [app scan List.length].
    destruct (match_level sc cx gs ep row) as [lv | |]; cbn [obind]; [| reflexivity ..].
    rewrite IH. rewrite Nat.add_succ_comm. reflexivity.
Qed.

Lemma at_short_row (row : list string) (i : nat) :
  (List.length row <= i)%nat -> at_ row i = Fault (OutOfBounds i (List.length row)).
Proof.
  intros H. unfold at_. apply nth_error_None in H. rewrite H. reflexivity.
Qed.

(** X10.  The scan reads field 7 of every row it reaches before any other
    test, and no row is checked for its number of fields: for an engine
    whose station identifier holds a number, a table in which a row with
    fewer than 8 fields follows rows that can be tested makes
    [CalculateTRK223] read that row past its end. *)
Theorem X10_short_row_is_read_past_its_end (st : State) (n : Z)
    (good rest : list (list string)) (row : list string) :
  station_number (self st) = Some n ->
  DSNDatabase (self st) = (good ++ row :: rest)%list ->
  (forall r, In r good -> exists lv, row_level (self st) n r = Ok lv) ->
  (List.length row < 8)%nat ->
  snd (CalculateTRK223 st) = Fault (OutOfBounds 7 (List.length row)).
Proof.
  intros Hn Hdb Hgood Hshort.
  rewrite (CalculateTRK223_eq st n Hn).
  unfold CalculateTRK223_lookup. unfold bind at 1. unfold this at 1. cbv zeta.
  unfold bind at 1. unfold lift at 1.
  change (DSNDatabase (self (keyed st))) with (DSNDatabase (self st)).
  change (groundStationId (self (keyed st))) with (station_key (self st)).
  change (epoch (self (keyed st))) with (epoch (self st)).
  change (spacecraftId (self (keyed st))) with (spacecraftId (self st)).
  fold (spacecraft_key (self st)).
  rewrite Hdb, scan_app.
  destruct (scan_spec (spacecraft_key (self st)) (complex_key n) (station_key (self st))
              (epoch (self st)) good 0%nat (-1, -1) Hgood) as (a & b & Hs & _).
  rewrite Hs. cbn [obind scan]. unfold match_level.
  rewrite (at_short_row row 7) by lia. reflexivity.
Qed.

Lemma match_level_same_key (sc cx : string) (ep : Real) (row : list string) :
  match_level sc cx cx ep row <> Ok (Some StationLevel).
Proof.
  unfold match_level, obind.
  destruct (at_ row 7) as [f7 | |]; try discriminate.
  destruct (f7 =? sc); try discriminate.
  destruct (at_ row 0) as [f0 | |]; try discriminate.
  destruct ((f0 =? "DOPRNG") || (f0 =? "RANGE")); try discriminate.
  destruct (at_ row 6) as [f6 | |]; try discriminate.
  destruct (f6 =? cx); [| discriminate].
  destruct (brackets_CHPART row ep) as [[|] | |]; discriminate.
Qed.

(** X11.  When the station key is the key of the complex itself (as for
    the identifiers C10, C40 and C60), no row of the table is a
    station-level match, since the complex key is tested first: the
    correction is that of the last complex-level match alone. *)
Theorem X11_complex_identifier_has_no_station_record (st : State) (n : Z) :
  station_number (self st) = Some n ->
  station_key (self st) = complex_key n ->
  let o := self st in
  (forall row, In row (DSNDatabase o) -> exists lv, row_level o n row = Ok lv) ->
  (forall row, row_level o n row <> Ok (Some StationLevel))
  /\ forall i0 row0 v0,
       last_match (row_level o n) ComplexLevel (DSNDatabase o) i0 row0 ->
       snd (TRK223Solver row0 (epoch o) st) = Ok v0 ->
       snd (CalculateTRK223 st) = Ok [v0; lit 0; (v0 / SPEED_OF_LIGHT_VACUUM)%r].
Proof.
  intros Hn Hkey o Hall.
  assert (Hnone : forall row, row_level o n row <> Ok (Some StationLevel)).
  { intros row. unfold row_level. fold o in Hkey. rewrite Hkey.
    apply match_level_same_key. }
  split; [exact Hnone |].
  intros i0 row0 v0 H0 Hv0.
  rewrite (CalculateTRK223_eq st n Hn).
  destruct (keyed_scan st n Hall) as (a & b & Hscan & Ha & Hb).
  fold o in Ha, Hb.
  destruct Hb as [[-> _] | (k1 & r1 & _ & _ & Hl & _)];
    [| destruct (Hnone r1 Hl)].
  destruct Ha as [[_ Hno] | (k0 & r0 & -> & Hk0)].
  { exfalso. destruct H0 as (Hn0 & Hl0 & _).
    apply (Hno row0); [eapply nth_error_In; exact Hn0 | exact Hl0]. }
  destruct (last_match_unique _ _ _ _ _ _ _ _ _ _ Hk0 H0) as [-> ->].
  destruct H0 as (Hn0 & _).
  apply (lookup_one (complex_key n) (keyed st) i0 row0 v0 Hscan Hn0).
  rewrite <- Hv0. apply TRK223Solver_waveLength. reflexivity.
Qed.

(** X12.  For the three abbreviations the code expands (GDS, CAN, MAD), the
    identifier is replaced by the name of a complex before the station
    number is read in it; when [ToInteger] reads no number in that name,
    [stationNumber] is compared without having been assigned, and the key
    left in the engine is the name of the complex wrapped once more. *)
Theorem X12_abbreviation_reads_unassigned_station_number (st : State) :
  In (groundStationId (self st)) ["GDS"; "CAN"; "MAD"] ->
  ToInteger (expand_abbreviation (groundStationId (self st))) = None ->
  snd (CalculateTRK223 st) = Fault UninitializedRead
  /\ groundStationId (self (fst (CalculateTRK223 st)))
     = "DSN(" ++ expand_abbreviation (groundStationId (self st)) ++ ")".
Proof.
  intros Hin Hno.
  assert (Hn : station_number (self st) = None).
  { unfold station_number. revert Hno.
    destruct Hin as [<- | [<- | [<- | []]]]; exact (fun H => H). }
  rewrite (CalculateTRK223_no_number st Hn). split; [reflexivity |].
  cbn [fst keyed self groundStationId set_groundStationId]. unfold station_key.
  destruct Hin as [<- | [<- | [<- | []]]]; reflexivity.
Qed.

Lemma CalculateTRK223_lookup_state (cx : string) :
  keeps (fun st : State => st) (CalculateTRK223_lookup cx).
Proof.
  assert (K : forall row ep, keeps (fun st : State => st) (TRK223Solver row ep)).
  { intros. unfold TRK223Solver. repeat keeps_step. }
  unfold CalculateTRK223_lookup. cbv zeta.
  repeat first [apply K | keeps_step].
Qed.

(** What the second part of [CalculateTRK223] reads of the engine: the
    station key, the spacecraft identifier, the table, the epoch and the
    wavelength. *)
Lemma CalculateTRK223_lookup_reads (cx : string) (s s' : State) :
  groundStationId (self s') = groundStationId (self s) ->
  spacecraftId (self s') = spacecraftId (self s) ->
  DSNDatabase (self s') = DSNDatabase (self s) ->
  epoch (self s') = epoch (self s) ->
  waveLength (self s') = waveLength (self s) ->
  snd (CalculateTRK223_lookup cx s') = snd (CalculateTRK223_lookup cx s).
Proof.
  intros Hg Hs Hd He Hw.
  unfold CalculateTRK223_lookup, bind, this, lift. cbv beta iota zeta.
  rewrite Hg, Hs, Hd, He.
  destruct (scan _ _ _ _ _ _ _) as [[a b] | |]; try reflexivity.
  cbn [fst snd].
  destruct (negb (a =? -1)%Z); [| reflexivity].
  destruct (at_ (DSNDatabase (self s)) (Z.to_nat a)) as [row0 | |]; try reflexivity.
  rewrite (TRK223Solver_state row0 (epoch (self s)) s').
  rewrite (TRK223Solver_state row0 (epoch (self s)) s).
  rewrite (TRK223Solver_waveLength row0 (epoch (self s)) s' s Hw).
  destruct (snd (TRK223Solver row0 (epoch (self s)) s)) as [v0 | |]; try reflexivity.
  destruct (negb (b =? -1)%Z); [| reflexivity].
  destruct (at_ (DSNDatabase (self s)) (Z.to_nat b)) as [row1 | |]; try reflexivity.
  rewrite (TRK223Solver_state row1 (epoch (self s)) s').
  rewrite (TRK223Solver_state row1 (epoch (self s)) s).
  rewrite (TRK223Solver_waveLength row1 (epoch (self s)) s' s Hw).
  destruct (snd (TRK223Solver row1 (epoch (self s)) s)) as [v1 | |]; reflexivity.
Qed.

(** What [CalculateTRK223] reads of the engine. *)
Lemma CalculateTRK223_reads (st st' : State) :
  groundStationId (self st') = groundStationId (self st) ->
  spacecraftId (self st') = spacecraftId (self st) ->
  DSNDatabase (self st') = DSNDatabase (self st) ->
  epoch (self st') = epoch (self st) ->
  waveLength (self st') = waveLength (self st) ->
  snd (CalculateTRK223 st') = snd (CalculateTRK223 st).
Proof.
  intros Hg Hs Hd He Hw.
  assert (Hn : station_number (self st') = station_number (self st))
    by (unfold station_number; rewrite Hg; reflexivity).
  assert (Hk : station_key (self st') = station_key (self st))
    by (unfold station_key; rewrite Hg; reflexivity).
  destruct (station_number (self st)) as [n |] eqn:E.
  - rewrite (CalculateTRK223_eq st' n Hn), (CalculateTRK223_eq st n E).
    apply CalculateTRK223_lookup_reads; cbn; assumption.
  - rewrite (CalculateTRK223_no_number st' Hn), (CalculateTRK223_no_number st E).
    reflexivity.
Qed.

(** X13.  [CalculateTRK223], however it ends, makes no call of the density
    provider, logs no message and changes no field of the engine other than
    the station identifier.  Of the engine it reads the station identifier,
    the spacecraft identifier, the table, the epoch and the wavelength, and
    nothing else: it ends the same way, with the same correction, exception
    or fault, whatever the model name, the initialisation flag, the Earth
    radius, the windows of the two index files, the date and hour of the
    physics model, its two positions, the warning count, the message log
    and the provider calls made so far are. *)
Theorem X13_empirical_model_changes_only_the_station_key (st : State)
    (model : string) (initialized : bool) (radius : Real)
    (igrz_min igrz_max ap_min ap_max year monthday : Z) (hour : Real)
    (station spacecraft : Rvector3) (warnings : Z)
    (log : list Message) (calls : list IriCall) :
  let o := self st in
  let other :=
    mkState (mkIonosphere model initialized radius
               (groundStationId o) (spacecraftId o) (DSNDatabase o)
               igrz_min igrz_max ap_min ap_max
               (waveLength o) (epoch o)
               year monthday hour station spacecraft warnings)
            log calls in
  fst (CalculateTRK223 st)
  = mkState (set_groundStationId (station_key o) o) (messages st) (iri_calls st)
  /\ snd (CalculateTRK223 other) = snd (CalculateTRK223 st).
Proof.
  intros o other. split.
  - unfold CalculateTRK223. unfold bind at 1.
    destruct (CalculateTRK223_station_spec st) as [dflt Hs]. rewrite Hs.
    destruct (station_number (self st)) as [n |]; [| reflexivity].
    apply (CalculateTRK223_lookup_state (complex_of n dflt)).
  - apply CalculateTRK223_reads; reflexivity.
Qed.

(** ** The shape of a correction *)

Lemma CalculateTRK223_lookup_result (cx : string) (st : State) (ra : list Real) :
  snd (CalculateTRK223_lookup cx st) = Ok ra ->
  exists drho, ra = [drho; lit 0; (drho / SPEED_OF_LIGHT_VACUUM)%r].
Proof.
  unfold CalculateTRK223_lookup. unfold bind at 1. unfold this at 1. cbv zeta.
  unfold bind at 1. unfold lift at 1.
  destruct (scan _ _ _ _ _ _ _) as [[a b] | |]; try discriminate.
  cbn [fst snd].
  unfold bind at 1.
  destruct (negb (a =? -1)%Z); [| discriminate].
  unfold bind at 1. unfold lift at 1.
  destruct (at_ (DSNDatabase (self st)) (Z.to_nat a)) as [row0 | |]; try discriminate.
  destruct (TRK223Solver row0 (epoch (self st)) st) as [s1 [v0 | |]]; try discriminate.
  unfold bind at 1.
  destruct (negb (b =? -1)%Z).
  - unfold bind at 1. unfold lift at 1.
    destruct (at_ (DSNDatabase (self st)) (Z.to_nat b)) as [row1 | |]; try discriminate.
    unfold bind at 1.
    destruct (TRK223Solver row1 (epoch (self st)) s1) as [s2 [v1 | |]]; try discriminate.
    unfold ret. cbn [snd]. intros H. injection H as <-. eexists. reflexivity.
  - unfold ret. cbn [snd]. intros H. injection H as <-. eexists. reflexivity.
Qed.

Lemma CalculateTRK223_result (st : State) (ra : list Real) :
  snd (CalculateTRK223 st) = Ok ra ->
  exists drho, ra = [drho; lit 0; (drho / SPEED_OF_LIGHT_VACUUM)%r].
Proof.
  unfold CalculateTRK223. unfold bind at 1.
  destruct (CalculateTRK223_station_spec st) as [dflt Hs]. rewrite Hs.
  destruct (station_number (self st)) as [n |]; [| discriminate].
  apply CalculateTRK223_lookup_result.
Qed.

(** X14.  Whatever the model, a correction [Correction] returns has three
    entries, and the third (the time correction) is the first (the range
    correction) divided by the speed of light; with the empirical model the
    second (the angle correction) is 0. *)
Theorem X14_correction_is_a_triple (st : State) (ra : list Real) :
  snd (Correction st) = Ok ra ->
  exists drho dphi,
    ra = [drho; dphi; (drho / SPEED_OF_LIGHT_VACUUM)%r]
    /\ (modelTypeName (self st) = "TRK-2-23" -> dphi = lit 0).
Proof.
  unfold Correction. unfold bind at 1. unfold this at 1.
  destruct (String.eqb_spec (modelTypeName (self st)) "IRI2007") as [E | E].
  - intros H. destruct (CalculateIRI2007_result st ra H) as (st1 & b & tec & dphi & _ & _ & _ & ->).
    unfold IRI2007_triple. eexists. exists dphi. split; [reflexivity |].
    rewrite E. discriminate.
  - destruct (modelTypeName (self st) =? "TRK-2-23").
    + intros H. destruct (CalculateTRK223_result st ra H) as [drho ->].
      exists drho, (lit 0). split; reflexivity.
    + unfold bind, ShowMessage, throw. cbn [snd]. discriminate.
Qed.

(** ** The lazy initialisation *)

Lemma Initialize_returns_true (st st1 : State) (b : bool) :
  Initialize st = (st1, Ok b) -> b = true.
Proof.
  unfold Initialize. unfold bind at 1.
  change (IsInitialized st) with (st, Ok (isInitialized (self st))). cbv iota.
  destruct (isInitialized (self st)).
  - unfold ret. intros H. injection H as _ <-. reflexivity.
  - unfold bind at 1.
    match goal with |- context [match ?m st with _ => _ end] => destruct (m st) as [s [[] | |]] end;
      try discriminate.
    unfold ret. intros H. injection H as _ <-. reflexivity.
Qed.

(** X17.  [Initialize] returns true whenever it returns.  An engine that
    was not initialised before the call and is initialised after it holds
    two windows read in the index files whose upper end is above the lower
    one. *)
Theorem X17_initialised_engine_has_two_valid_windows (st st1 : State) (b : bool) :
  Initialize st = (st1, Ok b) ->
  b = true
  /\ (isInitialized (self st) = false -> isInitialized (self st1) = true ->
      (ap_yyyymmddMin (self st1) < ap_yyyymmddMax (self st1))%Z
      /\ (igrz_yyyymmddMin (self st1) < igrz_yyyymmddMax (self st1))%Z).
Proof.
  intros H. split.
  - exact (Initialize_returns_true _ _ _ H).
  - intros Hno Hyes. exact (Initialize_valid st st1 b Hno H Hyes).
Qed.

(** X15.  When [MediaCorrectionInterface::Initialize] fails, [Initialize]
    returns true all the same and changes nothing: the engine stays
    uninitialised, and the index files are not read.  With an ap.dat window
    that is empty, as the one the constructor sets (20000101 to 20000101),
    [CalculateIRI2007] then throws the out-of-range error whatever the
    epoch is, without any provider call. *)
Theorem X15_failed_interface_rejects_every_epoch (st : State) :
  MediaCorrectionInterface_Initialize = false ->
  isInitialized (self st) = false ->
  (ap_yyyymmddMax (self st) <= ap_yyyymmddMin (self st))%Z ->
  Initialize st = (st, Ok true)
  /\ snd (CalculateIRI2007 st) = Throw (ap_out_of_range (self st))
  /\ self (fst (CalculateIRI2007 st)) = self (igrz_step st)
  /\ iri_calls (fst (CalculateIRI2007 st)) = iri_calls st.
Proof.
  intros Hmci Hno Hwin.
  assert (Hinit : Initialize st = (st, Ok true)).
  { unfold Initialize. unfold bind at 1.
    change (IsInitialized st) with (st, Ok (isInitialized (self st))). cbv iota.
    rewrite Hno, Hmci. reflexivity. }
  split; [exact Hinit |].
  rewrite (CalculateIRI2007_unfold _ _ _ Hinit).
  assert (Hap : outside_ap (self st) = true) by (apply outside_ap_iff; lia).
  rewrite Hap. cbn [fst snd].
  split; [reflexivity |]. split; [reflexivity |].
  unfold igrz_step. destruct (_ && _); reflexivity.
Qed.

Lemma GetAPTimeRange_flags :
  keeps (fun st : State => (isInitialized (self st), messages st, iri_calls st))
        GetAPTimeRange.
Proof. unfold GetAPTimeRange. cbv zeta. repeat keeps_step. Qed.

Lemma GetIGRZTimeRange_flags :
  keeps (fun st : State => (isInitialized (self st), messages st, iri_calls st))
        GetIGRZTimeRange.
Proof. unfold GetIGRZTimeRange. cbv zeta. repeat keeps_step. Qed.

(** [Initialize] on an engine that is not initialised, when the load of
    the provider's files fails. *)
Lemma Initialize_failed_load (st : State) :
  isInitialized (self st) = false ->
  MediaCorrectionInterface_Initialize = true ->
  (0 < load_all_files)%Z ->
  let e := Measurement (if (load_all_files >=? 1000)%Z
                        then DataFileMissing else ProviderLoadError) in
  (forall b, snd (Initialize st) <> Ok b)
  /\ (isInitialized (self (fst (Initialize st))), messages (fst (Initialize st)),
      iri_calls (fst (Initialize st)))
     = (false, messages st, iri_calls st)
  /\ (forall s1 s2, GetAPTimeRange st = (s1, Ok tt) -> GetIGRZTimeRange s1 = (s2, Ok tt) ->
      Initialize st = (s2, Throw e)).
Proof.
  intros Hno Hmci Hload e.
  pose proof (GetAPTimeRange_flags st) as K1.
  assert (Htail : forall s : State,
    (if (load_all_files >=? 1000)%Z then throw DataFileMissing
     else if ((1000 >? load_all_files) && (load_all_files >? 0))%Z
          then throw ProviderLoadError
          else assign (set_isInitialized true)) s = (s, Throw e)).
  { intros s. unfold e. destruct (Z.geb_spec load_all_files 1000) as [H | H]; [reflexivity |].
    destruct (Z.gtb_spec 1000 load_all_files) as [H1 | H1]; [| lia].
    destruct (Z.gtb_spec load_all_files 0) as [H2 | H2]; [| lia].
    reflexivity. }
  assert (Hform :
    Initialize st =
      match GetAPTimeRange st with
      | (s1, Ok _) =>
          match GetIGRZTimeRange s1 with
          | (s2, Ok _) => (s2, Throw e)
          | (s2, Throw x) => (s2, Throw x)
          | (s2, Fault u) => (s2, Fault u)
          end
      | (s1, Throw x) => (s1, Throw x)
      | (s1, Fault u) => (s1, Fault u)
      end).
  { unfold Initialize. unfold bind at 1.
    change (IsInitialized st) with (st, Ok (isInitialized (self st))). cbv iota.
    rewrite Hno, Hmci. cbv zeta. unfold bind at 1 2.
    destruct (GetAPTimeRange st) as [s1 [[] | e1 | u1]]; [| reflexivity ..].
    unfold bind at 1.
    destruct (GetIGRZTimeRange s1) as [s2 [[] | e2 | u2]]; [| reflexivity ..].
    rewrite Htail. reflexivity. }
  rewrite Hform. clear Hform.
  destruct (GetAPTimeRange st) as [s1 [[] | e1 | u1]] eqn:E1; cbn [fst] in K1.
  - pose proof (GetIGRZTimeRange_flags s1) as K2.
    destruct (GetIGRZTimeRange s1) as [s2 [[] | e2 | u2]] eqn:E2; cbn [fst] in K2.
    + cbn [fst snd].
      split; [discriminate |]. split; [rewrite K2, K1, Hno; reflexivity |].
      intros s1' s2' H1 H2. injection H1 as <-. rewrite E2 in H2. injection H2 as <-.
      reflexivity.
    + cbn [fst snd]. split; [discriminate |]. split; [rewrite K2, K1, Hno; reflexivity |].
      intros s1' s2' H1 H2. injection H1 as <-. rewrite E2 in H2. discriminate H2.
    + cbn [fst snd]. split; [discriminate |]. split; [rewrite K2, K1, Hno; reflexivity |].
      intros s1' s2' H1 H2. injection H1 as <-. rewrite E2 in H2. discriminate H2.
  - cbn [fst snd]. split; [discriminate |]. split; [rewrite K1, Hno; reflexivity |].
    intros s1' s2' H1. discriminate H1.
  - cbn [fst snd]. split; [discriminate |]. split; [rewrite K1, Hno; reflexivity |].
    intros s1' s2' H1. discriminate H1.
Qed.

(** X16.  When the load of the provider's files fails (a positive status
    of [load_all_files__]), a correction request on an engine that is not
    initialised never returns a correction and leaves the engine not
    initialised, so that the next request reads the files again; nothing is
    logged and the provider is not called.  When both windows could be read,
    the exception is the one of the status: a status from 1000 on says that
    a data file cannot be opened, a status below 1000 carries the message of
    the loader. *)
Theorem X16_failed_load_gives_no_correction (st : State) :
  isInitialized (self st) = false ->
  MediaCorrectionInterface_Initialize = true ->
  (0 < load_all_files)%Z ->
  (forall ra, snd (CalculateIRI2007 st) <> Ok ra)
  /\ isInitialized (self (fst (CalculateIRI2007 st))) = false
  /\ messages (fst (CalculateIRI2007 st)) = messages st
  /\ iri_calls (fst (CalculateIRI2007 st)) = iri_calls st
  /\ (forall s1 s2,
        GetAPTimeRange st = (s1, Ok tt) -> GetIGRZTimeRange s1 = (s2, Ok tt) ->
        CalculateIRI2007 st
        = (s2, Throw (Measurement (if (load_all_files >=? 1000)%Z
                                   then DataFileMissing else ProviderLoadError)))).
Proof.
  intros Hno Hmci Hload.
  destruct (Initialize_failed_load st Hno Hmci Hload) as (Hfail & Hobs & Hthrow).
  rewrite (CalculateIRI2007_init_fails st Hfail). cbn [fst snd].
  injection Hobs as Hi Hm Hc.
  split.
  - intros ra. destruct (snd (Initialize st)) as [b | e | u] eqn:E;
      [destruct (Hfail b eq_refl) | discriminate ..].
  - split; [exact Hi |]. split; [exact Hm |]. split; [exact Hc |].
    intros s1 s2 H1 H2. rewrite (Hthrow s1 s2 H1 H2). reflexivity.
Qed.

(** ** The lines of ap.dat *)

Lemma last_lines_app (l : list string) (x old cur : string) :
  snd (last_lines (l ++ [x]) old cur) = x
  /\ fst (last_lines (l ++ [x; ""]) old cur) = x
  /\ snd (last_lines (l ++ [x; ""]) old cur) = "".
Proof.
  revert old cur. induction l as [| a l IH]; intros old cur.
  - cbn. repeat split.
  - cbn [app last_lines]. apply IH.
Qed.

(** X18.  The window [GetAPTimeRange] reads depends only on the first
    line of ap.dat and on its last line: the lines between them are not
    parsed, and an empty line at the very end of the file is skipped. *)
Theorem X18_only_the_first_and_the_last_line_of_ap_dat
    (EX1 EX2 : Externals (Real := Real)) (first last : string)
    (middle tail : list string) (st : State) :
  last <> "" -> tail = [] \/ tail = [""] ->
  ap_dat (Externals := EX1) = (first :: middle ++ last :: tail)%list ->
  ap_dat (Externals := EX2) = [first; last] ->
  GetAPTimeRange (EX := EX1) st = GetAPTimeRange (EX := EX2) st.
Proof.
  intros Hne Htail H1 H2. apply String.eqb_neq in Hne.
  unfold GetAPTimeRange. rewrite H1, H2. cbn [hd tl last_lines].
  generalize (last_lines_app middle last "" first).
  destruct Htail as [-> | ->].
  - destruct (last_lines (middle ++ [last]) "" first) as [o t].
    cbn [fst snd]. intros (E & _). subst t. rewrite Hne. reflexivity.
  - destruct (last_lines (middle ++ [last; ""]) "" first) as [o t].
    cbn [fst snd]. intros (_ & E1 & E2). subst o t. cbn [String.eqb]. rewrite Hne.
    reflexivity.
Qed.

Lemma skip_ws_idem (s : string) : skip_ws (skip_ws s) = skip_ws s.
Proof.
  induction s as [| a s IH]; [reflexivity |].
  cbn [skip_ws]. destruct (is_space a) eqn:E; [exact IH |].
  cbn [skip_ws]. rewrite E. reflexivity.
Qed.

(** An extraction that reads a number on a good stream. *)
Lemma ss_get_reads (text rest : string) (old : option Z) (v : Z) :
  extract_int text = Some (v, rest) ->
  ss_get (mkStream text true) old = (mkStream rest (negb (rest =? "")), Some v).
Proof.
  intros H. unfold ss_get. cbn [good unread]. cbv zeta.
  assert (E : extract_int (skip_ws text) = extract_int text)
    by (unfold extract_int; rewrite skip_ws_idem; reflexivity).
  destruct (String.eqb_spec (skip_ws text) "") as [He | He].
  - unfold extract_int in H. rewrite He in H. discriminate H.
  - rewrite E, H. reflexivity.
Qed.

(** An extraction on a stream that is not good, or that holds nothing but
    white space, leaves the variable as it was. *)
Lemma ss_get_keeps (ss : stringstream) (old : option Z) :
  good ss = false \/ skip_ws (unread ss) = "" -> snd (ss_get ss old) = old.
Proof.
  intros [H | H]; unfold ss_get; [rewrite H; reflexivity |].
  destruct (good ss); [| reflexivity]. cbv zeta. rewrite H. reflexivity.
Qed.

Lemma AP_year_twice (y : Z) : (0 <= y)%Z -> AP_year (AP_year y) = (AP_year y + 1900)%Z.
Proof.
  intros H. unfold AP_year.
  destruct (Z.geb_spec y 58) as [H1 | H1].
  - destruct (Z.geb_spec (1900 + y) 58); lia.
  - destruct (Z.geb_spec (2000 + y) 58); lia.
Qed.

(** X19.  When the first line of ap.dat ends with its day number (nothing
    follows the third number), the stream the line was put in is at its end
    after the day is read; [ss.str("")] does not clear that state, so the
    last line is neither put in the stream nor read: year, month and day
    keep the values of the first line, the year with its century, to which
    the century is added once more.  The window is then accepted, whatever
    the last line says, and ends 1900 years after it starts. *)
Theorem X19_first_line_that_ends_with_the_day (st : State) (first : string)
    (rest : list string) (y m d : Z) (r1 r2 : string) :
  ap_dat = (first :: rest)%list ->
  extract_int first = Some (y, r1) -> r1 <> "" ->
  extract_int r1 = Some (m, r2) -> r2 <> "" ->
  extract_int r2 = Some (d, "") ->
  (0 <= y)%Z ->
  let lower := (AP_year y * 10000 + m * 100 + d)%Z in
  GetAPTimeRange st
  = (mkState (set_ap_yyyymmddMax (lower + 19000000)
                (set_ap_yyyymmddMin lower (self st)))
             (messages st) (iri_calls st),
     Ok tt).
Proof.
  intros Hap Hy Hr1 Hm Hr2 Hd Hpos lower.
  apply String.eqb_neq in Hr1, Hr2.
  unfold GetAPTimeRange. rewrite Hap. cbn [hd tl]. cbv zeta.
  unfold ss_put at 1. cbn [ss_new good unread append].
  rewrite (@ss_get_reads _ _ None _ Hy), Hr1. cbn [negb].
  rewrite (@ss_get_reads _ _ None _ Hm), Hr2. cbn [negb].
  rewrite (@ss_get_reads _ _ None _ Hd). cbn [String.eqb negb].
  cbn [read_var].
  destruct (last_lines rest "" first) as [oldLine theLine].
  unfold ss_str, ss_put, ss_get. cbn [good unread].
  unfold bind, ret, assign, this, throw. cbn [self messages iri_calls read_var ret].
  rewrite (AP_year_twice y Hpos).
  cbn [ap_yyyymmddMax ap_yyyymmddMin set_ap_yyyymmddMax set_ap_yyyymmddMin].
  fold lower.
  replace ((AP_year y + 1900) * 10000 + m * 100 + d)%Z with (lower + 19000000)%Z
    by (unfold lower; lia).
  destruct (Z.leb_spec (lower + 19000000) lower) as [H | H]; [lia | reflexivity].
Qed.

(** ** The window of ig_rz.dat *)





(** ** The date of the epoch *)

Lemma iso_timestamp_fields (Y Mo D h mi s ms : Z) :
  let time := iso_timestamp Y Mo D h mi s ms in
  substr time 0 4 = Ok (digits 4 Y)
  /\ substr time 5 2 = Ok (digits 2 Mo)
  /\ substr time 8 2 = Ok (digits 2 D)
  /\ substr time 11 2 = Ok (digits 2 h)
  /\ substr time 14 2 = Ok (digits 2 mi)
  /\ substr time 17 2 = Ok (digits 2 s)
  /\ substr time 20 3 = Ok (digits 3 ms).
Proof.
  unfold iso_timestamp, substr.
  cbn [digits append String.length Nat.leb substring].
  repeat split.
Qed.

(** X21.  [SetTime] takes the date apart at the positions of the layout
    YYYY-MM-DDTHH:MM:SS.mmm: for a converter that answers the epoch in that
    layout, and [atoi] and [atof] that read a number written in decimal
    digits, the engine gets the year, the packed month and day, and the
    hour of the day with its minutes, seconds and milliseconds as
    fractions; nothing else changes. *)
Theorem X21_SetTime_reads_the_ISO_layout (st : State) (ep : Real)
    (Y Mo D h mi s ms : Z) :
  ConvertA1MjdToUTCGregorian ep = iso_timestamp Y Mo D h mi s ms ->
  (forall k n, (0 <= n < 10 ^ Z.of_nat k)%Z -> atoi (digits k n) = n) ->
  (forall k n, (0 <= n < 10 ^ Z.of_nat k)%Z -> atof (digits k n) = of_int n) ->
  (0 <= Y < 10000 /\ 0 <= Mo < 100 /\ 0 <= D < 100 /\ 0 <= h < 100
   /\ 0 <= mi < 100 /\ 0 <= s < 100 /\ 0 <= ms < 1000)%Z ->
  SetTime ep st
  = (mkState
       (set_hours (of_int h + of_int mi / lit 60 + of_int s / lit 3600
                   + of_int ms / lit 3600000)%r
          (set_mmdd (Mo * 100 + D) (set_yyyy Y (set_epoch ep (self st)))))
       (messages st) (iri_calls st),
     Ok true).
Proof.
  intros Hconv Hatoi Hatof (HY & HMo & HD & Hh & Hmi & Hs & Hms).
  destruct (iso_timestamp_fields Y Mo D h mi s ms) as (F1 & F2 & F3 & F4 & F5 & F6 & F7).
  unfold SetTime, bind, assign, this, lift, ret.
  cbn [self messages iri_calls epoch set_epoch].
  rewrite Hconv, F1, F2, F3, F4, F5, F6, F7.
  rewrite (Hatoi 4%nat Y), (Hatoi 2%nat Mo), (Hatoi 2%nat D) by (cbn; lia).
  rewrite (Hatof 2%nat h), (Hatof 2%nat mi), (Hatof 2%nat s), (Hatof 3%nat ms)
    by (cbn; lia).
  reflexivity.
Qed.

(** ** Copies of an engine *)

(** X26.  The warning about ig_rz.dat is counted per object: an
    initialised engine that has logged it logs nothing more for a date
    outside the window, while a copy of that engine (copy constructor,
    [Clone], or assignment from another object), whose count starts at 0
    again, logs the same warning once more; an assignment of an engine to
    itself changes nothing. *)
Theorem X26_a_copy_warns_again (st : State) (base : Ionosphere) :
  isInitialized (self st) = true ->
  isInitialized base = true ->
  (mjdate (self st) < igrz_yyyymmddMin (self st)
   \/ igrz_yyyymmddMax (self st) <= mjdate (self st))%Z ->
  igrz_WarningCount (self st) <> 0%Z ->
  let copy := mkState (Ionosphere_copy base (self st)) (messages st) (iri_calls st) in
  messages (fst (CalculateIRI2007 st)) = messages st
  /\ messages (fst (CalculateIRI2007 copy))
     = (messages st ++ [igrz_warning (self st)])%list
  /\ Ionosphere_assign false base base (self st) = Ionosphere_copy base (self st)
  /\ Ionosphere_assign true (self st) (self st) (self st) = self st.
Proof.
  intros Hinit Hbase Hout Hcount copy.
  apply outside_igrz_iff in Hout.
  split; [| split; [| split; reflexivity]].
  - pose proof (CalculateIRI2007_warn st st true (Initialize_when_initialized st Hinit)) as K.
    unfold obs_engine in K. injection K as _ Km. rewrite Km.
    unfold igrz_step. apply Z.eqb_neq in Hcount. rewrite Hcount, andb_false_r. reflexivity.
  - assert (Hc : isInitialized (self copy) = true) by exact Hbase.
    pose proof (CalculateIRI2007_warn copy copy true
                  (Initialize_when_initialized copy Hc)) as K.
    unfold obs_engine in K. injection K as _ Km. rewrite Km.
    unfold igrz_step.
    change (outside_igrz (self copy)) with (outside_igrz (self st)). rewrite Hout.
    reflexivity.
Qed.

(** ** The engine of the correction model *)

(** X27.  The destructor of the correction model deletes the object its
    static pointer points to before it clears the pointer: run for that
    object, once [Instance()] has set the pointer, it calls itself without
    end and never returns, whatever the depth allowed; it returns only when
    the pointer is NULL. *)
Theorem X27_destructor_calls_itself_without_end (g : CorrectionModel (Real := Real)) :
  (forall fuel, snd (destructor fuel (Instance_ g)) = Fault Diverges)
  /\ (instance g = true -> forall fuel, snd (destructor fuel g) = Fault Diverges)
  /\ (instance g = false ->
      forall fuel, destructor (S fuel) g = (mkCorrectionModel false None, Ok tt)).
Proof.
  assert (H : forall fuel (g' : CorrectionModel (Real := Real)),
            instance g' = true -> snd (destructor fuel g') = Fault Diverges).
  { induction fuel as [| fuel IH]; intros g' Hg; [reflexivity |].
    cbn [destructor].
    set (g1 := match ionosphereObj g' with
               | Some _ => mkCorrectionModel (instance g') None
               | None => g'
               end).
    assert (H1 : instance g1 = true) by (unfold g1; destruct (ionosphereObj g'); exact Hg).
    rewrite H1. specialize (IH g1 H1).
    destruct (destructor fuel g1) as [g2 [[] | e | u]]; cbn [snd] in *;
      [discriminate IH | discriminate IH | exact IH]. }
  split; [| split].
  - intros fuel. apply H. unfold Instance_. destruct (instance g) eqn:E; [exact E | reflexivity].
  - intros Hg fuel. apply H. exact Hg.
  - intros Hg fuel. cbn [destructor].
    destruct g as [i [o |]]; cbn in *; subst i; reflexivity.
Qed.

(** X28.  [SetTime] returns true exactly when the date the converter
    answers has 20 characters or more (the position of the milliseconds),
    and throws [std::out_of_range] otherwise; in both cases the epoch is
    stored before the date is taken apart, so that after the exception the
    engine holds the new epoch with (part of) the date of the old one. *)
Theorem X28_SetTime_needs_20_characters (st : State) (ep : Real) :
  let n := String.length (ConvertA1MjdToUTCGregorian ep) in
  (snd (SetTime ep st) = Ok true <-> (20 <= n)%nat)
  /\ (snd (SetTime ep st) = Throw std_out_of_range <-> (n < 20)%nat)
  /\ epoch (self (fst (SetTime ep st))) = ep
  /\ ((n < 20)%nat -> hours (self (fst (SetTime ep st))) = hours (self st)).
Proof.
  intros n. unfold SetTime, bind, assign, this, lift, ret, substr.
  cbn [self messages iri_calls epoch set_epoch]. fold n.
  change (0 <=? n)%nat with true. cbv iota. cbn [fst snd self].
  destruct (Nat.leb_spec 5 n) as [H5 | H5];
    [| cbn [fst snd self epoch hours set_yyyy set_epoch];
       repeat split; intros; try lia; try discriminate; reflexivity].
  destruct (Nat.leb_spec 8 n) as [H8 | H8];
    [| cbn [fst snd self epoch hours set_yyyy set_epoch];
       repeat split; intros; try lia; try discriminate; reflexivity].
  destruct (Nat.leb_spec 11 n) as [H11 | H11];
    [| cbn [fst snd self epoch hours set_mmdd set_yyyy set_epoch];
       repeat split; intros; try lia; try discriminate; reflexivity].
  destruct (Nat.leb_spec 14 n) as [H14 | H14];
    [| cbn [fst snd self epoch hours set_mmdd set_yyyy set_epoch];
       repeat split; intros; try lia; try discriminate; reflexivity].
  destruct (Nat.leb_spec 17 n) as [H17 | H17];
    [| cbn [fst snd self epoch hours set_mmdd set_yyyy set_epoch];
       repeat split; intros; try lia; try discriminate; reflexivity].
  destruct (Nat.leb_spec 20 n) as [H20 | H20];
    [| cbn [fst snd self epoch hours set_mmdd set_yyyy set_epoch];
       repeat split; intros; try lia; try discriminate; reflexivity].
  cbn [fst snd self epoch hours set_hours set_mmdd set_yyyy set_epoch].
  repeat split; intros; try lia; try discriminate; reflexivity.
Qed.

(** ** The calls of the provider *)

Section Appends.

Variable P : IriCall (Real := Real) -> Prop.

Lemma appends_ret {A} (a : A) (st : State) : appends P (ret a) st.
Proof.
  exists []. split; [| constructor]. unfold ret. cbn [fst].
  rewrite app_nil_r, state_eta. reflexivity.
Qed.

Lemma appends_bind {A B} (m : M A) (f : A -> M B) (st : State) :
  appends P m st ->
  (forall a l, appends P (f a) (mkState (self st) (messages st) (iri_calls st ++ l)%list)) ->
  appends P (bind m f) st.
Proof.
  intros (l & Hm & Hl) Hf. unfold appends, bind.
  destruct (m st) as [s1 [a | e | u]]; cbn [fst] in Hm; subst s1;
    [| exists l; split; [reflexivity | exact Hl] ..].
  destruct (Hf a l) as (l' & Hf' & Hl').
  exists (l ++ l')%list. split.
  - rewrite Hf'. cbn [self messages iri_calls]. rewrite app_assoc. reflexivity.
  - apply Forall_app. split; assumption.
Qed.

End Appends.

Lemma ElectronDensity_appends (o : Ionosphere) (p : Rvector3) (st : State) :
  yyyy (self st) = yyyy o -> mmdd (self st) = mmdd o -> hours (self st) = hours o ->
  appends (call_of_engine o) (ElectronDensity p) st.
Proof.
  intros Hy Hm Hh.
  unfold appends, ElectronDensity, bind, this, call_iri_sub, throw, ret. cbv zeta.
  match goal with |- context [iri_sub ?c] => exists [c] end.
  destruct (iri_sub _) as [outf21 error]. split.
  - destruct (negb (error =? 0)%Z); reflexivity.
  - constructor; [| constructor]. unfold call_of_engine.
    cbn [ic_jf ic_jmag ic_iyyyy ic_mmdd ic_dhour ic_heiend ic_heibeg ic_heistp].
    rewrite Hy, Hm, Hh. repeat split.
Qed.

Lemma TEC_loop_appends (o : Ionosphere) (n : nat) :
  forall dR p1 tec st,
    yyyy (self st) = yyyy o -> mmdd (self st) = mmdd o -> hours (self st) = hours o ->
    appends (call_of_engine o) (TEC_loop n dR p1 tec) st.
Proof.
  induction n as [| n IH]; intros dR p1 tec st Hy Hm Hh; cbn [TEC_loop].
  - apply appends_ret.
  - apply appends_bind; [apply ElectronDensity_appends; assumption |].
    intros d l. apply IH; assumption.
Qed.

Lemma BendingAngle_loop_appends (o : Ionosphere) (n : nat) :
  forall rangeVec dR freq r_i1 theta_i1 n_i1 dtheta_i1 st,
    yyyy (self st) = yyyy o -> mmdd (self st) = mmdd o -> hours (self st) = hours o ->
    appends (call_of_engine o)
      (BendingAngle_loop n rangeVec dR freq r_i1 theta_i1 n_i1 dtheta_i1) st.
Proof.
  induction n as [| n IH]; intros rangeVec dR freq r_i1 theta_i1 n_i1 dtheta_i1 st Hy Hm Hh;
    cbn [BendingAngle_loop].
  - apply appends_ret.
  - apply appends_bind; [apply ElectronDensity_appends; assumption |].
    intros d l. apply IH; assumption.
Qed.

Lemma TEC_appends (o : Ionosphere) (st : State) :
  yyyy (self st) = yyyy o -> mmdd (self st) = mmdd o -> hours (self st) = hours o ->
  appends (call_of_engine o) TEC st.
Proof.
  intros Hy Hm Hh.
  destruct (misses_shell_dec (self st)) as [H | H].
  - unfold appends. rewrite (TEC_misses_shell st H). apply appends_ret.
  - unfold appends. rewrite (TEC_crossing st H). apply TEC_loop_appends; assumption.
Qed.

Lemma BendingAngle_appends (o : Ionosphere) (st : State) :
  yyyy (self st) = yyyy o -> mmdd (self st) = mmdd o -> hours (self st) = hours o ->
  appends (call_of_engine o) BendingAngle st.
Proof.
  intros Hy Hm Hh.
  destruct (misses_shell_dec (self st)) as [H | H].
  - unfold appends. rewrite (BendingAngle_misses_shell st H). apply appends_ret.
  - unfold appends. rewrite (BendingAngle_crossing st H). cbv zeta.
    apply appends_bind; [apply ElectronDensity_appends; assumption |].
    intros d l.
    apply appends_bind; [apply BendingAngle_loop_appends; assumption |].
    intros d' l'. apply appends_ret.
Qed.

(** X29.  The provider calls of [TEC], [BendingAngle] and
    [CalculateIRI2007] are added to those made before, none is removed;
    each of them asks for geographic coordinates, at the year, the packed
    month and day and the hour of the engine (25 added to the hour, for
    universal time), for one height only and with the same flags. *)
Theorem X29_shape_of_the_provider_calls (st : State) :
  (exists l, fst (TEC st) = mkState (self st) (messages st) (iri_calls st ++ l)%list
             /\ Forall (call_of_engine (self st)) l)
  /\ (exists l, fst (BendingAngle st)
                = mkState (self st) (messages st) (iri_calls st ++ l)%list
                /\ Forall (call_of_engine (self st)) l)
  /\ (exists l, iri_calls (fst (CalculateIRI2007 st)) = (iri_calls st ++ l)%list
                /\ Forall (call_of_engine (self st)) l).
Proof.
  split; [apply TEC_appends; reflexivity |].
  split; [apply BendingAngle_appends; reflexivity |].
  destruct (Initialize st) as [st1 [b | e | u]] eqn:Hinit.
  - rewrite (CalculateIRI2007_unfold _ _ _ Hinit).
    destruct (integration_start _ _ _ Hinit) as [Hg Hc].
    set (s := igrz_step st1) in *.
    unfold same_geometry, geometry in Hg. injection Hg as _ _ _ _ Hy Hm Hh.
    destruct (outside_ap (self st1)).
    + exists []. cbn [fst]. rewrite app_nil_r. split; [exact Hc | constructor].
    + assert (K : appends (call_of_engine (self st))
                    (bind TEC (fun tec => bind BendingAngle (fun dphi =>
                       ret (IRI2007_triple (self st1) tec dphi)))) s).
      { apply appends_bind; [apply TEC_appends; symmetry; assumption |].
        intros tec l.
        apply appends_bind; [apply BendingAngle_appends; symmetry; assumption |].
        intros dphi l'. apply appends_ret. }
      destruct K as (l & K & Hl). exists l. rewrite K. cbn [iri_calls].
      rewrite Hc. split; [reflexivity | exact Hl].
  - exists []. rewrite app_nil_r. split; [| constructor].
    rewrite CalculateIRI2007_init_fails by (rewrite Hinit; discriminate).
    pose proof (Initialize_calls st) as K. exact K.
  - exists []. rewrite app_nil_r. split; [| constructor].
    rewrite CalculateIRI2007_init_fails by (rewrite Hinit; discriminate).
    pose proof (Initialize_calls st) as K. exact K.
Qed.

(** ** Tables the scan can go through *)

Lemma at_defined (row : list string) (i : nat) :
  (i < List.length row)%nat -> at_ row i = Ok (nth i row "").
Proof.
  intros H. unfold at_. destruct (nth_error row i) as [f |] eqn:E.
  - rewrite (nth_error_nth _ _ _ E). reflexivity.
  - apply nth_error_None in E. lia.
Qed.

Lemma GetTRK223Time_defined (s : string) :
  (12 <= String.length s)%nat -> exists t, GetTRK223Time s = Ok t.
Proof.
  intros H. unfold GetTRK223Time, substr_from, substr, obind.
  change (0 <=? String.length s)%nat with true. cbv iota.
  destruct (Nat.leb_spec 3 (String.length s)); [| lia].
  destruct (Nat.leb_spec 6 (String.length s)); [| lia].
  destruct (Nat.leb_spec 9 (String.length s)); [| lia].
  destruct (Nat.leb_spec 12 (String.length s)); [| lia].
  destruct (Nat.ltb_spec 14 (String.length s)).
  - destruct (Nat.leb_spec 15 (String.length s)); [| lia]. eexists. reflexivity.
  - eexists. reflexivity.
Qed.

Lemma match_level_defined (sc cx gs : string) (ep : Real) (row : list string) :
  row_can_be_tested row -> exists lv, match_level sc cx gs ep row = Ok lv.
Proof.
  intros (H8 & H4 & H5).
  destruct (GetTRK223Time_defined _ H4) as [t4 Ht4].
  destruct (GetTRK223Time_defined _ H5) as [t5 Ht5].
  assert (Hb : exists hit, brackets_CHPART row ep = Ok hit).
  { unfold brackets_CHPART, obind.
    rewrite (at_defined row 4), (at_defined row 5), (at_defined row 3) by lia.
    rewrite Ht4, Ht5.
    destruct (t4 <=? ep)%r; [| eexists; reflexivity].
    destruct (t5 >=? ep)%r; eexists; reflexivity. }
  destruct Hb as [hit Hb].
  unfold match_level, obind.
  rewrite (at_defined row 7), (at_defined row 0), (at_defined row 6) by lia.
  rewrite Hb.
  destruct (nth 7 row "" =? sc); [| eexists; reflexivity].
  destruct ((nth 0 row "" =? "DOPRNG") || (nth 0 row "" =? "RANGE"));
    [| eexists; reflexivity].
  destruct (nth 6 row "" =? cx); [eexists; reflexivity |].
  destruct (nth 6 row "" =? gs); eexists; reflexivity.
Qed.

Lemma slot_index (level : list string -> Outcome (option Level)) (lv : Level)
    (rows : list (list string)) (x : Z) :
  slot level lv rows 0 (-1) x ->
  x = (-1)%Z \/ (0 <= x < Z.of_nat (List.length rows))%Z.
Proof.
  intros [[-> _] | (k & row & -> & Hk & _)]; [left; reflexivity | right].
  assert (K : nth_error rows k <> None) by congruence.
  apply nth_error_Some in K. lia.
Qed.

(** X30.  A table all of whose rows have the eight fields the scan reads,
    with time tokens of 12 characters or more, is gone through to its end
    without any read out of bounds and without exception, whatever the keys
    and the epoch are; each of the two entries of [ionoLine] is then -1 or
    the index of a row of the table, so that the records are read in
    bounds. *)
Theorem X30_table_that_can_be_scanned (sc cx gs : string) (ep : Real)
    (db : list (list string)) :
  (forall row, In row db -> row_can_be_tested row) ->
  exists a b,
    scan sc cx gs ep db 0 (-1, -1) = Ok (a, b)
    /\ (a = (-1)%Z \/ (0 <= a < Z.of_nat (List.length db))%Z)
    /\ (b = (-1)%Z \/ (0 <= b < Z.of_nat (List.length db))%Z).
Proof.
  intros Hrows.
  destruct (scan_spec sc cx gs ep db 0%nat (-1, -1)
              (fun row Hin => match_level_defined sc cx gs ep row (Hrows row Hin)))
    as (a & b & Hs & Ha & Hb).
  exists a, b. split; [exact Hs |].
  split; [exact (slot_index _ _ _ _ Ha) | exact (slot_index _ _ _ _ Hb)].
Qed.
End Properties.

(* ================================================================== *)
(** * Properties over the reals, and runs of the model *)

(** The comparisons of [R_RealOps]. *)
Lemma Rleb_true (x y : R) : (x <= y)%R -> Rleb x y = true.
Proof. intro H. unfold Rleb. destruct (Rle_dec x y); [reflexivity | contradiction]. Qed.

Lemma Rleb_false (x y : R) : (y < x)%R -> Rleb x y = false.
Proof. intro H. unfold Rleb. destruct (Rle_dec x y); [lra | reflexivity]. Qed.

Lemma Rltb_true (x y : R) : (x < y)%R -> Rltb x y = true.
Proof. intro H. unfold Rltb. destruct (Rlt_dec x y); [reflexivity | contradiction]. Qed.

Lemma Rltb_false (x y : R) : (y <= x)%R -> Rltb x y = false.
Proof. intro H. unfold Rltb. destruct (Rlt_dec x y); [lra | reflexivity]. Qed.

Lemma Q2R_inject_Z (z : Z) : Q2R (inject_Z z) = IZR z.
Proof. unfold Q2R, inject_Z. cbn [Qnum Qden]. rewrite Rinv_1. apply Rmult_1_r. Qed.

Lemma at_nth (coefs : list R) (i : nat) :
  (i < List.length coefs)%nat -> at_ coefs i = Ok (nth i coefs 0%R).
Proof.
  intros H. unfold at_. destruct (nth_error coefs i) as [c |] eqn:E.
  - rewrite (nth_error_nth _ _ _ E). reflexivity.
  - apply nth_error_None in E. lia.
Qed.

Lemma even_indices (m : nat) :
  forall j0, filter Nat.even (seq (2 * j0) (2 * m)) = map (fun j => (2 * j)%nat) (seq j0 m).
Proof.
  induction m as [| m IH]; intros j0; [reflexivity |].
  replace (2 * S m)%nat with (S (S (2 * m))) by lia.
  cbn [seq filter map].
  assert (E0 : Nat.even (2 * j0) = true) by (apply Nat.even_spec; exists j0; lia).
  assert (E1 : Nat.even (S (2 * j0)) = false).
  { rewrite Nat.even_succ. apply not_true_is_false. intros H.
    apply Nat.odd_spec in H. destruct H as [q Hq]. lia. }
  rewrite E0, E1. f_equal.
  replace (S (S (2 * j0))) with (2 * S j0)%nat by lia. apply IH.
Qed.

Lemma TRIG_loop_harmonics (coefs : list R) (phase : R) (m : nat) :
  forall (j0 : nat) (drho : R),
    (2 * (j0 + m) <= List.length coefs)%nat ->
    TRIG_loop (map (fun j => (2 * j)%nat) (seq j0 m)) coefs phase (Z.of_nat j0) drho
    = Ok (drho + harmonics coefs phase j0 m)%R.
Proof.
  induction m as [| m IH]; intros j0 drho Hlen.
  - cbn. f_equal. lra.
  - cbn [seq map TRIG_loop harmonics].
    rewrite (at_nth coefs (2 * j0)) by lia.
    rewrite (at_nth coefs (2 * j0 + 1)) by lia.
    cbn [obind].
    replace (Z.of_nat j0 + 1)%Z with (Z.of_nat (S j0)) by lia.
    rewrite IH by lia. f_equal.
    unfold of_int. cbn [lit radd rmul Cos Sin R_RealOps].
    rewrite Q2R_inject_Z, <- INR_IZR_INZ.
    rewrite (Rmult_comm phase (INR j0)). ring.
Qed.

Lemma TRIG_series_value (coefs : list R) (t start e : R) (m : nat) :
  List.length coefs = (2 * m + 2)%nat ->
  TRK223_series "TRIG" coefs t start e
  = Ok (nth 1 coefs 0 + harmonics coefs (TRIG_phase coefs t start) 1 m)%R.
Proof.
  intros Hlen. unfold TRK223_series.
  cbn [String.eqb Ascii.eqb Bool.eqb]. cbv zeta.
  rewrite (at_nth coefs 0) by lia. cbn [obind].
  rewrite (at_nth coefs 1) by lia. cbn [obind].
  unfold TRIG_indices. rewrite Hlen.
  replace (2 * m + 2 - 2)%nat with (2 * m)%nat by lia.
  change 2%nat with (2 * 1)%nat at 1. rewrite even_indices.
  change 1%Z with (Z.of_nat 1).
  rewrite TRIG_loop_harmonics by lia.
  f_equal. f_equal. f_equal.
  unfold TRIG_phase. cbn [lit rsub rmul rdiv TWO_PI R_RealOps].
  unfold Q2R. cbn [Qnum Qden]. unfold Rdiv. rewrite Rinv_1. ring.
Qed.

(** C7, as the code has it.  For a TRIG record with an even number
    [2 m + 2] of coefficients, the correction before rescaling is
    [coefs[1]] plus the sum over the harmonics j = 1, ..., m of
    [coefs[2j] cos (j phase) + coefs[2j+1] sin (j phase)], with
    phase = 2 pi (t - start) 86400 / coefs[0]: the first coefficient is the
    period in seconds, the second a constant term, the pairs start at the
    third. *)
Theorem C7_TRIG_series (coefs : list R) (t start e : R) (m : nat) :
  List.length coefs = (2 * m + 2)%nat ->
  TRK223_series "TRIG" coefs t start e
  = Ok (nth 1 coefs 0 + harmonics coefs (TRIG_phase coefs t start) 1 m)%R.
Proof.
  intros Hlen. rewrite (TRIG_series_value coefs t start e m Hlen). reflexivity.
Qed.

(** A record with period 86400 s and constant term 1, half a day after the
    start of its window: the phase is pi. *)
Lemma half_day_phase : TRIG_phase [86400; 1; 0; 0]%R (1 / 2)%R 0%R = PI.
Proof. unfold TRIG_phase. cbn [nth]. field. Qed.

Lemma C7_witness :
  List.length [86400; 1; 0; 0]%R = (2 * 1 + 2)%nat
  /\ TRK223_series "TRIG" [86400; 1; 0; 0]%R (1 / 2)%R 0%R 0%R
     = Ok (nth 1 [86400; 1; 0; 0]%R 0%R
           + harmonics [86400; 1; 0; 0]%R (TRIG_phase [86400; 1; 0; 0]%R (1 / 2)%R 0%R) 1 1)%R.
Proof.
  split; [reflexivity |].
  apply (C7_TRIG_series [86400; 1; 0; 0]%R (1 / 2)%R 0%R 0%R 1%nat). reflexivity.
Defined.

(** C7 as it is worded fails on the code: with the coefficients after the
    first read as cosine/sine pairs, the record [86400; 1; 0; 0] would give
    [1 cos pi + 0 sin pi + 0 cos (2 pi) = -1] half a day into its window;
    the code returns the constant term, 1. *)
Lemma C7_counterexample :
  TRK223_series "TRIG" [86400; 1; 0; 0]%R (1 / 2)%R 0%R 0%R
  <> Ok (TRIG_as_claimed [86400; 1; 0; 0]%R (TRIG_phase [86400; 1; 0; 0]%R (1 / 2)%R 0%R)).
Proof.
  rewrite (TRIG_series_value [86400; 1; 0; 0]%R (1 / 2)%R 0%R 0%R 1%nat eq_refl).
  rewrite half_day_phase. unfold TRIG_as_claimed.
  cbn [List.length Nat.div2 harmonics paired_harmonics nth Nat.mul Nat.add Nat.sub].
  replace (INR 1 * PI)%R with PI by (cbn [INR]; ring).
  replace (INR 2 * PI)%R with (2 * PI)%R by (cbn [INR]; ring).
  rewrite cos_PI, sin_PI, cos_2PI, sin_2PI.
  intros H. injection H as H. lra.
Qed.

(** Replaces the day numbers of the calendar formula by their values. *)
Ltac compute_days :=
  repeat match goal with
         | |- context [Demo.DayNumber ?y ?m ?d] =>
             let v := eval vm_compute in (Demo.DayNumber y m d) in
             change (Demo.DayNumber y m d) with v
         end.

(** ** C6: the two year pivots *)

(** C6, as the code has it.  The record-table parser puts a two-digit year
    from 69 on in the 1900s and one below 69 in the 2000s: the token 68 gives
    2068 and the token 69 gives 1969.  The ap.dat parser puts a year from 58
    on in the 1900s and one below 58 in the 2000s: a first line that starts
    with 69 gives the lower bound 19690101. *)
Theorem C6_two_digit_years :
  (forall y, (69 <= y < 1000)%Z -> TRK223_year y = (1900 + y)%Z)
  /\ (forall y, (y < 69)%Z -> TRK223_year y = (2000 + y)%Z)
  /\ GetTRK223Time (EX := Demo.ext) "68 01 01 00 00"
     = Ok (Demo.modified_julian_date 2068 1 1 0 0 (Q2R 0))
  /\ GetTRK223Time (EX := Demo.ext) "69 01 01 00 00"
     = Ok (Demo.modified_julian_date 1969 1 1 0 0 (Q2R 0))
  /\ (forall y, (58 <= y)%Z -> AP_year y = (1900 + y)%Z)
  /\ (forall y, (y < 58)%Z -> AP_year y = (2000 + y)%Z)
  /\ ap_yyyymmddMin
       (self (fst (GetAPTimeRange
                     (EX := Demo.collaborators
                              [" 69  1  1 18 18 12"; " 24 12 31  5  5  6"; ""])
                     Demo.physics)))
     = 19690101%Z.
Proof.
  split; [| split; [| split; [| split; [| split; [| split]]]]].
  - intros y Hy. unfold TRK223_year.
    destruct (Z.geb_spec y 69); [| lia]. destruct (Z.ltb_spec y 1000); [| lia].
    cbn [andb]. lia.
  - intros y Hy. unfold TRK223_year.
    destruct (Z.geb_spec y 69); [lia |]. cbn [andb].
    destruct (Z.ltb_spec y 69); lia.
  - reflexivity.
  - reflexivity.
  - intros y Hy. unfold AP_year. destruct (Z.geb_spec y 58); lia.
  - intros y Hy. unfold AP_year. destruct (Z.geb_spec y 58); lia.
  - reflexivity.
Qed.

(** C6 as it is worded fails on the code: the record-table parser does not
    read 68 as 1968, nor 69 as 2069. *)
Lemma C6_counterexample :
  ~ (GetTRK223Time (EX := Demo.ext) "68 01 01 00 00"
     = Ok (Demo.modified_julian_date 1968 1 1 0 0 (Q2R 0))
     \/ GetTRK223Time (EX := Demo.ext) "69 01 01 00 00"
        = Ok (Demo.modified_julian_date 2069 1 1 0 0 (Q2R 0))).
Proof.
  assert (H68 : GetTRK223Time (EX := Demo.ext) "68 01 01 00 00"
                = Ok (Demo.modified_julian_date 2068 1 1 0 0 (Q2R 0))) by reflexivity.
  assert (H69 : GetTRK223Time (EX := Demo.ext) "69 01 01 00 00"
                = Ok (Demo.modified_julian_date 1969 1 1 0 0 (Q2R 0))) by reflexivity.
  rewrite H68, H69. clear H68 H69.
  unfold Demo.modified_julian_date.
  compute_days. unfold Q2R. cbn [Qnum Qden].
  intros [H | H]; injection H as H; lra.
Qed.

(** ** Runs of the parsers *)

Example extract_int_ap_line : extract_int " 58  1  1 18" = Some (58%Z, "  1  1 18").
Proof. reflexivity. Qed.

(** An ap.dat file that ends in blank lines: the last line taken is blank,
    the three extractions find nothing but the end of the text and leave
    year, month and day as the first line set them, the year with its
    century, to which the century is added again. *)
Example ap_dat_that_ends_in_blank_lines :
  let st := GetAPTimeRange
              (EX := Demo.collaborators
                       [" 58  1  1 18 18 12"; " 24 12 31  5  5  6"; ""; ""])
              Demo.physics in
  snd st = Ok tt
  /\ ap_yyyymmddMin (self (fst st)) = 19580101%Z
  /\ ap_yyyymmddMax (self (fst st)) = 38580101%Z.
Proof. repeat split. Qed.

(** A first line with two numbers and a space after them: the third
    extraction finds no text, [day] is never assigned, and it is read. *)
Example ap_dat_without_a_day :
  snd (GetAPTimeRange (EX := Demo.collaborators ["58 1 "; "24 12 31 5"]) Demo.physics)
  = Fault UninitializedRead.
Proof. reflexivity. Qed.

(** A first line whose third column is not a number: the parse fails and
    stores 0. *)
Example ap_dat_with_a_word_for_the_day :
  ap_yyyymmddMin
    (self (fst (GetAPTimeRange (EX := Demo.collaborators ["58 1 x"; "24 12 31 5"])
                  Demo.physics)))
  = 19580100%Z.
Proof. reflexivity. Qed.

Example TRIG_indices_7 : TRIG_indices 7 = [2; 4; 6]%nat.
Proof. reflexivity. Qed.

Example station_key_15 : station_key (self (Demo.empirical [])) = "DSN(015)".
Proof. reflexivity. Qed.

(** A new engine reads its two windows in the files on first use. *)
Example Initialize_new_engine :
  let st := Initialize (Demo.state_of
              (Ionosphere_new "IRI2007" 6378.1363%R "15" 7 [] (vec3 0 0 0)%R)) in
  snd st = Ok true
  /\ isInitialized (self (fst st)) = true
  /\ ap_yyyymmddMin (self (fst st)) = 19580101%Z
  /\ ap_yyyymmddMax (self (fst st)) = 20241231%Z
  /\ igrz_yyyymmddMin (self (fst st)) = 19580101%Z
  /\ igrz_yyyymmddMax (self (fst st)) = 20261231%Z.
Proof. repeat split. Qed.

(** The station identifier GDS is replaced by "DSN(C10)", in which
    [ToInteger] reads no number: the key is stored, and the call reads
    [stationNumber] unassigned. *)
Example abbreviation_GDS :
  let st := Demo.state_of (Demo.engine "TRK-2-23" "GDS" [] 20241231 20261231 20200615) in
  groundStationId (self (fst (CalculateTRK223 st))) = "DSN(DSN(C10))"
  /\ snd (CalculateTRK223 st) = Fault UninitializedRead.
Proof.
  cbv zeta. rewrite CalculateTRK223_no_number by reflexivity. split; reflexivity.
Qed.

(** ** Runs of the physics model *)

Lemma physics_geometry_misses_shell (model station : string) (db : list (list string))
    (ap_max igrz_max date : Z) :
  misses_shell (Demo.engine model station db ap_max igrz_max date).
Proof.
  left. apply Rleb_true.
  unfold discriminant, quad_a, quad_b, quad_c, chord, dot, vsub, vscale,
    IONOSPHERE_MAX_ALTITUDE.
  cbn [Demo.engine stationLoc spacecraftLoc earthRadius vx vy vz
       lit radd rsub rmul Pow R_RealOps].
  unfold Q2R. cbn [Qnum Qden powerRZ]. change (Pos.to_nat 2) with 2%nat. cbn [pow].
  lra.
Qed.

Lemma C1_witness :
  misses_shell (self Demo.physics)
  /\ (TEC Demo.physics = (Demo.physics, Ok (lit 0))
      /\ BendingAngle Demo.physics = (Demo.physics, Ok (lit 0))
      /\ iri_calls (fst (TEC Demo.physics)) = iri_calls Demo.physics
      /\ iri_calls (fst (BendingAngle Demo.physics)) = iri_calls Demo.physics).
Proof.
  split.
  - apply physics_geometry_misses_shell.
  - apply (C1_no_crossing_gives_zero (EX := Demo.ext) Demo.physics).
    apply physics_geometry_misses_shell.
Defined.

Lemma C2_witness :
  Initialize Demo.physics = (Demo.physics, Ok true)
  /\ (ap_yyyymmddMin (self Demo.physics) <= mjdate (self Demo.physics)
      < ap_yyyymmddMax (self Demo.physics))%Z
  /\ snd (TEC Demo.physics) = Ok (lit 0)
  /\ snd (BendingAngle Demo.physics) = Ok (lit 0)
  /\ snd (CalculateIRI2007 Demo.physics)
     = Ok [(lit 40.3 * lit 0
            / (SPEED_OF_LIGHT_VACUUM / waveLength (self Demo.physics)
               * (SPEED_OF_LIGHT_VACUUM / waveLength (self Demo.physics))))%r;
           lit 0;
           (lit 40.3 * lit 0
            / (SPEED_OF_LIGHT_VACUUM / waveLength (self Demo.physics)
               * (SPEED_OF_LIGHT_VACUUM / waveLength (self Demo.physics)))
            / SPEED_OF_LIGHT_VACUUM)%r].
Proof.
  assert (Hinit : Initialize Demo.physics = (Demo.physics, Ok true))
    by (apply Initialize_when_initialized; reflexivity).
  assert (Hwin : (ap_yyyymmddMin (self Demo.physics) <= mjdate (self Demo.physics)
                  < ap_yyyymmddMax (self Demo.physics))%Z)
    by (unfold mjdate; cbn; lia).
  assert (Ht : snd (TEC Demo.physics) = Ok (lit 0))
    by (rewrite TEC_misses_shell by apply physics_geometry_misses_shell; reflexivity).
  assert (Hb : snd (BendingAngle Demo.physics) = Ok (lit 0))
    by (rewrite BendingAngle_misses_shell by apply physics_geometry_misses_shell;
        reflexivity).
  repeat (split; [assumption |]).
  exact (C2_IRI2007_returns_triple (EX := Demo.ext) Demo.physics Demo.physics true
           (lit 0) (lit 0) Hinit Hwin Ht Hb).
Defined.

Lemma C4_witness :
  (Initialize Demo.physics_late = (Demo.physics_late, Ok true)
   /\ (igrz_yyyymmddMax (self Demo.physics_late) <= mjdate (self Demo.physics_late))%Z
   /\ (ap_yyyymmddMin (self Demo.physics_late) <= mjdate (self Demo.physics_late)
       < ap_yyyymmddMax (self Demo.physics_late))%Z)
  /\ (is_out_of_range (snd (CalculateIRI2007 Demo.physics_late)) = false
      /\ messages (fst (CalculateIRI2007 Demo.physics_late))
         = [igrz_warning (self Demo.physics_late)])
  /\ (igrz_warnings
        (run_calls Demo.physics_late [CallCorrection; CallSetTime 29017%R; CallCorrection])
      <= 1)%nat.
Proof.
  assert (Hinit : Initialize Demo.physics_late = (Demo.physics_late, Ok true))
    by (apply Initialize_when_initialized; reflexivity).
  assert (Hig : (igrz_yyyymmddMax (self Demo.physics_late)
                 <= mjdate (self Demo.physics_late))%Z)
    by (unfold mjdate; cbn; lia).
  assert (Hap : (ap_yyyymmddMin (self Demo.physics_late) <= mjdate (self Demo.physics_late)
                 < ap_yyyymmddMax (self Demo.physics_late))%Z)
    by (unfold mjdate; cbn; lia).
  split; [repeat split; assumption || apply Hap |].
  split.
  - destruct (proj1 (C4_fatal_ap_window_one_igrz_warning (EX := Demo.ext))
                Demo.physics_late Demo.physics_late true Hinit) as [_ H].
    destruct (H (or_intror Hig) Hap) as (H1 & H2 & _).
    split; [exact H1 | exact H2].
  - exact (proj1 (proj2 (C4_fatal_ap_window_one_igrz_warning (EX := Demo.ext))
                    Demo.physics_late
                    [CallCorrection; CallSetTime 29017%R; CallCorrection]
                    eq_refl eq_refl)).
Defined.

Lemma C10_witness :
  (Initialize Demo.physics_last_day = (Demo.physics_last_day, Ok true)
   /\ mjdate (self Demo.physics_last_day) = ap_yyyymmddMax (self Demo.physics_last_day)
   /\ snd (CalculateIRI2007 Demo.physics_last_day)
      = Throw (ap_out_of_range (self Demo.physics_last_day)))
  /\ (Initialize Demo.physics_first_day = (Demo.physics_first_day, Ok true)
      /\ mjdate (self Demo.physics_first_day) = ap_yyyymmddMin (self Demo.physics_first_day)
      /\ mjdate (self Demo.physics_first_day)
         = igrz_yyyymmddMin (self Demo.physics_first_day)
      /\ is_out_of_range (snd (CalculateIRI2007 Demo.physics_first_day)) = false
      /\ messages (fst (CalculateIRI2007 Demo.physics_first_day)) = [])
  /\ (Initialize Demo.physics_igrz_last_day = (Demo.physics_igrz_last_day, Ok true)
      /\ mjdate (self Demo.physics_igrz_last_day)
         = igrz_yyyymmddMax (self Demo.physics_igrz_last_day)
      /\ messages (fst (CalculateIRI2007 Demo.physics_igrz_last_day))
         = [igrz_warning (self Demo.physics_igrz_last_day)]).
Proof.
  assert (H1 : Initialize Demo.physics_last_day = (Demo.physics_last_day, Ok true))
    by (apply Initialize_when_initialized; reflexivity).
  assert (H2 : Initialize Demo.physics_first_day = (Demo.physics_first_day, Ok true))
    by (apply Initialize_when_initialized; reflexivity).
  assert (H3 : Initialize Demo.physics_igrz_last_day
               = (Demo.physics_igrz_last_day, Ok true))
    by (apply Initialize_when_initialized; reflexivity).
  split; [| split].
  - split; [exact H1 |]. split; [reflexivity |].
    apply (C10_windows_half_open (EX := Demo.ext) _ _ _ H1). reflexivity.
  - split; [exact H2 |]. split; [reflexivity |]. split; [reflexivity |].
    destruct (C10_windows_half_open (EX := Demo.ext) _ _ _ H2) as (Ha & _ & Hc & _).
    split.
    + apply Ha; [reflexivity | cbn; lia].
    + apply Hc; [reflexivity | cbn; lia].
  - split; [exact H3 |]. split; [reflexivity |].
    destruct (C10_windows_half_open (EX := Demo.ext) _ _ _ H3) as (_ & _ & _ & Hd).
    apply Hd; reflexivity.
Defined.

(** ** Runs of the empirical model *)

Lemma demo_window_start :
  GetTRK223Time "20 01 01 00 00" = Ok (Demo.modified_julian_date 2020 1 1 0 0 (Q2R 0)).
Proof. reflexivity. Qed.

Lemma demo_window_end :
  GetTRK223Time "20 12 31 00 00" = Ok (Demo.modified_julian_date 2020 12 31 0 0 (Q2R 0)).
Proof. reflexivity. Qed.

Lemma demo_after_start (ep : R) :
  (28850 <= ep)%R -> (Demo.modified_julian_date 2020 1 1 0 0 (Q2R 0) <=? ep)%r = true.
Proof.
  intros H. apply Rleb_true. unfold Demo.modified_julian_date. compute_days.
  unfold Q2R. cbn [Qnum Qden]. lra.
Qed.

Lemma demo_before_end (ep : R) :
  (ep <= 29214)%R -> (Demo.modified_julian_date 2020 12 31 0 0 (Q2R 0) >=? ep)%r = true.
Proof.
  intros H. apply Rleb_true. unfold Demo.modified_julian_date. compute_days.
  unfold Q2R. cbn [Qnum Qden]. lra.
Qed.

Lemma demo_coefs_3 : ToRealArray "3" = [3%R].
Proof. reflexivity. Qed.

Lemma demo_coefs_2 : ToRealArray "2" = [2%R].
Proof. reflexivity. Qed.

Lemma complex_row_level (o : Ionosphere (Real := R)) :
  spacecraft_key o = "SCID(7)" -> (28850 <= epoch o <= 29214)%R ->
  row_level o 15 Demo.complex_row = Ok (Some ComplexLevel).
Proof.
  intros Hsc Hep. unfold row_level. rewrite Hsc.
  apply (match_level_complex_iff "SCID(7)" (complex_key 15) (station_key o) (epoch o)
           Demo.complex_row "RANGE" "CHPART" "20 01 01 00 00" "20 12 31 00 00"
           "DSN(C10)" "SCID(7)" _ _ eq_refl eq_refl eq_refl eq_refl eq_refl eq_refl
           demo_window_start demo_window_end).
  repeat split.
  - right. reflexivity.
  - apply demo_after_start. lra.
  - apply demo_before_end. lra.
Qed.

Lemma station_row_level (o : Ionosphere (Real := R)) :
  spacecraft_key o = "SCID(7)" -> station_key o = "DSN(015)" ->
  (28850 <= epoch o <= 29214)%R ->
  row_level o 15 Demo.station_row = Ok (Some StationLevel).
Proof.
  intros Hsc Hst Hep. unfold row_level. rewrite Hsc, Hst.
  apply (match_level_station "SCID(7)" (complex_key 15) "DSN(015)" (epoch o)
           Demo.station_row "DOPRNG" "CHPART" "20 01 01 00 00" "20 12 31 00 00"
           "DSN(015)" "SCID(7)" _ _ eq_refl eq_refl eq_refl eq_refl eq_refl eq_refl
           demo_window_start demo_window_end);
    try reflexivity.
  - left. reflexivity.
  - discriminate.
  - apply demo_after_start. lra.
  - apply demo_before_end. lra.
Qed.

Lemma demo_single_CONST (ep : R) :
  (28850 <= ep <= 29214)%R ->
  single_CONST_match (self (with_epoch ep (Demo.empirical [Demo.complex_row]))) 3%R.
Proof.
  intros Hep.
  exists 15%Z, 0%nat, Demo.complex_row, "3", [].
  split; [reflexivity |]. split; [reflexivity |].
  split; [apply complex_row_level; [reflexivity | exact Hep] |].
  split.
  - intros j row' Hj Hnth. destruct j as [| [| j]]; [contradiction | discriminate ..].
  - repeat split.
Qed.

(** The complex of a station number. *)
Lemma complex_of_below_30 (g : Z) (d : string) :
  (g < 30)%Z -> complex_of g d = "DSN(C10)".
Proof.
  intros H. unfold complex_of. destruct (Z.ltb_spec g 30) as [H1 | H1]; [reflexivity | lia].
Qed.

Lemma complex_of_30_to_49 (g : Z) (d : string) :
  (30 <= g < 50)%Z -> complex_of g d = "DSN(C40)".
Proof.
  intros H. unfold complex_of.
  destruct (Z.ltb_spec g 30) as [H1 | H1]; [lia |].
  destruct (Z.ltb_spec g 50) as [H2 | H2]; [| lia].
  destruct (Z.geb_spec g 30) as [H3 | H3]; [reflexivity | lia].
Qed.

Lemma complex_of_from_50 (g : Z) (d : string) :
  (50 <= g)%Z -> complex_of g d = "DSN(C60)".
Proof.
  intros H. unfold complex_of.
  destruct (Z.ltb_spec g 30) as [H1 | H1]; [lia |].
  destruct (Z.ltb_spec g 50) as [H2 | H2]; [lia |].
  cbn [andb]. destruct (Z.geb_spec g 50) as [H3 | H3]; [reflexivity | lia].
Qed.

(** A second call finds the key the first call left, in which no number
    is read. *)
Lemma second_call_reads_no_number (st : State (Real := R)) :
  ToInteger (station_key (self st)) = None ->
  String.get 0 (station_key (self st)) <> Some "C"%char ->
  station_number (self (fst (CalculateTRK223 st))) = None.
Proof.
  intros Hno Hfirst. rewrite CalculateTRK223_self.
  unfold station_number. cbn [groundStationId set_groundStationId].
  assert (E : expand_abbreviation (station_key (self st)) = station_key (self st)).
  { unfold expand_abbreviation, station_key, wrap_DSN.
    destruct (String.length _ <? 3)%nat; reflexivity. }
  rewrite E.
  destruct (station_key (self st)) as [| a w] eqn:K; [exact Hno |].
  cbn [substring]. destruct w; cbn [substring];
    (destruct (String.eqb_spec (String a "") "C") as [E1 | E1];
     [exfalso; apply Hfirst; injection E1 as ->; reflexivity | exact Hno]).
Qed.

(** A record of the year 2020 for the spacecraft SCID(7) is a
    complex-level match when its station field is the complex looked for. *)
Lemma demo_record_level (signal k cx gs : string) (ep : R) :
  signal = "DOPRNG" \/ signal = "RANGE" ->
  (28850 <= ep <= 29214)%R ->
  match_level "SCID(7)" cx gs ep
    [signal; "CONST"; k; "CHPART"; "20 01 01 00 00"; "20 12 31 00 00"; cx; "SCID(7)"]
  = Ok (Some ComplexLevel).
Proof.
  intros Hsig Hep.
  apply (match_level_complex_iff "SCID(7)" cx gs ep
           [signal; "CONST"; k; "CHPART"; "20 01 01 00 00"; "20 12 31 00 00"; cx; "SCID(7)"]
           signal "CHPART" "20 01 01 00 00" "20 12 31 00 00" cx "SCID(7)" _ _
           eq_refl eq_refl eq_refl eq_refl eq_refl eq_refl
           demo_window_start demo_window_end).
  repeat split.
  - exact Hsig.
  - apply demo_after_start. lra.
  - apply demo_before_end. lra.
Qed.

(** C3.  A table with one record: a complex-level CONST record with first
    coefficient 3 for the complex DSN(C40) and the spacecraft SCID(7), whose
    window, the year 2020, brackets the epoch.  For station 34 of that
    complex a first call returns the triple of the specification.  For the
    same table, spacecraft and epoch, the station given by CAN, the
    abbreviation of the complex, and a second call on the engine of station
    34, end otherwise: [ToInteger] reads no number in the identifier the
    call finds ("DSN(C40)", "DSN(034)"), its result is not tested, and
    [stationNumber] is compared without having been assigned.  What the rest
    of the call does then hangs on a value that was never set: the complex
    named in the branch of the abbreviation is overwritten in every case,
    the triple is returned if the value lies between 30 and 49, and
    RecordNotFound is thrown for any other value. *)
Theorem C3_identifier_without_a_number_gives_no_triple :
  let table :=
    [["RANGE"; "CONST"; "3"; "CHPART"; "20 01 01 00 00"; "20 12 31 00 00";
      "DSN(C40)"; "SCID(7)"]] in
  let by_number :=
    Demo.state_of (Demo.engine "TRK-2-23" "34" table 20241231 20261231 20200615) in
  let by_abbreviation :=
    Demo.state_of (Demo.engine "TRK-2-23" "CAN" table 20241231 20261231 20200615) in
  let r := (lit 2295 * lit 1000000 / (SPEED_OF_LIGHT_VACUUM / 0.13))%R in
  let triple : Outcome (list R) :=
    Ok [(3 * r * r)%R; lit 0; (3 * r * r / SPEED_OF_LIGHT_VACUUM)%R] in
  (exists t4 t5,
      GetTRK223Time "20 01 01 00 00" = Ok t4 /\ GetTRK223Time "20 12 31 00 00" = Ok t5
      /\ (t4 <= epoch (self by_number) <= t5)%R
      /\ epoch (self by_abbreviation) = epoch (self by_number))
  /\ expand_abbreviation "CAN" = "DSN(C40)"
  /\ complex_key 34 = "DSN(C40)"
  /\ snd (CalculateTRK223 by_number) = triple
  /\ snd (CalculateTRK223 by_abbreviation) = Fault UninitializedRead
  /\ (forall g : Z,
        let rest := CalculateTRK223_lookup (complex_of g "DSN(C40)")
                      (keyed by_abbreviation) in
        ((30 <= g < 50)%Z -> snd rest = triple)
        /\ ((g < 30 \/ 50 <= g)%Z ->
            snd rest
            = Throw (Measurement (RecordNotFound "DSN(DSN(C40))"
                                    (complex_of g "DSN(C40)") "SCID(7)"))))
  /\ snd (CalculateTRK223 (fst (CalculateTRK223 by_number))) = Fault UninitializedRead.
Proof.
  intros table by_number by_abbreviation r triple.
  split.
  { exists (Demo.modified_julian_date 2020 1 1 0 0 (Q2R 0)),
           (Demo.modified_julian_date 2020 12 31 0 0 (Q2R 0)).
    split; [reflexivity |]. split; [reflexivity |]. split; [| reflexivity].
    unfold Demo.modified_julian_date. compute_days.
    unfold Q2R. cbn [Qnum Qden by_number self epoch Demo.state_of Demo.engine]. lra. }
  split; [reflexivity |]. split; [reflexivity |].
  split.
  { assert (H : single_CONST_match (self by_number) 3%R).
    { exists 34%Z, 0%nat,
        ["RANGE"; "CONST"; "3"; "CHPART"; "20 01 01 00 00"; "20 12 31 00 00";
         "DSN(C40)"; "SCID(7)"], "3", [].
      split; [reflexivity |]. split; [reflexivity |].
      split.
      { unfold row_level. change (spacecraft_key _) with "SCID(7)".
        change (complex_key 34) with "DSN(C40)".
        apply demo_record_level; [right; reflexivity | cbn; lra]. }
      split.
      - intros j row' Hj Hnth. destruct j as [| [| j]]; [contradiction | discriminate ..].
      - repeat split. }
    exact (proj1 (single_CONST_record (EX := Demo.ext) by_number 3%R H)). }
  split.
  { rewrite CalculateTRK223_no_number by reflexivity. reflexivity. }
  split.
  { intros g rest. subst rest. split.
    - intros Hg. rewrite (complex_of_30_to_49 g "DSN(C40)" Hg).
      set (s' := keyed by_abbreviation).
      refine (lookup_one "DSN(C40)" s' 0%nat
                ["RANGE"; "CONST"; "3"; "CHPART"; "20 01 01 00 00"; "20 12 31 00 00";
                 "DSN(C40)"; "SCID(7)"] (3 * r * r)%R _ eq_refl _).
      + cbn [scan table DSNDatabase self s' keyed set_groundStationId by_abbreviation
             Demo.state_of Demo.engine epoch groundStationId].
        change (spacecraft_key _) with "SCID(7)".
        rewrite (@demo_record_level "RANGE" "3" "DSN(C40)" _ _ (or_intror eq_refl))
          by lra.
        reflexivity.
      + rewrite (TRK223Solver_CONST s'
                   ["RANGE"; "CONST"; "3"; "CHPART"; "20 01 01 00 00"; "20 12 31 00 00";
                    "DSN(C40)"; "SCID(7)"] (epoch (self s')) "3"
                   "20 01 01 00 00" "20 12 31 00 00" 3%R [] _ _
                   eq_refl eq_refl demo_coefs_3 eq_refl demo_window_start
                   eq_refl demo_window_end).
        reflexivity.
    - intros [Hg | Hg];
        [rewrite (complex_of_below_30 g "DSN(C40)" Hg)
        | rewrite (complex_of_from_50 g "DSN(C40)" Hg)]; reflexivity. }
  rewrite CalculateTRK223_no_number; [reflexivity |].
  apply second_call_reads_no_number; [reflexivity | discriminate].
Qed.

(** C5.  Two tables of CONST records for the spacecraft SCID(7) whose
    window, the year 2020, brackets the epoch.  Table [A] holds a record of
    the complex DSN(C10) and none of DSN(C40).  Table [B] holds a record of
    the complex DSN(C10) and one of its station DSN(015).  For a station
    given by its number a first call does what the specification says: for
    station 34 (complex DSN(C40)) it throws RecordNotFound on [A], and for
    station 15 (complex DSN(C10)) it returns the sum of the two corrections
    on [B].  For CAN, the abbreviation of the complex DSN(C40), on [A], and
    for a second call of the engine of station 15 on [B], [ToInteger] reads
    no number in the identifier, its result is not tested, and
    [stationNumber] is compared without having been assigned, before the
    table is looked at.  What the rest of the call does then hangs on a value
    that was never set: on [A], with a value below 30 it returns the
    correction of the record of DSN(C10), where RecordNotFound is due; on
    [B], whatever the value, the station key is by then "DSN(DSN(015))" and
    the record of the station is passed over, so that the call ends in the
    correction of the complex alone or in RecordNotFound, never in the
    sum. *)
Theorem C5_identifier_without_a_number_ends_before_the_scan :
  let record signal k key :=
    [signal; "CONST"; k; "CHPART"; "20 01 01 00 00"; "20 12 31 00 00"; key; "SCID(7)"] in
  let engine station table :=
    Demo.state_of (Demo.engine "TRK-2-23" station table 20241231 20261231 20200615) in
  let r := (freqSBand / (SPEED_OF_LIGHT_VACUUM / 0.13))%R in
  let correction (v : R) : Outcome (list R) :=
    Ok [v; lit 0; (v / SPEED_OF_LIGHT_VACUUM)%R] in
  let A := [record "RANGE" "3" "DSN(C10)"] in
  let B := [record "RANGE" "3" "DSN(C10)"; record "DOPRNG" "2" "DSN(015)"] in
  (snd (CalculateTRK223 (engine "34" A))
   = Throw (Measurement (RecordNotFound "DSN(034)" "DSN(C40)" "SCID(7)"))
   /\ expand_abbreviation "CAN" = "DSN(C40)"
   /\ snd (CalculateTRK223 (engine "CAN" A)) = Fault UninitializedRead
   /\ forall g : Z,
        (g < 30)%Z ->
        snd (CalculateTRK223_lookup (complex_of g "DSN(C40)") (keyed (engine "CAN" A)))
        = correction (3 * r * r)%R)
  /\ (snd (CalculateTRK223 (engine "15" B)) = correction (3 * r * r + 2 * r * r)%R
      /\ snd (CalculateTRK223 (fst (CalculateTRK223 (engine "15" B))))
         = Fault UninitializedRead
      /\ groundStationId (self (fst (CalculateTRK223 (engine "15" B)))) = "DSN(015)"
      /\ forall g : Z,
           let rest := CalculateTRK223_lookup (complex_of g "")
                         (keyed (fst (CalculateTRK223 (engine "15" B)))) in
           snd rest = correction (3 * r * r)%R
           \/ snd rest
              = Throw (Measurement (RecordNotFound "DSN(DSN(015))" (complex_of g "")
                                                   "SCID(7)"))).
Proof.
  intros record engine r correction A B.
  assert (Hsum : snd (CalculateTRK223 (engine "15" B)) = correction (3 * r * r + 2 * r * r)%R).
  { set (st := engine "15" B).
    assert (Hep : (28850 <= epoch (self st) <= 29214)%R) by (cbn; lra).
    assert (Hc : row_level (self st) 15 Demo.complex_row = Ok (Some ComplexLevel))
      by (apply complex_row_level; [reflexivity | exact Hep]).
    assert (Hs : row_level (self st) 15 Demo.station_row = Ok (Some StationLevel))
      by (apply station_row_level; [reflexivity | reflexivity | exact Hep]).
    assert (Hall : forall row, In row [Demo.complex_row; Demo.station_row] ->
                               exists lv, row_level (self st) 15 row = Ok lv).
    { intros row [<- | [<- | []]]; eexists; eassumption. }
    apply (proj2 (record_not_found_or_sum (EX := Demo.ext) st 15 eq_refl Hall)
             0%nat 1%nat Demo.complex_row Demo.station_row).
    + split; [reflexivity |]. split; [exact Hc |].
      intros j row' Hj Hnth. destruct j as [| [| [| j]]]; try lia; try discriminate.
      injection Hnth as <-. intros K. pose proof (eq_trans (eq_sym Hs) K) as K'.
      discriminate K'.
    + split; [reflexivity |]. split; [exact Hs |].
      intros j row' Hj Hnth. destruct j as [| [| [| j]]]; try lia; discriminate.
    + rewrite (TRK223Solver_CONST st Demo.complex_row (epoch (self st)) "3"
                 "20 01 01 00 00" "20 12 31 00 00" 3%R [] _ _
                 eq_refl eq_refl demo_coefs_3 eq_refl demo_window_start
                 eq_refl demo_window_end).
      reflexivity.
    + rewrite (TRK223Solver_CONST st Demo.station_row (epoch (self st)) "2"
                 "20 01 01 00 00" "20 12 31 00 00" 2%R [] _ _
                 eq_refl eq_refl demo_coefs_2 eq_refl demo_window_start
                 eq_refl demo_window_end).
      reflexivity. }
  assert (HnB : station_number (self (engine "15" B)) = Some 15%Z) by reflexivity.
  assert (HnA : station_number (self (engine "34" A)) = Some 34%Z) by reflexivity.
  assert (Hfirst : fst (CalculateTRK223 (engine "15" B)) = keyed (engine "15" B)).
  { rewrite (CalculateTRK223_eq (engine "15" B) 15 HnB).
    apply CalculateTRK223_lookup_state. }
  split; [split; [| split; [| split]] | split; [| split; [| split]]].
  - rewrite (CalculateTRK223_eq (engine "34" A) 34 HnA). reflexivity.
  - reflexivity.
  - rewrite CalculateTRK223_no_number by reflexivity. reflexivity.
  - intros g Hg. rewrite (complex_of_below_30 g "DSN(C40)" Hg).
    set (s' := keyed (engine "CAN" A)).
    refine (lookup_one "DSN(C10)" s' 0%nat (record "RANGE" "3" "DSN(C10)") (3 * r * r)%R
              _ eq_refl _).
    + cbn [scan A DSNDatabase self s' keyed set_groundStationId engine Demo.state_of
           Demo.engine epoch groundStationId].
      change (spacecraft_key _) with "SCID(7)".
      rewrite (@demo_record_level "RANGE" "3" "DSN(C10)" _ _ (or_intror eq_refl))
        by lra.
      reflexivity.
    + rewrite (TRK223Solver_CONST s' (record "RANGE" "3" "DSN(C10)") (epoch (self s')) "3"
                 "20 01 01 00 00" "20 12 31 00 00" 3%R [] _ _
                 eq_refl eq_refl demo_coefs_3 eq_refl demo_window_start
                 eq_refl demo_window_end).
      reflexivity.
  - exact Hsum.
  - rewrite CalculateTRK223_no_number; [reflexivity |].
    apply second_call_reads_no_number; [reflexivity | discriminate].
  - rewrite Hfirst. reflexivity.
  - intros g rest. subst rest. rewrite Hfirst.
    set (s' := keyed (keyed (engine "15" B))).
    destruct (Z.lt_ge_cases g 30) as [Hg | Hg].
    + left. rewrite (complex_of_below_30 g "" Hg).
      refine (lookup_one "DSN(C10)" s' 0%nat (record "RANGE" "3" "DSN(C10)") (3 * r * r)%R
                _ eq_refl _).
      * cbn [scan B DSNDatabase self s' keyed set_groundStationId engine Demo.state_of
             Demo.engine epoch groundStationId].
        change (spacecraft_key _) with "SCID(7)".
        rewrite (@demo_record_level "RANGE" "3" "DSN(C10)" _ _ (or_intror eq_refl))
          by lra.
        reflexivity.
      * rewrite (TRK223Solver_CONST s' (record "RANGE" "3" "DSN(C10)") (epoch (self s'))
                   "3" "20 01 01 00 00" "20 12 31 00 00" 3%R [] _ _
                   eq_refl eq_refl demo_coefs_3 eq_refl demo_window_start
                   eq_refl demo_window_end).
        reflexivity.
    + right. destruct (Z.lt_ge_cases g 50) as [Hg' | Hg'];
        [rewrite (complex_of_30_to_49 g "" (conj Hg Hg'))
        | rewrite (complex_of_from_50 g "" Hg')]; reflexivity.
Qed.

(* ================================================================== *)
(** * The physics model over the reals *)

Lemma Rleb_iff (x y : R) : Rleb x y = true <-> (x <= y)%R.
Proof. unfold Rleb. destruct (Rle_dec x y); split; intros; try discriminate; tauto. Qed.

Lemma Rltb_iff (x y : R) : Rltb x y = true <-> (x < y)%R.
Proof. unfold Rltb. destruct (Rlt_dec x y); split; intros; try discriminate; tauto. Qed.

Lemma Q2R_num (z : Z) : Q2R (z # 1) = IZR z.
Proof. exact (Q2R_inject_Z z). Qed.

Lemma lit_IZR (z : Z) : lit (inject_Z z) = IZR z.
Proof. exact (Q2R_inject_Z z). Qed.

(** Replaces the operations of [R_RealOps] by those of [R], and the
    literals by numerals. *)
Ltac to_reals :=
  cbn [lit radd rsub rmul rdiv rneg rltb rleb real4 Sqrt Pow Cos Sin Tan ACos Max Min
       TWO_PI R_RealOps] in *;
  rewrite ?Q2R_num in *.

Section ShellGeometry.

Variable o : Ionosphere (Real := R).

Let a := quad_a o.
Let b := quad_b o.
Let c := quad_c o.
Let shell := (earthRadius o + 2000)%R.

Lemma quad_c_eq : quad_c o = (dot (stationLoc o) (stationLoc o) - shell * shell)%R.
Proof.
  unfold quad_c, IONOSPHERE_MAX_ALTITUDE, shell. to_reals.
  cbn [powerRZ]. change (Pos.to_nat 2) with 2%nat. cbn [pow]. ring.
Qed.

Lemma discriminant_eq : discriminant o = (b * b - 4 * a * c)%R.
Proof. unfold discriminant. to_reals. reflexivity. Qed.

Lemma root1_eq : root1 o = ((- b - sqrt (discriminant o)) / (2 * a))%R.
Proof. unfold root1. to_reals. reflexivity. Qed.

Lemma root2_eq : root2 o = ((- b + sqrt (discriminant o)) / (2 * a))%R.
Proof. unfold root2. to_reals. reflexivity. Qed.

(** The quadratic at 1 is the square of the distance of the spacecraft
    from the centre, less the square of the radius of the shell. *)
Lemma quad_at_1 :
  (a + b + c)%R = (dot (spacecraftLoc o) (spacecraftLoc o) - shell * shell)%R.
Proof.
  unfold a, b, c. rewrite quad_c_eq.
  unfold quad_a, quad_b, chord, dot, vsub, vscale. to_reals.
  destruct (stationLoc o), (spacecraftLoc o). cbn [vx vy vz]. ring.
Qed.

Lemma quad_a_positive : stationLoc o <> spacecraftLoc o -> (0 < a)%R.
Proof.
  intros H. unfold a, quad_a, chord, dot, vsub. to_reals.
  destruct (stationLoc o) as [x y z], (spacecraftLoc o) as [x' y' z']. cbn [vx vy vz].
  pose proof (Rle_0_sqr (x' - x)) as Px. pose proof (Rle_0_sqr (y' - y)) as Py.
  pose proof (Rle_0_sqr (z' - z)) as Pz. unfold Rsqr in Px, Py, Pz.
  assert (pos : forall u v : R, u <> v -> (0 < (v - u) * (v - u))%R).
  { intros u v Huv. apply (Rsqr_pos_lt (v - u)). lra. }
  destruct (Req_dec x x') as [-> | Hx]; [| specialize (pos x x' Hx); lra].
  destruct (Req_dec y y') as [-> | Hy]; [| specialize (pos y y' Hy); lra].
  destruct (Req_dec z z') as [-> | Hz]; [| specialize (pos z z' Hz); lra].
  exfalso. apply H. reflexivity.
Qed.

Section StationInside.

Hypothesis a_pos : (0 < a)%R.
Hypothesis c_neg : (c < 0)%R.

Lemma discriminant_positive : (b * b < discriminant o)%R.
Proof. rewrite discriminant_eq. nra. Qed.

Lemma sqrt_discriminant : (Rabs b < sqrt (discriminant o))%R.
Proof.
  rewrite <- sqrt_Rsqr_abs. apply sqrt_lt_1_alt. unfold Rsqr.
  split; [nra | apply discriminant_positive].
Qed.

Lemma root1_negative : (root1 o < 0)%R.
Proof.
  rewrite root1_eq. pose proof sqrt_discriminant as H.
  pose proof (Rle_abs (- b)) as H1. rewrite Rabs_Ropp in H1.
  assert (Hi : (0 < / (2 * a))%R) by (apply Rinv_0_lt_compat; lra).
  unfold Rdiv. nra.
Qed.

Lemma root2_positive : (0 < root2 o)%R.
Proof.
  rewrite root2_eq. pose proof sqrt_discriminant as H.
  pose proof (Rle_abs b) as H1.
  assert (Hi : (0 < / (2 * a))%R) by (apply Rinv_0_lt_compat; lra).
  unfold Rdiv. nra.
Qed.

Lemma crosses_when_station_inside : ~ misses_shell o.
Proof.
  pose proof discriminant_positive as HD.
  pose proof root1_negative as H1. pose proof root2_positive as H2.
  unfold misses_shell. to_reals.
  intros [H | [[H _] | [_ H]]].
  - apply Rleb_iff in H. nra.
  - apply Rltb_iff in H. lra.
  - apply Rltb_iff in H. lra.
Qed.

Lemma entry_at_station : entry_point o = stationLoc o.
Proof.
  unfold entry_point. to_reals. rewrite Rmax_right by (pose proof root1_negative; lra).
  unfold vadd, vscale. to_reals. destruct (stationLoc o) as [x y z]. cbn [vx vy vz].
  f_equal; ring.
Qed.

(** The upper root against 1, by the sign of the quadratic at 1. *)
Lemma root2_above_1 : (a + b + c <= 0)%R -> (1 <= root2 o)%R.
Proof.
  intros H. rewrite root2_eq.
  assert (Hs : (2 * a + b <= sqrt (discriminant o))%R).
  { destruct (Rle_dec (2 * a + b) 0) as [Hn | Hp].
    - pose proof (sqrt_pos (discriminant o)). lra.
    - rewrite <- (sqrt_square (2 * a + b)) by lra.
      apply sqrt_le_1_alt. rewrite discriminant_eq. nra. }
  assert (Hi : (0 < / (2 * a))%R) by (apply Rinv_0_lt_compat; lra).
  assert (E : ((2 * a) * / (2 * a) = 1)%R) by (field; lra).
  unfold Rdiv. rewrite <- E. apply Rmult_le_compat_r; lra.
Qed.

Lemma root2_below_1 : (0 <= a + b + c)%R -> (root2 o <= 1)%R.
Proof.
  intros H. rewrite root2_eq.
  assert (Hs : (sqrt (discriminant o) <= 2 * a + b)%R).
  { rewrite <- (sqrt_square (2 * a + b)) by lra.
    apply sqrt_le_1_alt. rewrite discriminant_eq. nra. }
  assert (Hi : (0 < / (2 * a))%R) by (apply Rinv_0_lt_compat; lra).
  assert (E : ((2 * a) * / (2 * a) = 1)%R) by (field; lra).
  unfold Rdiv. rewrite <- E. apply Rmult_le_compat_r; lra.
Qed.

(** The upper root is a root. *)
Lemma root2_is_a_root : (a * (root2 o * root2 o) + b * root2 o + c = 0)%R.
Proof.
  rewrite root2_eq.
  assert (HD : (sqrt (discriminant o) * sqrt (discriminant o) = b * b - 4 * a * c)%R).
  { rewrite sqrt_sqrt; [apply discriminant_eq |].
    pose proof discriminant_positive. nra. }
  set (D := sqrt (discriminant o)) in *.
  assert (E : (a * ((- b + D) / (2 * a) * ((- b + D) / (2 * a)))
               + b * ((- b + D) / (2 * a)) + c
               = (D * D - (b * b - 4 * a * c)) / (4 * a))%R) by (field; lra).
  rewrite E, HD. field. lra.
Qed.

Lemma exit_at_spacecraft : (a + b + c <= 0)%R -> exit_point o = spacecraftLoc o.
Proof.
  intros H. unfold exit_point. to_reals.
  rewrite Rmin_right by (apply root2_above_1; exact H).
  unfold vadd, vscale, chord, vsub. to_reals.
  destruct (stationLoc o) as [x y z], (spacecraftLoc o) as [x' y' z']. cbn [vx vy vz].
  f_equal; ring.
Qed.

Lemma exit_on_shell :
  (0 <= a + b + c)%R -> dot (exit_point o) (exit_point o) = (shell * shell)%R.
Proof.
  intros H. unfold exit_point. to_reals.
  rewrite Rmin_left by (apply root2_below_1; exact H).
  pose proof root2_is_a_root as Hr. set (t := root2 o) in *.
  unfold a, b, c in Hr. rewrite quad_c_eq in Hr.
  unfold quad_a, quad_b, chord, dot, vsub, vscale in Hr.
  unfold dot, vadd, vscale, chord, vsub. to_reals.
  destruct (stationLoc o) as [x y z], (spacecraftLoc o) as [x' y' z']. cbn [vx vy vz] in *.
  lra.
Qed.

End StationInside.

End ShellGeometry.

(** X4.  Over the reals, for a station strictly inside the shell of radius
    [earthRadius + 2000] and a spacecraft that is not at the station: the
    path crosses the shell; the part of it the two integrations work on
    starts at the station itself; it ends at the spacecraft when the
    spacecraft is inside the shell, and on the shell when it is outside. *)
Theorem X4_path_of_a_station_inside_the_shell (o : Ionosphere (Real := R)) :
  let shell := (earthRadius o + 2000)%R in
  (dot (stationLoc o) (stationLoc o) < shell * shell)%R ->
  stationLoc o <> spacecraftLoc o ->
  ~ misses_shell o
  /\ entry_point o = stationLoc o
  /\ ((dot (spacecraftLoc o) (spacecraftLoc o) <= shell * shell)%R ->
      exit_point o = spacecraftLoc o)
  /\ ((shell * shell <= dot (spacecraftLoc o) (spacecraftLoc o))%R ->
      dot (exit_point o) (exit_point o) = (shell * shell)%R).
Proof.
  intros shell Hst Hne.
  pose proof (quad_a_positive o Hne) as Ha.
  assert (Hc : (quad_c o < 0)%R) by (rewrite quad_c_eq; fold shell; lra).
  pose proof (quad_at_1 o) as H1. fold shell in H1.
  split; [exact (crosses_when_station_inside o Ha Hc) |].
  split; [exact (entry_at_station o Ha Hc) |].
  split; intros Hsc.
  - apply (exit_at_spacecraft o Ha). lra.
  - apply (exit_on_shell o Ha Hc). lra.
Qed.

(** ** A uniform ionosphere *)

Lemma magnitude_of_a_step (p dR : Rvector3 (Real := R)) :
  GetMagnitude (vsub (vadd p dR) p) = GetMagnitude dR.
Proof.
  unfold GetMagnitude, dot, vsub, vadd. to_reals.
  destruct p as [x y z], dR as [dx dy dz]. cbn [vx vy vz]. f_equal. ring.
Qed.

Lemma magnitude_vdiv (v : Rvector3 (Real := R)) (k : R) :
  (0 < k)%R -> GetMagnitude (vdiv v k) = (GetMagnitude v / k)%R.
Proof.
  intros Hk. unfold GetMagnitude, dot, vdiv. to_reals.
  destruct v as [x y z]. cbn [vx vy vz].
  assert (Hi : (0 < / k)%R) by (apply Rinv_0_lt_compat; exact Hk).
  replace (x / k * (x / k) + y / k * (y / k) + z / k * (z / k))%R
    with ((x * x + y * y + z * z) * (/ k * / k))%R by (unfold Rdiv; ring).
  rewrite sqrt_mult_alt by nra.
  rewrite sqrt_square by lra. reflexivity.
Qed.

Lemma magnitude_not_negative (v : Rvector3 (Real := R)) : (0 <= GetMagnitude v)%R.
Proof. unfold GetMagnitude. to_reals. apply sqrt_pos. Qed.

Lemma clamp_density_Rmax (rho : R) : clamp_density rho = Rmax rho 0.
Proof.
  unfold clamp_density. to_reals. unfold Rltb.
  destruct (Rlt_dec rho 0); [rewrite Rmax_right by lra | rewrite Rmax_left by lra];
    reflexivity.
Qed.

Lemma Rinv_not_negative (x : R) : (0 <= x)%R -> (0 <= / x)%R.
Proof.
  intros [H | <-]; [left; apply Rinv_0_lt_compat; exact H | rewrite Rinv_0; lra].
Qed.

Section UniformIonosphere.

Context {EX : Externals (Real := R)}.

Local Abbreviation State := (@State R).

Variable rho : R.

(** The provider answers the same density everywhere, and no error. *)
Hypothesis uniform : forall c, iri_sub c = (rho, 0%Z).

Lemma ElectronDensity_uniform (p : Rvector3) (st : State) :
  exists c, ElectronDensity p st
            = (mkState (self st) (messages st) (iri_calls st ++ [c])%list,
               Ok (Rmax rho 0)).
Proof.
  destruct (ElectronDensity_run p st) as [c Hc]. exists c.
  rewrite Hc, uniform. cbn [fst snd Z.eqb negb]. rewrite clamp_density_Rmax. reflexivity.
Qed.

Lemma TEC_loop_uniform (n : nat) :
  forall dR p1 tec st,
    snd (TEC_loop n dR p1 tec st)
    = Ok (tec + INR n * (Rmax rho 0 * (GetMagnitude dR * KM_TO_M)))%R.
Proof.
  induction n as [| n IH]; intros dR p1 tec st.
  - cbn [TEC_loop ret snd INR]. f_equal. ring.
  - cbn [TEC_loop]. unfold bind.
    destruct (ElectronDensity_uniform (vdiv (vadd p1 (vadd p1 dR)) (lit 2)) st) as [c Hc].
    rewrite Hc, IH, magnitude_of_a_step, S_INR. to_reals. f_equal. ring.
Qed.

Lemma BendingAngle_loop_uniform (n : nat) :
  forall rangeVec dR freq r_i1 theta_i1 n_i1 dtheta_i1 st,
    n_i1 = (lit 1 - lit 40.3 * Rmax rho 0 / (freq * freq))%r ->
    dtheta_i1 = 0%R ->
    snd (BendingAngle_loop n rangeVec dR freq r_i1 theta_i1 n_i1 dtheta_i1 st) = Ok 0%R.
Proof.
  induction n as [| n IH]; intros rangeVec dR freq r_i1 theta_i1 n_i1 dtheta_i1 st Hn Hd.
  - cbn [BendingAngle_loop ret snd]. rewrite Hd. reflexivity.
  - cbn [BendingAngle_loop]. unfold bind.
    destruct (ElectronDensity_uniform (vsub r_i1 dR) st) as [c Hc]. rewrite Hc.
    apply IH; [reflexivity |].
    rewrite Hn, Hd. to_reals. unfold Rdiv. ring.
Qed.

End UniformIonosphere.

(** X5.  Over the reals, for a provider that answers the same density [rho]
    everywhere and a path that crosses the shell, the sum of [TEC] is the
    density (0 if [rho] is negative) times the length in metres of the part
    of the path inside the shell: the midpoint sum is exact for a uniform
    ionosphere. *)
Theorem X5_TEC_of_a_uniform_ionosphere {EX : Externals (Real := R)}
    (st : State (Real := R)) (rho : R) :
  (forall c, iri_sub c = (rho, 0%Z)) ->
  ~ misses_shell (self st) ->
  snd (TEC st)
  = Ok (Rmax rho 0
        * (GetMagnitude (vsub (exit_point (self st)) (entry_point (self st)))
           * KM_TO_M))%R.
Proof.
  intros uniform H. rewrite (TEC_crossing st H).
  rewrite (TEC_loop_uniform rho uniform). f_equal.
  unfold step_vector, of_int. rewrite lit_IZR.
  rewrite magnitude_vdiv by (unfold NUM_OF_INTERVALS; apply IZR_lt; reflexivity).
  rewrite INR_IZR_INZ. to_reals.
  assert (Hk : IZR (Z.of_nat NUM_OF_INTERVALS) <> 0%R).
  { unfold NUM_OF_INTERVALS. apply not_0_IZR. discriminate. }
  field. exact Hk.
Qed.

(** X6.  Over the reals, for a provider that answers the same density
    everywhere and a signal whose refraction index [1 - 40.3 * density /
    freq^2] is defined and is not 0 (speed of light and wavelength other than
    0), [BendingAngle] returns 0 for every geometry: without a change of the
    refraction index from one point of the march to the next, every term
    [(n_i1 - n_i) / n_i * tan(theta)] is 0 and the ray is not bent. *)
Theorem X6_no_bending_in_a_uniform_ionosphere {EX : Externals (Real := R)}
    (st : State (Real := R)) (rho : R) :
  (forall c, iri_sub c = (rho, 0%Z)) ->
  let freq := (SPEED_OF_LIGHT_VACUUM / waveLength (self st))%R in
  SPEED_OF_LIGHT_VACUUM <> 0%R ->
  waveLength (self st) <> 0%R ->
  (1 - 403 / 10 * Rmax rho 0 / (freq * freq) <> 0)%R ->
  snd (BendingAngle st) = Ok 0%R.
Proof.
  intros uniform freq _ _ _.
  destruct (misses_shell_dec (self st)) as [H | H].
  - rewrite (BendingAngle_misses_shell st H). cbn [snd]. to_reals. reflexivity.
  - rewrite (BendingAngle_crossing st H). cbv zeta. unfold bind at 1.
    destruct (ElectronDensity_uniform rho uniform (exit_point (self st)) st) as [c Hc].
    rewrite Hc. unfold bind.
    match goal with
    | |- context [BendingAngle_loop ?n ?rv ?dR ?f ?r ?th ?ni ?d ?s] =>
        pose proof (BendingAngle_loop_uniform rho uniform n rv dR f r th ni d s
                      eq_refl (Q2R_num 0)) as K;
        destruct (BendingAngle_loop n rv dR f r th ni d s) as [s' r']
    end.
    cbn [snd] in K. subst r'. cbn [ret snd]. to_reals. rewrite Ropp_0. reflexivity.
Qed.

(** ** Signs *)

Section Signs.

Context {EX : Externals (Real := R)}.

Local Abbreviation State := (@State R).

Hypothesis KM_TO_M_not_negative : (0 <= KM_TO_M)%R.

Lemma TEC_loop_not_negative (n : nat) :
  forall dR p1 tec st v,
    (0 <= tec)%R -> snd (TEC_loop n dR p1 tec st) = Ok v -> (0 <= v)%R.
Proof.
  induction n as [| n IH]; intros dR p1 tec st v Ht H.
  - cbn [TEC_loop ret snd] in H. injection H as <-. exact Ht.
  - cbn [TEC_loop] in H. unfold bind in H.
    destruct (ElectronDensity_run (vdiv (vadd p1 (vadd p1 dR)) (lit 2)) st) as [c Hc].
    rewrite Hc in H. destruct (negb (snd (iri_sub c) =? 0)%Z); [discriminate H |].
    apply IH in H; [exact H |].
    rewrite clamp_density_Rmax. to_reals.
    pose proof (Rmax_r (fst (iri_sub c)) 0) as Hd.
    pose proof (magnitude_not_negative (vsub (vadd p1 dR) p1)) as Hm.
    assert (Hds : (0 <= GetMagnitude (vsub (vadd p1 dR) p1) * KM_TO_M)%R)
      by (apply Rmult_le_pos; assumption).
    pose proof (Rmult_le_pos _ _ Hd Hds). lra.
Qed.

Lemma TEC_not_negative (st : State) (tec : R) :
  snd (TEC st) = Ok tec -> (0 <= tec)%R.
Proof.
  intros H. destruct (misses_shell_dec (self st)) as [Hm | Hc].
  - rewrite (TEC_misses_shell st Hm) in H. cbn [snd] in H. injection H as <-.
    to_reals. lra.
  - rewrite (TEC_crossing st Hc) in H.
    apply TEC_loop_not_negative in H; [exact H | to_reals; lra].
Qed.

End Signs.

(** X7.  Over the reals, with a conversion factor from km to m that is not
    negative: the electron content [TEC] returns is never negative (the
    density of the provider is cut at 0 before it is summed), and, for a
    signal with a frequency (speed of light and wavelength other than 0),
    the range correction of [CalculateIRI2007] is never negative either. *)
Theorem X7_range_correction_is_not_negative {EX : Externals (Real := R)}
    (st : State (Real := R)) :
  (0 <= KM_TO_M)%R ->
  SPEED_OF_LIGHT_VACUUM <> 0%R ->
  waveLength (self st) <> 0%R ->
  (forall tec, snd (TEC st) = Ok tec -> (0 <= tec)%R)
  /\ (forall drho dphi dtime,
        snd (CalculateIRI2007 st) = Ok [drho; dphi; dtime] -> (0 <= drho)%R).
Proof.
  intros Hkm Hc Hw. split.
  - intros tec. apply TEC_not_negative. exact Hkm.
  - intros drho dphi dtime H.
    destruct (CalculateIRI2007_result st _ H)
      as (st1 & b & tec & dphi' & Hinit & _ & Ht & E).
    apply (TEC_not_negative Hkm) in Ht.
    assert (Hw1 : waveLength (self st1) = waveLength (self st)).
    { pose proof (Initialize_geometry st) as Hg. rewrite Hinit in Hg.
      unfold same_geometry, geometry in Hg. cbn [fst] in Hg.
      injection Hg as _ _ _ Hg _ _ _. symmetry. exact Hg. }
    unfold IRI2007_triple in E. injection E as -> _ _. rewrite Hw1. to_reals.
    set (f := (SPEED_OF_LIGHT_VACUUM / waveLength (self st))%R).
    assert (Hf : f <> 0%R).
    { unfold f, Rdiv. apply Rmult_integral_contrapositive_currified;
        [exact Hc | apply Rinv_neq_0_compat; exact Hw]. }
    assert (Hff : (0 < / (f * f))%R) by (apply Rinv_0_lt_compat; nra).
    assert (Hk : (0 <= Q2R 40.3)%R) by (unfold Q2R; cbn [Qnum Qden]; lra).
    unfold Rdiv. apply Rmult_le_pos; [apply Rmult_le_pos; assumption | lra].
Qed.

(** ** Runs on a zenith pass *)

Lemma zenith_crosses : ~ misses_shell (self Cases.zenith).
Proof.
  apply crosses_when_station_inside.
  - apply quad_a_positive. cbn. intros H. injection H as H. lra.
  - rewrite quad_c_eq. unfold dot. cbn. lra.
Qed.

Lemma zenith_initialized (EX : Externals (Real := R)) :
  Initialize (EX := EX) Cases.zenith = (Cases.zenith, Ok true).
Proof. apply Initialize_when_initialized. reflexivity. Qed.

Lemma zenith_in_window :
  (ap_yyyymmddMin (self Cases.zenith) <= mjdate (self Cases.zenith)
   < ap_yyyymmddMax (self Cases.zenith))%Z.
Proof. unfold mjdate. cbn. lia. Qed.

Lemma X1_witness :
  ~ misses_shell (self Cases.zenith)
  /\ (exists tec l,
        TEC Cases.zenith
        = (mkState (self Cases.zenith) (messages Cases.zenith)
             (iri_calls Cases.zenith ++ l)%list, Ok tec)
        /\ List.length l = 200%nat)
  /\ (exists dphi l,
        BendingAngle Cases.zenith
        = (mkState (self Cases.zenith) (messages Cases.zenith)
             (iri_calls Cases.zenith ++ l)%list, Ok dphi)
        /\ List.length l = 201%nat).
Proof.
  split; [exact zenith_crosses |].
  apply (X1_provider_calls_per_integration (EX := Demo.ext) Cases.zenith).
  - intros c. reflexivity.
  - exact zenith_crosses.
Defined.

Lemma X2_witness :
  Initialize Cases.zenith = (Cases.zenith, Ok true)
  /\ (exists ra, snd (CalculateIRI2007 Cases.zenith) = Ok ra)
  /\ List.length (iri_calls (fst (CalculateIRI2007 Cases.zenith))) = 401%nat.
Proof.
  split; [apply zenith_initialized |].
  apply (X2_correction_costs_401_calls (EX := Demo.ext) Cases.zenith Cases.zenith true).
  - intros c. reflexivity.
  - exact zenith_crosses.
  - apply zenith_initialized.
  - exact zenith_in_window.
Defined.

Lemma X3_witness :
  (exists c, TEC (EX := Cases.failing_provider) Cases.zenith
             = (mkState (self Cases.zenith) [] [c],
                Throw (Measurement DensityProviderError)))
  /\ (exists c, BendingAngle (EX := Cases.failing_provider) Cases.zenith
                = (mkState (self Cases.zenith) [] [c],
                   Throw (Measurement DensityProviderError)))
  /\ snd (CalculateIRI2007 (EX := Cases.failing_provider) Cases.zenith)
     = Throw (Measurement DensityProviderError)
  /\ List.length (iri_calls (fst (CalculateIRI2007 (EX := Cases.failing_provider)
                                    Cases.zenith))) = 1%nat.
Proof.
  apply (X3_provider_error_stops_the_integration (EX := Cases.failing_provider)
           Cases.zenith Cases.zenith true).
  - intros c. cbn. discriminate.
  - exact zenith_crosses.
  - apply zenith_initialized.
  - exact zenith_in_window.
Defined.

Lemma X4_witness :
  ~ misses_shell (self Cases.zenith)
  /\ entry_point (self Cases.zenith) = stationLoc (self Cases.zenith)
  /\ dot (exit_point (self Cases.zenith)) (exit_point (self Cases.zenith))
     = ((6378.1363 + 2000) * (6378.1363 + 2000))%R.
Proof.
  destruct (X4_path_of_a_station_inside_the_shell (self Cases.zenith)) as (H1 & H2 & _ & H4).
  - unfold dot. cbn. lra.
  - cbn. intros H. injection H as H. lra.
  - split; [exact H1 |]. split; [exact H2 |].
    apply H4. unfold dot. cbn. lra.
Defined.

Lemma X5_witness :
  snd (TEC Cases.zenith)
  = Ok (Rmax 100000000000 0
        * (GetMagnitude (vsub (exit_point (self Cases.zenith))
                              (entry_point (self Cases.zenith)))
           * 1000))%R.
Proof.
  apply (X5_TEC_of_a_uniform_ionosphere (EX := Demo.ext) Cases.zenith 100000000000%R).
  - intros c. reflexivity.
  - exact zenith_crosses.
Defined.

Lemma X6_witness :
  SPEED_OF_LIGHT_VACUUM (Externals := Demo.ext) <> 0%R
  /\ waveLength (self Cases.zenith) <> 0%R
  /\ (1 - 403 / 10 * Rmax 100000000000 0
           / (SPEED_OF_LIGHT_VACUUM (Externals := Demo.ext)
              / waveLength (self Cases.zenith)
              * (SPEED_OF_LIGHT_VACUUM (Externals := Demo.ext)
                 / waveLength (self Cases.zenith))) <> 0)%R
  /\ snd (BendingAngle Cases.zenith) = Ok 0%R.
Proof.
  assert (Hc : SPEED_OF_LIGHT_VACUUM (Externals := Demo.ext) <> 0%R) by (cbn; lra).
  assert (Hw : waveLength (self Cases.zenith) <> 0%R) by (cbn; lra).
  assert (Hn : (1 - 403 / 10 * Rmax 100000000000 0
                    / (SPEED_OF_LIGHT_VACUUM (Externals := Demo.ext)
                       / waveLength (self Cases.zenith)
                       * (SPEED_OF_LIGHT_VACUUM (Externals := Demo.ext)
                          / waveLength (self Cases.zenith))) <> 0)%R).
  { rewrite Rmax_left by lra. cbn.
    set (f := (299792458 / 0.13)%R).
    assert (Hf : (299792458 < f)%R).
    { unfold f. apply Rmult_lt_reg_r with 0.13%R; [lra |].
      unfold Rdiv. rewrite Rmult_assoc, Rinv_l by lra. lra. }
    assert (Hff : (403 / 10 * 100000000000 < f * f)%R) by nra.
    assert (E : (403 / 10 * 100000000000 / (f * f) * (f * f)
                 = 403 / 10 * 100000000000)%R) by (field; nra).
    assert (K : (403 / 10 * 100000000000 / (f * f) < 1)%R).
    { apply Rmult_lt_reg_r with (f * f)%R; [nra |]. rewrite E. lra. }
    lra. }
  split; [exact Hc |]. split; [exact Hw |]. split; [exact Hn |].
  apply (X6_no_bending_in_a_uniform_ionosphere (EX := Demo.ext) Cases.zenith
           100000000000%R); [intros c; reflexivity | exact Hc | exact Hw | exact Hn].
Defined.

Lemma X7_witness :
  (0 <= KM_TO_M (Externals := Demo.ext))%R
  /\ SPEED_OF_LIGHT_VACUUM (Externals := Demo.ext) <> 0%R
  /\ waveLength (self Cases.zenith) <> 0%R
  /\ (forall tec, snd (TEC Cases.zenith) = Ok tec -> (0 <= tec)%R)
  /\ (forall drho dphi dtime,
        snd (CalculateIRI2007 Cases.zenith) = Ok [drho; dphi; dtime] -> (0 <= drho)%R).
Proof.
  assert (H : (0 <= KM_TO_M (Externals := Demo.ext))%R) by (cbn; lra).
  assert (Hc : SPEED_OF_LIGHT_VACUUM (Externals := Demo.ext) <> 0%R) by (cbn; lra).
  assert (Hw : waveLength (self Cases.zenith) <> 0%R) by (cbn; lra).
  split; [exact H |]. split; [exact Hc |]. split; [exact Hw |].
  exact (X7_range_correction_is_not_negative (EX := Demo.ext) Cases.zenith H Hc Hw).
Defined.

(** ** Runs of the table scan *)

Lemma X10_witness :
  station_number (self (Demo.empirical [Demo.complex_row; Cases.short_row])) = Some 15%Z
  /\ (List.length Cases.short_row < 8)%nat
  /\ snd (CalculateTRK223 (Demo.empirical [Demo.complex_row; Cases.short_row]))
     = Fault (OutOfBounds 7 2).
Proof.
  split; [reflexivity |]. split; [cbn; lia |].
  apply (X10_short_row_is_read_past_its_end (EX := Demo.ext)
           (Demo.empirical [Demo.complex_row; Cases.short_row]) 15
           [Demo.complex_row] [] Cases.short_row).
  - reflexivity.
  - reflexivity.
  - intros r [<- | []]. eexists. apply complex_row_level; [reflexivity | cbn; lra].
  - cbn. lia.
Defined.

Lemma complex_C10_level :
  row_level (self Cases.complex_C10) 10 Demo.complex_row = Ok (Some ComplexLevel).
Proof.
  change (row_level (self Cases.complex_C10) 15 Demo.complex_row
          = Ok (Some ComplexLevel)).
  apply complex_row_level; [reflexivity | cbn; lra].
Qed.

Lemma X11_witness :
  station_number (self Cases.complex_C10) = Some 10%Z
  /\ station_key (self Cases.complex_C10) = complex_key 10
  /\ snd (CalculateTRK223 Cases.complex_C10)
     = Ok [(3 * (freqSBand / (SPEED_OF_LIGHT_VACUUM / 0.13))
              * (freqSBand / (SPEED_OF_LIGHT_VACUUM / 0.13)))%R;
           lit 0;
           (3 * (freqSBand / (SPEED_OF_LIGHT_VACUUM / 0.13))
              * (freqSBand / (SPEED_OF_LIGHT_VACUUM / 0.13))
            / SPEED_OF_LIGHT_VACUUM)%R].
Proof.
  split; [reflexivity |]. split; [reflexivity |].
  assert (Hall : forall row, In row (DSNDatabase (self Cases.complex_C10)) ->
                   exists lv, row_level (self Cases.complex_C10) 10 row = Ok lv).
  { intros row [<- | []]. eexists. exact complex_C10_level. }
  apply (proj2 (X11_complex_identifier_has_no_station_record (EX := Demo.ext)
                  Cases.complex_C10 10 eq_refl eq_refl Hall) 0%nat Demo.complex_row).
  - split; [reflexivity |]. split; [exact complex_C10_level |].
    intros j row' Hj Hnth. destruct j as [| [| j]]; try lia; discriminate.
  - rewrite (TRK223Solver_CONST Cases.complex_C10 Demo.complex_row
               (epoch (self Cases.complex_C10)) "3"
               "20 01 01 00 00" "20 12 31 00 00" 3%R [] _ _
               eq_refl eq_refl demo_coefs_3 eq_refl demo_window_start
               eq_refl demo_window_end).
    reflexivity.
Defined.

Lemma X12_witness :
  snd (CalculateTRK223 Cases.station_GDS) = Fault UninitializedRead
  /\ groundStationId (self (fst (CalculateTRK223 Cases.station_GDS))) = "DSN(DSN(C10))".
Proof.
  apply (X12_abbreviation_reads_unassigned_station_number (EX := Demo.ext)
           Cases.station_GDS).
  - left. reflexivity.
  - reflexivity.
Defined.

Lemma physics_correction :
  snd (Correction Demo.physics)
  = Ok (IRI2007_triple (self Demo.physics) (lit 0) (lit 0)).
Proof.
  change (Correction Demo.physics) with (CalculateIRI2007 Demo.physics).
  apply (C2_triple_helper Demo.physics Demo.physics true).
  - apply Initialize_when_initialized. reflexivity.
  - unfold mjdate. cbn. lia.
  - rewrite TEC_misses_shell by apply physics_geometry_misses_shell. reflexivity.
  - rewrite BendingAngle_misses_shell by apply physics_geometry_misses_shell. reflexivity.
Qed.

Lemma X14_witness :
  exists drho dphi,
    IRI2007_triple (self Demo.physics) (lit 0) (lit 0)
    = [drho; dphi; (drho / SPEED_OF_LIGHT_VACUUM)%r]
    /\ (modelTypeName (self Demo.physics) = "TRK-2-23" -> dphi = lit 0).
Proof.
  exact (X14_correction_is_a_triple (EX := Demo.ext) Demo.physics _ physics_correction).
Defined.

(** ** Runs of the initialisation *)

Lemma X15_witness :
  Initialize (EX := Cases.failing_interface) Cases.new_engine = (Cases.new_engine, Ok true)
  /\ snd (CalculateIRI2007 (EX := Cases.failing_interface) Cases.new_engine)
     = Throw (Measurement (DataOutOfRange "1/1/2000" "1/1/2000")).
Proof.
  destruct (X15_failed_interface_rejects_every_epoch (EX := Cases.failing_interface)
              Cases.new_engine) as (H1 & H2 & _).
  - reflexivity.
  - reflexivity.
  - cbn. lia.
  - split; [exact H1 | exact H2].
Defined.

Lemma X16_witness :
  (forall ra, snd (CalculateIRI2007 (EX := Cases.failing_load) Cases.new_engine) <> Ok ra)
  /\ isInitialized (self (fst (CalculateIRI2007 (EX := Cases.failing_load)
                                 Cases.new_engine))) = false
  /\ snd (CalculateIRI2007 (EX := Cases.failing_load) Cases.new_engine)
     = Throw (Measurement DataFileMissing).
Proof.
  destruct (X16_failed_load_gives_no_correction (EX := Cases.failing_load)
              Cases.new_engine) as (H1 & H2 & _ & _ & H5).
  - reflexivity.
  - reflexivity.
  - cbn. lia.
  - split; [exact H1 |]. split; [exact H2 |].
    rewrite (H5 (fst (GetAPTimeRange (EX := Cases.failing_load) Cases.new_engine))
                (fst (GetIGRZTimeRange (EX := Cases.failing_load)
                        (fst (GetAPTimeRange (EX := Cases.failing_load)
                                Cases.new_engine)))));
      reflexivity.
Defined.

Lemma X17_witness :
  let st1 := fst (Initialize Cases.new_engine) in
  Initialize Cases.new_engine = (st1, Ok true)
  /\ (ap_yyyymmddMin (self st1) < ap_yyyymmddMax (self st1))%Z
  /\ (igrz_yyyymmddMin (self st1) < igrz_yyyymmddMax (self st1))%Z.
Proof.
  intros st1.
  assert (H : Initialize Cases.new_engine = (st1, Ok true)) by reflexivity.
  split; [exact H |].
  exact (proj2 (X17_initialised_engine_has_two_valid_windows (EX := Demo.ext)
                  Cases.new_engine st1 true H) eq_refl eq_refl).
Defined.

Lemma X18_witness :
  GetAPTimeRange (EX := Demo.ext) Cases.new_engine
  = GetAPTimeRange (EX := Cases.two_lines) Cases.new_engine.
Proof.
  apply (X18_only_the_first_and_the_last_line_of_ap_dat Demo.ext Cases.two_lines
           " 58  1  1 18 18 12  9 12 22 12  9 13" " 24 12 31  5  5  6  7  9 12 15  9  8"
           [" 58  1  2 13  9  6  6  9 12 12 18 11"; " 24 12 30  4  6  7  5  6  9  7  5  6"]
           [""] Cases.new_engine).
  - discriminate.
  - right. reflexivity.
  - reflexivity.
  - reflexivity.
Defined.

Lemma X19_witness :
  ap_yyyymmddMin (self (fst (GetAPTimeRange (EX := Cases.three_columns) Cases.new_engine)))
  = 19580101%Z
  /\ ap_yyyymmddMax (self (fst (GetAPTimeRange (EX := Cases.three_columns)
                                  Cases.new_engine)))
     = 38580101%Z
  /\ snd (GetAPTimeRange (EX := Cases.three_columns) Cases.new_engine) = Ok tt.
Proof.
  rewrite (X19_first_line_that_ends_with_the_day (EX := Cases.three_columns)
             Cases.new_engine "58 1 1" ["24 12 31"] 58 1 1 " 1 1" " 1"
             eq_refl eq_refl ltac:(discriminate) eq_refl ltac:(discriminate) eq_refl
             ltac:(lia)).
  repeat split.
Defined.


(** ** Decimal digits, as the C library reads them *)

Ltac digit_cases n :=
  let H := fresh "H" in
  let E := fresh "E" in
  assert (H : (0 <= n mod 10 < 10)%Z) by (apply Z.mod_pos_bound; lia);
  assert (E : (n mod 10 = 0 \/ n mod 10 = 1 \/ n mod 10 = 2 \/ n mod 10 = 3
               \/ n mod 10 = 4 \/ n mod 10 = 5 \/ n mod 10 = 6 \/ n mod 10 = 7
               \/ n mod 10 = 8 \/ n mod 10 = 9)%Z) by lia;
  unfold digit;
  destruct E as [E | [E | [E | [E | [E | [E | [E | [E | [E | E]]]]]]]]]; rewrite E.

Lemma read_digits_digit (n : Z) (s : string) (acc : Z) (seen : bool) :
  read_digits (String (digit n) s) acc seen = read_digits s (acc * 10 + n mod 10) true.
Proof. digit_cases n; reflexivity. Qed.

Lemma extract_int_digit (n : Z) (s : string) :
  extract_int (String (digit n) s)
  = (let '(v, seen, rest) := read_digits (String (digit n) s) 0 false in
     if seen then Some (v, rest) else None).
Proof. digit_cases n; reflexivity. Qed.

Lemma read_digits_digits (k : nat) (n : Z) :
  forall acc, read_digits (digits k n) acc true
              = (acc * 10 ^ Z.of_nat k + n mod 10 ^ Z.of_nat k, true, "")%Z.
Proof.
  induction k as [| k IH]; intros acc.
  - cbn [digits read_digits Z.of_nat]. rewrite Z.pow_0_r, Z.mod_1_r. do 2 f_equal. lia.
  - cbn [digits]. rewrite read_digits_digit, IH. do 2 f_equal.
    rewrite Nat2Z.inj_succ, Z.pow_succ_r by lia.
    assert (Hp : (0 < 10 ^ Z.of_nat k)%Z) by (apply Z.pow_pos_nonneg; lia).
    rewrite (Z.mul_comm 10 (10 ^ Z.of_nat k)).
    rewrite (Z.rem_mul_r n (10 ^ Z.of_nat k) 10) by lia.
    ring.
Qed.

(** [atoi] reads a number written in decimal digits. *)
Lemma c_atoi_digits (k : nat) (n : Z) :
  (0 <= n < 10 ^ Z.of_nat k)%Z -> Demo.c_atoi (digits k n) = n.
Proof.
  intros H. unfold Demo.c_atoi. destruct k as [| k].
  - cbn in *. lia.
  - cbn [digits]. rewrite extract_int_digit, read_digits_digit.
    cbn [digits] in *. rewrite read_digits_digits.
    rewrite <- (Z.mod_small n (10 ^ Z.of_nat (S k))) at 3 by exact H.
    rewrite Nat2Z.inj_succ, Z.pow_succ_r by lia.
    assert (Hp : (0 < 10 ^ Z.of_nat k)%Z) by (apply Z.pow_pos_nonneg; lia).
    rewrite (Z.mul_comm 10 (10 ^ Z.of_nat k)).
    rewrite (Z.rem_mul_r n (10 ^ Z.of_nat k) 10) by lia.
    ring.
Qed.

Lemma X21_witness :
  ConvertA1MjdToUTCGregorian 29016%R = iso_timestamp 2020 6 15 12 0 0 0
  /\ SetTime 29016%R Cases.new_engine
     = (mkState
          (set_hours (of_int 12 + of_int 0 / lit 60 + of_int 0 / lit 3600
                      + of_int 0 / lit 3600000)%r
             (set_mmdd 615 (set_yyyy 2020 (set_epoch 29016%R (self Cases.new_engine)))))
          [] [],
        Ok true).
Proof.
  split; [reflexivity |].
  apply (X21_SetTime_reads_the_ISO_layout (EX := Demo.ext) Cases.new_engine 29016%R
           2020 6 15 12 0 0 0).
  - reflexivity.
  - exact c_atoi_digits.
  - intros k n H. cbn [atof Demo.ext Demo.collaborators].
    rewrite (c_atoi_digits k n H). symmetry. apply Q2R_inject_Z.
  - lia.
Defined.

(* ================================================================== *)
(** * The empirical model over the reals *)

(** X22.  Over the reals, a record with the CHPART marker brackets the
    epoch exactly on the closed interval from its start time to its end
    time: both ends are inside (unlike the windows of the index files, whose
    upper end is outside). *)
Theorem X22_record_window_is_closed {EX : Externals (Real := R)}
    (row : list string) (f4 f5 : string) (t4 t5 : R) :
  at_ row 3 = Ok "CHPART" -> at_ row 4 = Ok f4 -> at_ row 5 = Ok f5 ->
  GetTRK223Time f4 = Ok t4 -> GetTRK223Time f5 = Ok t5 ->
  forall ep : R, brackets_CHPART row ep = Ok true <-> (t4 <= ep <= t5)%R.
Proof.
  intros H3 H4 H5 Ht4 Ht5 ep.
  unfold brackets_CHPART, obind. rewrite H4, Ht4, H5, Ht5, H3. to_reals.
  unfold Rleb.
  destruct (Rle_dec t4 ep) as [L4 | L4]; [| split; [discriminate | lra]].
  destruct (Rle_dec ep t5) as [L5 | L5]; [| split; [discriminate | lra]].
  split; [intros _; lra | reflexivity].
Qed.

Lemma X22_witness :
  let start := Demo.modified_julian_date 2020 1 1 0 0 (Q2R 0) in
  let end_ := Demo.modified_julian_date 2020 12 31 0 0 (Q2R 0) in
  (brackets_CHPART Demo.complex_row start = Ok true <-> (start <= start <= end_)%R)
  /\ (brackets_CHPART Demo.complex_row end_ = Ok true <-> (start <= end_ <= end_)%R).
Proof.
  intros start end_.
  pose proof (X22_record_window_is_closed (EX := Demo.ext) Demo.complex_row
                "20 01 01 00 00" "20 12 31 00 00" start end_
                eq_refl eq_refl eq_refl demo_window_start demo_window_end) as H.
  split; apply H.
Defined.

(** X23.  Over the reals, for a signal with a frequency, the correction
    of a record grows with the square of the wavelength of the signal: with
    a wavelength [k] times as long (a frequency [k] times as low),
    [TRK223Solver] returns [k * k] times the correction. *)
Theorem X23_correction_scales_with_the_square_of_the_wavelength
    {EX : Externals (Real := R)} (row : list string) (ep : R)
    (st : State (Real := R)) (k v : R) :
  SPEED_OF_LIGHT_VACUUM <> 0%R -> waveLength (self st) <> 0%R -> k <> 0%R ->
  snd (TRK223Solver row ep st) = Ok v ->
  snd (TRK223Solver row ep
         (mkState (set_waveLength (k * waveLength (self st))%R (self st))
                  (messages st) (iri_calls st)))
  = Ok (k * k * v)%R.
Proof.
  intros Hc Hw Hk.
  unfold TRK223Solver, bind, this, lift, ret. cbv beta iota.
  destruct (at_ row 1) as [modelType | |]; try discriminate.
  destruct (at_ row 2) as [f2 | |]; try discriminate.
  destruct (at_ row 4) as [f4 | |]; try discriminate.
  destruct (GetTRK223Time f4) as [epochStart | |]; try discriminate.
  destruct (at_ row 5) as [f5 | |]; try discriminate.
  destruct (GetTRK223Time f5) as [epochEnd | |]; try discriminate.
  destruct (TRK223_series modelType (ToRealArray f2) ep epochStart epochEnd)
    as [drho | |]; try discriminate.
  cbn [snd self waveLength set_waveLength]. intros H. injection H as <-.
  f_equal. unfold freqSBand. to_reals. field. repeat split; assumption.
Qed.

Lemma X23_witness :
  snd (TRK223Solver Demo.complex_row 29016%R (Demo.empirical []))
  = Ok (3 * (freqSBand / (SPEED_OF_LIGHT_VACUUM / 0.13))
          * (freqSBand / (SPEED_OF_LIGHT_VACUUM / 0.13)))%R
  /\ snd (TRK223Solver Demo.complex_row 29016%R
            (mkState (set_waveLength (2 * 0.13)%R (self (Demo.empirical []))) [] []))
     = Ok (2 * 2 * (3 * (freqSBand / (SPEED_OF_LIGHT_VACUUM / 0.13))
                      * (freqSBand / (SPEED_OF_LIGHT_VACUUM / 0.13))))%R.
Proof.
  assert (H : snd (TRK223Solver Demo.complex_row 29016%R (Demo.empirical []))
              = Ok (3 * (freqSBand / (SPEED_OF_LIGHT_VACUUM / 0.13))
                      * (freqSBand / (SPEED_OF_LIGHT_VACUUM / 0.13)))%R).
  { rewrite (TRK223Solver_CONST (Demo.empirical []) Demo.complex_row 29016%R "3"
               "20 01 01 00 00" "20 12 31 00 00" 3%R [] _ _
               eq_refl eq_refl demo_coefs_3 eq_refl demo_window_start
               eq_refl demo_window_end).
    reflexivity. }
  split; [exact H |].
  apply (X23_correction_scales_with_the_square_of_the_wavelength (EX := Demo.ext)
           Demo.complex_row 29016%R (Demo.empirical []) 2%R _).
  - cbn. lra.
  - cbn. lra.
  - lra.
  - exact H.
Defined.

(** ** The series of a record *)

Lemma harmonics_period (coefs : list R) (phase : R) (m : nat) :
  forall j0, harmonics coefs (phase + 2 * PI) j0 m = harmonics coefs phase j0 m.
Proof.
  induction m as [| m IH]; intros j0; cbn [harmonics]; [reflexivity |].
  rewrite IH.
  replace (INR j0 * (phase + 2 * PI))%R with (INR j0 * phase + 2 * INR j0 * PI)%R by ring.
  rewrite cos_period, sin_period. reflexivity.
Qed.

(** X24.  Over the reals, the first coefficient of a TRIG record is the
    period of its series in seconds: for a record with an even number of
    coefficients and a first coefficient that is not 0, the correction
    before rescaling is the same [coefs[0]] seconds later. *)
Theorem X24_first_TRIG_coefficient_is_the_period (coefs : list R) (t start e : R)
    (m : nat) :
  List.length coefs = (2 * m + 2)%nat ->
  nth 0 coefs 0%R <> 0%R ->
  TRK223_series "TRIG" coefs (t + nth 0 coefs 0 / 86400)%R start e
  = TRK223_series "TRIG" coefs t start e.
Proof.
  intros Hlen Hc0.
  rewrite !(TRIG_series_value coefs _ start e m Hlen).
  do 2 f_equal.
  replace (TRIG_phase coefs (t + nth 0 coefs 0 / 86400)%R start)
    with (TRIG_phase coefs t start + 2 * PI)%R
    by (unfold TRIG_phase; field; exact Hc0).
  apply harmonics_period.
Qed.

Lemma X24_witness :
  TRK223_series "TRIG" [86400; 1; 2; 3]%R (1 / 4 + 86400 / 86400)%R 0%R 0%R
  = TRK223_series "TRIG" [86400; 1; 2; 3]%R (1 / 4)%R 0%R 0%R.
Proof.
  apply (X24_first_TRIG_coefficient_is_the_period [86400; 1; 2; 3]%R (1 / 4)%R 0%R 0%R
           1%nat).
  - reflexivity.
  - cbn [nth]. lra.
Defined.

Lemma NRMPOW_loop_horner (x : R) (l : list R) :
  forall (pre : list R) (drho : R),
    NRMPOW_loop (seq (List.length pre) (List.length l)) (pre ++ l) x drho
    = Ok (drho + x ^ List.length pre * horner l x)%R.
Proof.
  induction l as [| c l IH]; intros pre drho.
  - cbn [List.length seq NRMPOW_loop horner fold_right]. f_equal. ring.
  - cbn [List.length seq NRMPOW_loop].
    unfold at_. rewrite nth_error_app2 by lia. rewrite Nat.sub_diag. cbn [nth_error obind].
    replace (pre ++ c :: l)%list with ((pre ++ [c]) ++ l)%list
      by (rewrite <- app_assoc; reflexivity).
    replace (S (List.length pre)) with (List.length (pre ++ [c])%list)
      by (rewrite length_app; cbn; lia).
    rewrite IH. f_equal. to_reals.
    rewrite <- pow_powerRZ, length_app. cbn [List.length horner fold_right].
    replace (List.length pre + 1)%nat with (S (List.length pre)) by lia.
    cbn [pow]. fold (horner l x). ring.
Qed.

Lemma NRMPOW_value (coefs : list R) (t s e : R) :
  TRK223_series "NRMPOW" coefs t s e
  = Ok (horner coefs (2 * ((t * 86400 - s * 86400) / (e * 86400 - s * 86400)) - 1))%R.
Proof.
  unfold TRK223_series. cbn [String.eqb Ascii.eqb Bool.eqb]. cbv zeta.
  pose proof (NRMPOW_loop_horner
                (2 * ((t * 86400 - s * 86400) / (e * 86400 - s * 86400)) - 1)%R
                coefs [] (lit 0)) as K.
  cbn [List.length app] in K. to_reals. rewrite K. f_equal. cbn [pow]. ring.
Qed.

Lemma horner_at_1 (l : list R) : horner l 1%R = fold_right Rplus 0%R l.
Proof.
  induction l as [| c l IH]; cbn [horner fold_right]; [reflexivity |].
  fold (horner l 1%R). rewrite IH. ring.
Qed.

(** X25.  Over the reals, the NRMPOW branch of the evaluator is the
    polynomial of the coefficients, lowest degree first, at the epoch mapped
    from the window of the record to [-1, 1]; it reads every coefficient and
    nothing else, for any number of them (none gives 0); at the end of a
    window that has a length, the value is the sum of the coefficients. *)
Theorem X25_NRMPOW_is_a_polynomial (coefs : list R) (t s e : R) :
  let x := (2 * ((t * 86400 - s * 86400) / (e * 86400 - s * 86400)) - 1)%R in
  TRK223_series "NRMPOW" coefs t s e = Ok (horner coefs x)
  /\ TRK223_series "NRMPOW" [] t s e = Ok 0%R
  /\ (e <> s -> TRK223_series "NRMPOW" coefs e s e = Ok (fold_right Rplus 0%R coefs)).
Proof.
  intros x. split; [apply NRMPOW_value |]. split.
  - rewrite NRMPOW_value. reflexivity.
  - intros Hne. rewrite NRMPOW_value. f_equal.
    replace (2 * ((e * 86400 - s * 86400) / (e * 86400 - s * 86400)) - 1)%R with 1%R
      by (field; lra).
    apply horner_at_1.
Qed.

(** ** A copy of an engine that has warned *)

Lemma X26_witness :
  igrz_WarningCount (self Cases.warned) = 1%Z
  /\ messages (fst (CalculateIRI2007 Cases.warned)) = messages Cases.warned
  /\ messages (fst (CalculateIRI2007
                      (mkState (Ionosphere_copy (self Cases.warned) (self Cases.warned))
                               (messages Cases.warned) (iri_calls Cases.warned))))
     = (messages Cases.warned ++ [igrz_warning (self Cases.warned)])%list.
Proof.
  split; [reflexivity |].
  destruct (X26_a_copy_warns_again (EX := Demo.ext) Cases.warned (self Cases.warned))
    as (H1 & H2 & _).
  - reflexivity.
  - reflexivity.
  - right. unfold mjdate. cbn. lia.
  - cbn. lia.
  - split; [exact H1 | exact H2].
Defined.

(** ** A table that can be scanned *)

Lemma X30_witness :
  (forall row, In row [Demo.complex_row; Demo.station_row] -> row_can_be_tested row)
  /\ exists a b,
       scan "SCID(7)" "DSN(C10)" "DSN(015)" 29016%R [Demo.complex_row; Demo.station_row]
            0 (-1, -1) = Ok (a, b)
       /\ (a = (-1)%Z \/ (0 <= a < 2)%Z)
       /\ (b = (-1)%Z \/ (0 <= b < 2)%Z).
Proof.
  assert (H : forall row, In row [Demo.complex_row; Demo.station_row] ->
                          row_can_be_tested row).
  { intros row [<- | [<- | []]]; unfold row_can_be_tested; cbn; lia. }
  split; [exact H |].
  exact (X30_table_that_can_be_scanned (EX := Demo.ext) "SCID(7)" "DSN(C10)" "DSN(015)"
           29016%R [Demo.complex_row; Demo.station_row] H).
Defined.
